(** * PowerFlex SDC and NVMe-host modules: a shallow embedding

    The two Ansible modules [plugins/modules/dellemc_powerflex_sdc.py] and
    [plugins/modules/nvme_host.py] are embedded as programs of a small
    monad that threads the state of the remote PowerFlex system, records
    every call made on the SDK connection and stops at [fail_json].

    Conventions.
    - A module parameter of type [str] is an [option string]: [None] is
      Python's [None].  A character is a code point below 256.
    - A record returned by [powerflex_conn.sdc.get] is a dict; the keys the
      modules read are the fields of [sdc_record], the values are JSON
      values ([pyval]).
    - The SDK is external: it is an interface ([PowerFlexConn]) over an
      arbitrary state.  Reads are functions of that state; mutating calls
      return a new state.  Every call may raise. *)

From Stdlib Require Import String Ascii List ZArith Bool Lia DecimalString.
Import ListNotations.
Local Open Scope string_scope.
Local Open Scope list_scope.

(** ** Python values and strings *)

Inductive pyval : Type :=
| PyNone
| PyInt (z : Z)
| PyStr (s : string).

(** [str(v)] *)
Definition py_str (v : pyval) : string :=
  match v with
  | PyNone => "None"
  | PyInt z => NilZero.string_of_int (Z.to_int z)
  | PyStr s => s
  end.

(** [a == b] on JSON values *)
Definition py_eqb (a b : pyval) : bool :=
  match a, b with
  | PyNone, PyNone => true
  | PyInt x, PyInt y => Z.eqb x y
  | PyStr x, PyStr y => String.eqb x y
  | _, _ => false
  end.

(** Truth value of an optional string: [None] and [''] are false. *)
Definition truthy (o : option string) : bool :=
  match o with
  | None => false
  | Some s => negb (String.eqb s "")
  end.

(** [o is None] *)
Definition is_none {A} (o : option A) : bool :=
  match o with None => true | Some _ => false end.

(** [a or b] on optional strings *)
Definition py_or (a b : option string) : option string :=
  if truthy a then a else b.

(** [c.isspace()] for a code point below 256 *)
Definition is_space (c : ascii) : bool :=
  let n := nat_of_ascii c in
  ((9 <=? n) && (n <=? 13) || (28 <=? n) && (n <=? 32)
   || (n =? 133) || (n =? 160))%nat.

Fixpoint lstrip (s : string) : string :=
  match s with
  | EmptyString => EmptyString
  | String c s' => if is_space c then lstrip s' else s
  end.

Fixpoint string_rev (s : string) : string :=
  match s with
  | EmptyString => EmptyString
  | String c s' => string_rev s' ++ String c EmptyString
  end.

Definition rstrip (s : string) : string := string_rev (lstrip (string_rev s)).

(** [s.strip()] *)
Definition strip (s : string) : string := rstrip (lstrip s).

(** [len(s.strip()) == 0] *)
Definition blank (s : string) : bool := (String.length (strip s) =? 0)%nat.

(** Every character of the string is white space (the empty string too). *)
Fixpoint whitespace_only (s : string) : bool :=
  match s with
  | EmptyString => true
  | String c s' => is_space c && whitespace_only s'
  end.

(** ** Remote records, the SDK connection and the calls made on it *)

(** An entry of [sdc.get_mapped_volumes]. *)
Record volume : Type := { volume_id : string; volume_name : string }.

(** A dict of [sdc.get]; [rec_mapped_volumes] is the key ['mapped_volumes']
    that [get_sdc] adds ([None]: key not set). *)
Record sdc_record : Type := {
  rec_id : string;
  rec_name : pyval;
  rec_sdcIp : pyval;
  rec_nqn : pyval;
  rec_maxNumPaths : pyval;
  rec_maxNumSysPorts : pyval;
  rec_mapped_volumes : option (list volume)
}.

(** [d['mapped_volumes'] = vols] *)
Definition set_mapped_volumes (d : sdc_record) (vols : list volume) : sdc_record :=
  {| rec_id := rec_id d; rec_name := rec_name d; rec_sdcIp := rec_sdcIp d;
     rec_nqn := rec_nqn d; rec_maxNumPaths := rec_maxNumPaths d;
     rec_maxNumSysPorts := rec_maxNumSysPorts d;
     rec_mapped_volumes := Some vols |}.

(** [str(e)] of an exception raised by the SDK *)
Definition exn : Type := string.

Inductive filter_key : Type := KName | KSdcIp | KId | KNqn.

(** [filter_fields={key: value}] *)
Definition filter : Type := (filter_key * option string)%type.

Inductive call : Type :=
| SdcGet (f : filter)
| SdcGetMappedVolumes (sdc_id : string)
| SdcRename (sdc_id : string) (name : string)
| SdcDelete (sdc_id : string)
| HostCreate (nqn name max_num_paths max_num_sys_ports : option string)
| HostModifyMaxNumPaths (host_id : string) (max_num_paths : string)
| HostModifyMaxNumSysPorts (host_id : string) (max_num_sys_ports : string).

Definition mutating (c : call) : bool :=
  match c with
  | SdcGet _ | SdcGetMappedVolumes _ => false
  | _ => true
  end.

(** [powerflex_conn]: the operations of the SDK the modules use, over the
    state [S] of the remote system. *)
Class PowerFlexConn (S : Type) : Type := {
  sdc_get : filter -> S -> exn + list sdc_record;
  sdc_get_mapped_volumes : string -> S -> exn + list volume;
  sdc_rename : string -> string -> S -> (exn + unit) * S;
  sdc_delete : string -> S -> (exn + unit) * S;
  host_create : option string -> option string -> option string ->
                option string -> S -> (exn + option sdc_record) * S;
  host_modify_max_num_paths : string -> string -> S -> (exn + unit) * S;
  host_modify_max_num_sys_ports : string -> string -> S -> (exn + unit) * S
}.

(** ** The monad of a module run *)

Inductive pyexc : Type := UnboundLocalError.

(** How a computation ends: with a value, at [module.fail_json], or with a
    Python exception that nothing catches. *)
Inductive outcome (F A : Type) : Type :=
| Ok (a : A)
| FailJson (f : F)
| Crash (e : pyexc).
Arguments Ok {F A} a.
Arguments FailJson {F A} f.
Arguments Crash {F A} e.

(** A computation takes the remote state and gives its outcome, the remote
    state it leaves and the calls it made, in order. *)
Definition M (S F A : Type) : Type := S -> outcome F A * S * list call.

Definition ret {S F A} (a : A) : M S F A := fun s => (Ok a, s, []).

Definition bind {S F A B} (m : M S F A) (k : A -> M S F B) : M S F B :=
  fun s =>
    match m s with
    | (Ok a, s1, t1) =>
        match k a s1 with (o, s2, t2) => (o, s2, t1 ++ t2) end
    | (FailJson f, s1, t1) => (FailJson f, s1, t1)
    | (Crash e, s1, t1) => (Crash e, s1, t1)
    end.

(** [module.fail_json(msg=...)]: it leaves through [SystemExit], which no
    [except Exception] of the modules catches. *)
Definition fail_json {S F A} (f : F) : M S F A := fun s => (FailJson f, s, []).

Definition crash {S F A} (e : pyexc) : M S F A := fun s => (Crash e, s, []).

(** A read on the connection inside [try]: the caller gets the value or the
    exception. *)
Definition try_read {S F A} (c : call) (op : S -> exn + A) : M S F (exn + A) :=
  fun s => (Ok (op s), s, [c]).

(** A mutating call on the connection inside [try]. *)
Definition try_write {S F A} (c : call) (op : S -> (exn + A) * S)
  : M S F (exn + A) :=
  fun s => match op s with (r, s') => (Ok r, s', [c]) end.

(** The three parts of a run. *)
Definition outcome_of {S F A} (x : outcome F A * S * list call) : outcome F A :=
  fst (fst x).

Definition state_of {S F A} (x : outcome F A * S * list call) : S :=
  snd (fst x).

Definition calls_of {S F A} (x : outcome F A * S * list call) : list call :=
  snd x.

Declare Scope module_scope.
Delimit Scope module_scope with module.
Notation "x <- m ;; k" := (bind m (fun x => k))
  (at level 61, m at next level, right associativity) : module_scope.
Notation "m ;; k" := (bind m (fun _ => k))
  (at level 61, right associativity) : module_scope.

(** [state: choices=['present', 'absent']] *)
Inductive lifecycle : Type := present | absent.

Definition is_present (st : lifecycle) : bool :=
  match st with present => true | absent => false end.

Definition is_absent (st : lifecycle) : bool :=
  match st with present => false | absent => true end.

(** The error taxonomy of the specification. *)
Inductive error_kind : Type :=
| MissingIdentifier
| InvalidIdentifier
| InvalidInput
| ResourceNotFound
| UnsupportedOperation
| RemoteCallFailure.

(** ** plugins/modules/dellemc_powerflex_sdc.py *)

Module Sdc.

(** The [fail_json] sites of the module, with the values in the message. *)
Inductive failure : Type :=
| RenameFailed (sdc_id : string) (e : exn)
    (* "Failed to rename SDC %s with error %s" *)
| MappedVolumesFailed (sdc_id : string) (e : exn)
    (* "Failed to get the volumes mapped to SDC %s with error %s" *)
| GetFailed (id_ip_name : option string) (e : exn)
    (* "Failed to get the SDC %s with error %s" *)
| ProvideIdentifier
    (* "Please provide sdc_name/sdc_id/sdc_ip with valid input." *)
| ProvideValid (param : string)
    (* "Please provide valid %s" *)
| CouldNotFind (id_ip_name : option string)
    (* "Could not find any SDC instance with identifier %s." *)
| RemovalNotAllowed
    (* "Removal of SDC is not allowed through Ansible module." *)
| ProvideValidName.
    (* "Please provide valid SDC name." *)

Definition kind_of (f : failure) : error_kind :=
  match f with
  | RenameFailed _ _ | MappedVolumesFailed _ _ | GetFailed _ _ => RemoteCallFailure
  | ProvideIdentifier => MissingIdentifier
  | ProvideValid _ => InvalidIdentifier
  | CouldNotFind _ => ResourceNotFound
  | RemovalNotAllowed => UnsupportedOperation
  | ProvideValidName => InvalidInput
  end.

(** [module.params] *)
Record params : Type := {
  sdc_name : option string;
  sdc_id : option string;
  sdc_ip : option string;
  sdc_new_name : option string;
  state : lifecycle
}.

(** The dict given to [exit_json]. *)
Record result : Type := { changed : bool; sdc_details : option sdc_record }.

Section WithConnection.
Context {S : Type} {conn : PowerFlexConn S}.
Local Open Scope module_scope.

Definition rename_sdc (sdc_id new_name : string) : M S failure bool :=
  r <- try_write (SdcRename sdc_id new_name) (sdc_rename sdc_id new_name) ;;
  match r with
  | inr _ => ret true
  | inl e => fail_json (RenameFailed sdc_id e)
  end.

Definition get_mapped_volumes (sdc_id : string) : M S failure (list volume) :=
  r <- try_read (SdcGetMappedVolumes sdc_id) (sdc_get_mapped_volumes sdc_id) ;;
  match r with
  | inr resp => ret resp
  | inl e => fail_json (MappedVolumesFailed sdc_id e)
  end.

(** [sdc_ip if sdc_ip else sdc_name if sdc_name else sdc_id] *)
Definition id_ip_name (sdc_name sdc_ip sdc_id : option string) : option string :=
  if truthy sdc_ip then sdc_ip else if truthy sdc_name then sdc_name else sdc_id.

Definition get_sdc (sdc_name sdc_ip sdc_id : option string)
  : M S failure (option sdc_record) :=
  let flt := if truthy sdc_name then (KName, sdc_name)
             else if truthy sdc_ip then (KSdcIp, sdc_ip)
             else (KId, sdc_id) in
  r <- try_read (SdcGet flt) (sdc_get flt) ;;
  match r with
  | inl e => fail_json (GetFailed (id_ip_name sdc_name sdc_ip sdc_id) e)
  | inr [] => ret None
  | inr (d :: _) =>
      vols <- get_mapped_volumes (rec_id d) ;;
      ret (Some (set_mapped_volumes d vols))
  end.

(** The loop of [validate_parameters] over the identifiers. *)
Fixpoint check_identifiers (l : list (string * option string)) : M S failure unit :=
  match l with
  | [] => ret tt
  | (param, v) :: l' =>
      match v with
      | Some s => if blank s then fail_json (ProvideValid param) else ret tt
      | None => ret tt
      end ;;
      check_identifiers l'
  end.

Definition validate_parameters (p : params) (sdc_name sdc_id sdc_ip : option string)
  : M S failure unit :=
  (if forallb is_none [sdc_name; sdc_id; sdc_ip]
   then fail_json ProvideIdentifier else ret tt) ;;
  check_identifiers [("sdc_name", Sdc.sdc_name p); ("sdc_id", Sdc.sdc_id p);
                     ("sdc_ip", Sdc.sdc_ip p)].

(** Ending with [Ok r] is [module.exit_json] called on the result [r]. *)
Definition perform_module_operation (p : params) : M S failure result :=
  let sdc_name := Sdc.sdc_name p in
  let sdc_id := Sdc.sdc_id p in
  let sdc_ip := Sdc.sdc_ip p in
  let sdc_new_name := Sdc.sdc_new_name p in
  let state := Sdc.state p in
  validate_parameters p sdc_name sdc_id sdc_ip ;;
  sdc_details <- get_sdc sdc_name sdc_ip sdc_id ;;
  (if is_present state && is_none sdc_details
   then fail_json (CouldNotFind (id_ip_name sdc_name sdc_ip sdc_id))
   else ret tt) ;;
  (if is_absent state && negb (is_none sdc_details)
   then fail_json RemovalNotAllowed
   else ret tt) ;;
  renamed <-
    match sdc_details, sdc_new_name with
    | Some d, Some new_name =>
        if is_present state then
          (if blank new_name then fail_json ProvideValidName else ret tt) ;;
          changed <- rename_sdc (rec_id d) new_name ;;
          ret (changed, if changed then Some new_name else sdc_name)
        else ret (false, sdc_name)
    | _, _ => ret (false, sdc_name)
    end ;;
  let changed := fst renamed in
  let sdc_name := snd renamed in
  details <- (if is_present state then get_sdc sdc_name sdc_ip sdc_id
              else ret None) ;;
  ret {| changed := changed; sdc_details := details |}.

End WithConnection.
End Sdc.

(** ** plugins/modules/nvme_host.py *)

Module NvmeHost.

(** The [fail_json] sites of the module, with the values in the message. *)
Inductive failure : Type :=
| NqnRequired
    (* "nqn parameter is required for creating an NVMe host." *)
| NewNameOnCreate
    (* "nvme_host_new_name parameter is not supported during creation ..." *)
| UnableToFind (id_name : option string)
    (* "Unable to find NVMe host with identifier %s" *)
| GetFailed (id_name : option string) (e : exn)
    (* "Failed to get the NVMe host %s with error %s" *)
| ProvideValidNqn
    (* "Please provide valid NQN." *)
| CreateFailed (e : exn)
    (* "Create NVMe host operation failed with error %s" *)
| ProvideValid (param : string)
    (* "Please provide valid {param}" *)
| ProvideAtLeastOne
    (* "Please provide at least one of nvme_host_id, nvme_host_name or nqn" *)
| RemoveFailed (nvme_id : string) (e : exn)
    (* "Removing NVMe host {nvme_id} failed with error {str(e)}" *)
| RenameFailed (host_id : string) (e : exn)
    (* "Failed to rename NVMe host %s with error %s" *)
| ModifyMaxNumPathsFailed (host_id : string) (e : exn)
    (* "Failed to modify NVMe host %s max_num_paths with error %s" *)
| ModifyMaxNumSysPortsFailed (host_id : string) (e : exn).
    (* "Failed to modify NVMe host %s max_num_sys_ports with error %s" *)

Definition kind_of (f : failure) : error_kind :=
  match f with
  | NqnRequired | UnableToFind _ => ResourceNotFound
  | NewNameOnCreate => InvalidInput
  | ProvideValidNqn | ProvideValid _ => InvalidIdentifier
  | ProvideAtLeastOne => MissingIdentifier
  | GetFailed _ _ | CreateFailed _ | RemoveFailed _ _ | RenameFailed _ _
  | ModifyMaxNumPathsFailed _ _ | ModifyMaxNumSysPortsFailed _ _ =>
      RemoteCallFailure
  end.

(** [module.params] *)
Record params : Type := {
  nvme_host_id : option string;
  nvme_host_name : option string;
  nvme_host_new_name : option string;
  max_num_paths : option string;
  max_num_sys_ports : option string;
  nqn : option string;
  state : lifecycle
}.

(** The dict given to [exit_json]. *)
Record result : Type := { changed : bool; nvme_host_details : option sdc_record }.

Section WithConnection.
Context {S : Type} {conn : PowerFlexConn S}.
Local Open Scope module_scope.

(** With no selector that is true, neither [id_name] nor
    [nvme_host_details] is bound: [len(nvme_host_details)] raises inside
    [try], and the handler raises again at [id_name]. *)
Definition get_nvme_host (nvme_host_id nvme_host_name nqn : option string)
  : M S failure (option sdc_record) :=
  let selector :=
    if truthy nvme_host_name then Some (KName, nvme_host_name)
    else if truthy nvme_host_id then Some (KId, nvme_host_id)
    else if truthy nqn then Some (KNqn, nqn)
    else None in
  match selector with
  | None => crash UnboundLocalError
  | Some flt =>
      let id_name := snd flt in
      r <- try_read (SdcGet flt) (sdc_get flt) ;;
      match r with
      | inl e => fail_json (GetFailed id_name e)
      | inr [] =>
          if truthy nvme_host_id then fail_json (UnableToFind id_name)
          else ret None
      | inr (d :: _) => ret (Some d)
      end
  end.

Definition create_nvme_host (nqn name max_num_paths max_num_sys_ports : option string)
  : M S failure (option sdc_record) :=
  (match nqn with
   | None => fail_json ProvideValidNqn
   | Some s => if blank s then fail_json ProvideValidNqn else ret tt
   end) ;;
  r <- try_write (HostCreate nqn name max_num_paths max_num_sys_ports)
         (host_create nqn name max_num_paths max_num_sys_ports) ;;
  match r with
  | inr host_id => ret host_id
  | inl e => fail_json (CreateFailed e)
  end.

Definition create_host (p : params)
    (nvme_host_name nqn max_num_paths max_num_sys_ports : option string)
  : M S failure (option sdc_record * bool) :=
  (if negb (truthy nqn) then fail_json NqnRequired else ret tt) ;;
  (if truthy (NvmeHost.nvme_host_new_name p)
   then fail_json NewNameOnCreate else ret tt) ;;
  created_nvme <- create_nvme_host nqn nvme_host_name max_num_paths
                    max_num_sys_ports ;;
  match created_nvme with
  | Some c =>
      nvme_host_details <- get_nvme_host (Some (rec_id c)) None None ;;
      ret (nvme_host_details, true)
  | None => ret (None, false)
  end.

(** The loop of [validate_parameters] over the identifiers. *)
Fixpoint check_identifiers (l : list (string * option string)) : M S failure unit :=
  match l with
  | [] => ret tt
  | (param, v) :: l' =>
      match v with
      | Some s => if blank s then fail_json (ProvideValid param) else ret tt
      | None => ret tt
      end ;;
      check_identifiers l'
  end.

Definition validate_parameters (p : params) : M S failure unit :=
  check_identifiers [("nvme_host_id", NvmeHost.nvme_host_id p);
                     ("nvme_host_name", NvmeHost.nvme_host_name p)] ;;
  if is_none (NvmeHost.nvme_host_id p) && is_none (NvmeHost.nvme_host_name p)
     && is_none (NvmeHost.nqn p)
  then fail_json ProvideAtLeastOne else ret tt.

Definition remove (nvme_id : string) : M S failure bool :=
  r <- try_write (SdcDelete nvme_id) (sdc_delete nvme_id) ;;
  match r with
  | inr _ => ret true
  | inl e => fail_json (RemoveFailed nvme_id e)
  end.

Definition perform_modify (nvme_host_details : sdc_record)
    (nvme_host_new_name max_num_paths max_num_sys_ports : option string)
  : M S failure bool :=
  let host_id := rec_id nvme_host_details in
  modified <-
    match nvme_host_new_name with
    | Some new_name =>
        if negb (py_eqb (PyStr new_name) (rec_name nvme_host_details)) then
          r <- try_write (SdcRename host_id new_name)
                 (sdc_rename host_id new_name) ;;
          match r with
          | inr _ => ret true
          | inl e => fail_json (RenameFailed host_id e)
          end
        else ret false
    | None => ret false
    end ;;
  modified <-
    match max_num_paths with
    | Some v =>
        if truthy max_num_paths
           && negb (String.eqb v (py_str (rec_maxNumPaths nvme_host_details)))
        then
          r <- try_write (HostModifyMaxNumPaths host_id v)
                 (host_modify_max_num_paths host_id v) ;;
          match r with
          | inr _ => ret true
          | inl e => fail_json (ModifyMaxNumPathsFailed host_id e)
          end
        else ret modified
    | None => ret modified
    end ;;
  match max_num_sys_ports with
  | Some v =>
      if truthy max_num_sys_ports
         && negb (String.eqb v (py_str (rec_maxNumSysPorts nvme_host_details)))
      then
        r <- try_write (HostModifyMaxNumSysPorts host_id v)
               (host_modify_max_num_sys_ports host_id v) ;;
        match r with
        | inr _ => ret true
        | inl e => fail_json (ModifyMaxNumSysPortsFailed host_id e)
        end
      else ret modified
  | None => ret modified
  end.

(** Ending with [Ok r] is [module.exit_json] called on the result [r]. *)
Definition perform_module_operation (p : params) : M S failure result :=
  let nvme_host_id := NvmeHost.nvme_host_id p in
  let nvme_host_name := NvmeHost.nvme_host_name p in
  let nvme_host_new_name := NvmeHost.nvme_host_new_name p in
  let max_num_paths := NvmeHost.max_num_paths p in
  let max_num_sys_ports := NvmeHost.max_num_sys_ports p in
  let nqn := NvmeHost.nqn p in
  let state := NvmeHost.state p in
  validate_parameters p ;;
  nvme_host_details <- get_nvme_host nvme_host_id nvme_host_name nqn ;;
  changed <-
    match nvme_host_details with
    | Some d => if is_absent state then remove (rec_id d) else ret false
    | None => ret false
    end ;;
  changed <-
    match nvme_host_details with
    | Some d =>
        if is_present state
        then perform_modify d nvme_host_new_name max_num_paths max_num_sys_ports
        else ret changed
    | None => ret changed
    end ;;
  created <-
    match nvme_host_details with
    | None =>
        if is_present state
        then create_host p nvme_host_name nqn max_num_paths max_num_sys_ports
        else ret (nvme_host_details, changed)
    | Some _ => ret (nvme_host_details, changed)
    end ;;
  let nvme_host_details := fst created in
  let changed := snd created in
  nvme_host_details <-
    (if changed
     then get_nvme_host nvme_host_id (py_or nvme_host_new_name nvme_host_name) nqn
     else ret nvme_host_details) ;;
  ret {| changed := changed; nvme_host_details := nvme_host_details |}.

End WithConnection.
End NvmeHost.

(** ** Vocabulary of the statements *)

(** The outcome is a [fail_json] of the given kind. *)
Definition fails_with {F A} (kind_of : F -> error_kind) (k : error_kind)
    (o : outcome F A) : Prop :=
  exists f, o = FailJson f /\ kind_of f = k.

(** Selectors tried in a fixed priority order: the first one that is
    supplied and not empty. *)
Fixpoint first_selector (order : list filter) : option filter :=
  match order with
  | [] => None
  | (k, v) :: rest => if truthy v then Some (k, v) else first_selector rest
  end.

(** The priority order of each resource kind. *)
Definition sdc_order (sdc_name sdc_ip sdc_id : option string) : list filter :=
  [(KName, sdc_name); (KSdcIp, sdc_ip); (KId, sdc_id)].

Definition nvme_order (nvme_host_id nvme_host_name nqn : option string)
  : list filter :=
  [(KName, nvme_host_name); (KId, nvme_host_id); (KNqn, nqn)].

(** The first record of a response, if any. *)
Definition first_match (resp : exn + list sdc_record) : option sdc_record :=
  match resp with
  | inr (d :: _) => Some d
  | _ => None
  end.

(** A supplied limit is already the remote value: it is not given, empty,
    or equal to the text of the current value. *)
Definition limit_settled (desired : option string) (current : pyval) : bool :=
  match desired with
  | None => true
  | Some v => String.eqb v "" || String.eqb v (py_str current)
  end.

(** A supplied new name is already the remote name. *)
Definition name_settled (new_name : option string) (current : pyval) : bool :=
  match new_name with
  | None => true
  | Some n => py_eqb (PyStr n) current
  end.

(** The remote already shows what an NVMe-host invocation asks for: for
    [present] the host found carries the requested name and limits, for
    [absent] no host is found. *)
Definition nvme_settled (p : NvmeHost.params) (found : option sdc_record) : bool :=
  match NvmeHost.state p, found with
  | present, Some d =>
      name_settled (NvmeHost.nvme_host_new_name p) (rec_name d)
      && limit_settled (NvmeHost.max_num_paths p) (rec_maxNumPaths d)
      && limit_settled (NvmeHost.max_num_sys_ports p) (rec_maxNumSysPorts d)
  | absent, None => true
  | _, _ => false
  end.

(** Every call a computation makes from the state [s] satisfies [P],
    however the computation ends. *)
Definition calls_satisfy {S F A} (P : call -> Prop) (m : M S F A) (s : S) : Prop :=
  forall o s' t, m s = (o, s', t) -> Forall P t.

(** The diff semantics of the specification, call by call: a mutating call
    on an existing host [d] is justified when the field it writes was
    supplied, is not empty (for a limit) and differs from the current value
    (compared as text for a limit). *)
Definition modify_call_justified (d : sdc_record)
    (new_name max_num_paths max_num_sys_ports : option string) (c : call) : Prop :=
  match c with
  | SdcRename i n =>
      i = rec_id d /\ new_name = Some n /\ PyStr n <> rec_name d
  | HostModifyMaxNumPaths i v =>
      i = rec_id d /\ max_num_paths = Some v /\ v <> ""
      /\ v <> py_str (rec_maxNumPaths d)
  | HostModifyMaxNumSysPorts i v =>
      i = rec_id d /\ max_num_sys_ports = Some v /\ v <> ""
      /\ v <> py_str (rec_maxNumSysPorts d)
  | _ => False
  end.

(** The three tests of [NvmeHost.perform_module_operation] between the
    lookup and the re-fetch, taken together: what is done to the remote
    system for each lookup result and requested state, with the details and
    the [changed] flag it leaves. *)
Definition nvme_mutation {S : Type} {conn : PowerFlexConn S}
    (p : NvmeHost.params) (found : option sdc_record)
  : M S NvmeHost.failure (option sdc_record * bool) :=
  match found, NvmeHost.state p with
  | Some d, absent =>
      bind (NvmeHost.remove (rec_id d)) (fun changed => ret (found, changed))
  | Some d, present =>
      bind (NvmeHost.perform_modify d (NvmeHost.nvme_host_new_name p)
              (NvmeHost.max_num_paths p) (NvmeHost.max_num_sys_ports p))
           (fun changed => ret (found, changed))
  | None, present =>
      NvmeHost.create_host p (NvmeHost.nvme_host_name p) (NvmeHost.nqn p)
        (NvmeHost.max_num_paths p) (NvmeHost.max_num_sys_ports p)
  | None, absent => ret (None, false)
  end.

(** A successful [host.create] on the state [s] returns the created host
    (a dict that is true). *)
Definition create_returns_host {S : Type} {conn : PowerFlexConn S} (s : S) : Prop :=
  forall nqn name max_num_paths max_num_sys_ports,
    fst (host_create nqn name max_num_paths max_num_sys_ports s) <> inr None.

(** The record a lookup ended with, if it ended well with one. *)
Definition looked_up {F} (o : outcome F (option sdc_record)) : option sdc_record :=
  match o with
  | Ok found => found
  | _ => None
  end.

(** A call that modifies a tunable limit is made on the host that was found
    and is justified by a difference; other calls are not constrained. *)
Definition limit_call_justified (found : option sdc_record)
    (new_name max_num_paths max_num_sys_ports : option string) (c : call) : Prop :=
  match c with
  | HostModifyMaxNumPaths _ _ | HostModifyMaxNumSysPorts _ _ =>
      exists d, found = Some d
                /\ modify_call_justified d new_name max_num_paths
                     max_num_sys_ports c
  | _ => True
  end.

(** The calls the SDC module has any code for. *)
Definition sdc_call_allowed (c : call) : bool :=
  match c with
  | SdcGet _ | SdcGetMappedVolumes _ | SdcRename _ _ => true
  | _ => false
  end.

Definition is_delete (c : call) : bool :=
  match c with SdcDelete _ => true | _ => false end.

Definition is_create (c : call) : bool :=
  match c with HostCreate _ _ _ _ => true | _ => false end.

(** The writes that the difference between what is asked and the host [d]
    calls for, in the order rename, paths, ports. *)
Definition modify_plan (d : sdc_record)
    (new_name max_num_paths max_num_sys_ports : option string) : list call :=
  (match new_name with
   | Some n => if name_settled new_name (rec_name d) then []
               else [SdcRename (rec_id d) n]
   | None => []
   end)
  ++ (match max_num_paths with
      | Some v => if limit_settled max_num_paths (rec_maxNumPaths d) then []
                  else [HostModifyMaxNumPaths (rec_id d) v]
      | None => []
      end)
  ++ (match max_num_sys_ports with
      | Some v => if limit_settled max_num_sys_ports (rec_maxNumSysPorts d) then []
                  else [HostModifyMaxNumSysPorts (rec_id d) v]
      | None => []
      end).

(** Whether a list is empty. *)
Definition is_nil {A} (l : list A) : bool :=
  match l with [] => true | _ => false end.

(** ** An in-memory PowerFlex system

    A small stand-in for the remote system, used to run the modules on
    concrete inputs. *)

Module Mem.

Record store : Type := {
  hosts : list sdc_record;
  mappings : list (string * list volume)
}.

Definition field (k : filter_key) (d : sdc_record) : pyval :=
  match k with
  | KName => rec_name d
  | KSdcIp => rec_sdcIp d
  | KId => PyStr (rec_id d)
  | KNqn => rec_nqn d
  end.

Definition of_param (v : option string) : pyval :=
  match v with Some s => PyStr s | None => PyNone end.

Definition matches (f : filter) (d : sdc_record) : bool :=
  py_eqb (of_param (snd f)) (field (fst f) d).

Definition get (f : filter) (s : store) : exn + list sdc_record :=
  inr (List.filter (matches f) (hosts s)).

Fixpoint volumes_of (sdc_id : string) (m : list (string * list volume))
  : list volume :=
  match m with
  | [] => []
  | (i, vols) :: m' => if String.eqb i sdc_id then vols else volumes_of sdc_id m'
  end.

Definition get_mapped_volumes (sdc_id : string) (s : store) : exn + list volume :=
  inr (volumes_of sdc_id (mappings s)).

Definition has_id (i : string) (d : sdc_record) : bool := String.eqb (rec_id d) i.

(** Apply [upd] to the host with the given id; raise when there is none. *)
Definition update (i : string) (upd : sdc_record -> sdc_record) (s : store)
  : (exn + unit) * store :=
  if existsb (has_id i) (hosts s)
  then (inr tt,
        {| hosts := map (fun d => if has_id i d then upd d else d) (hosts s);
           mappings := mappings s |})
  else (inl "not found", s).

Definition with_name (n : string) (d : sdc_record) : sdc_record :=
  {| rec_id := rec_id d; rec_name := PyStr n; rec_sdcIp := rec_sdcIp d;
     rec_nqn := rec_nqn d; rec_maxNumPaths := rec_maxNumPaths d;
     rec_maxNumSysPorts := rec_maxNumSysPorts d;
     rec_mapped_volumes := rec_mapped_volumes d |}.

Definition with_max_num_paths (v : string) (d : sdc_record) : sdc_record :=
  {| rec_id := rec_id d; rec_name := rec_name d; rec_sdcIp := rec_sdcIp d;
     rec_nqn := rec_nqn d; rec_maxNumPaths := PyStr v;
     rec_maxNumSysPorts := rec_maxNumSysPorts d;
     rec_mapped_volumes := rec_mapped_volumes d |}.

Definition with_max_num_sys_ports (v : string) (d : sdc_record) : sdc_record :=
  {| rec_id := rec_id d; rec_name := rec_name d; rec_sdcIp := rec_sdcIp d;
     rec_nqn := rec_nqn d; rec_maxNumPaths := rec_maxNumPaths d;
     rec_maxNumSysPorts := PyStr v;
     rec_mapped_volumes := rec_mapped_volumes d |}.

Definition delete (i : string) (s : store) : (exn + unit) * store :=
  if existsb (has_id i) (hosts s)
  then (inr tt,
        {| hosts := List.filter (fun d => negb (has_id i d)) (hosts s);
           mappings := mappings s |})
  else (inl "not found", s).

Definition create (nqn name max_num_paths max_num_sys_ports : option string)
    (s : store) : (exn + option sdc_record) * store :=
  let d := {| rec_id := "host-" ++ py_str (of_param nqn);
              rec_name := of_param name; rec_sdcIp := PyNone;
              rec_nqn := of_param nqn;
              rec_maxNumPaths := of_param max_num_paths;
              rec_maxNumSysPorts := of_param max_num_sys_ports;
              rec_mapped_volumes := None |} in
  (inr (Some d), {| hosts := hosts s ++ [d]; mappings := mappings s |}).

#[global] Instance conn : PowerFlexConn store := {|
  sdc_get := get;
  sdc_get_mapped_volumes := get_mapped_volumes;
  sdc_rename := fun i n => update i (with_name n);
  sdc_delete := delete;
  host_create := create;
  host_modify_max_num_paths := fun i v => update i (with_max_num_paths v);
  host_modify_max_num_sys_ports := fun i v => update i (with_max_num_sys_ports v)
|}.

(** The host of the unit tests' mock response, and an SDC. *)
Definition nvme_host_test : sdc_record :=
  {| rec_id := "da8f60fd00010000"; rec_name := PyStr "nvme_host_test";
     rec_sdcIp := PyNone;
     rec_nqn := PyStr "nqn.2014-08.org.nvmexpress:uuid:79e90a42-47c9-a0f6-d9d3-51c47c72c7c1";
     rec_maxNumPaths := PyInt 3; rec_maxNumSysPorts := PyInt 3;
     rec_mapped_volumes := None |}.

Definition centos_sdc : sdc_record :=
  {| rec_id := "abc"; rec_name := PyStr "centos_sdc";
     rec_sdcIp := PyStr "10.0.0.7"; rec_nqn := PyNone;
     rec_maxNumPaths := PyNone; rec_maxNumSysPorts := PyNone;
     rec_mapped_volumes := None |}.

Definition vol1 : volume := {| volume_id := "v1"; volume_name := "data" |}.

Definition system : store :=
  {| hosts := [centos_sdc; nvme_host_test]; mappings := [("abc", [vol1])] |}.

(** Invocations used as examples. *)

Definition sdc_params (name id ip new_name : option string) (st : lifecycle)
  : Sdc.params :=
  {| Sdc.sdc_name := name; Sdc.sdc_id := id; Sdc.sdc_ip := ip;
     Sdc.sdc_new_name := new_name; Sdc.state := st |}.

Definition nvme_params (id name new_name paths ports nqn : option string)
    (st : lifecycle) : NvmeHost.params :=
  {| NvmeHost.nvme_host_id := id; NvmeHost.nvme_host_name := name;
     NvmeHost.nvme_host_new_name := new_name;
     NvmeHost.max_num_paths := paths; NvmeHost.max_num_sys_ports := ports;
     NvmeHost.nqn := nqn; NvmeHost.state := st |}.

Definition test_id : string := "da8f60fd00010000".

Definition test_nqn : string :=
  "nqn.2014-08.org.nvmexpress:uuid:79e90a42-47c9-a0f6-d9d3-51c47c72c7c1".

(** [centos_sdc] as [get_sdc] returns it. *)
Definition centos_sdc_details : sdc_record := set_mapped_volumes centos_sdc [vol1].

(** Renaming the SDC and the NVMe host of [system], each selected by id. *)
Definition rename_sdc_by_id : Sdc.params :=
  sdc_params None (Some "abc") None (Some "n2") present.

Definition rename_host_by_id : NvmeHost.params :=
  nvme_params (Some test_id) None (Some "h2") None None None present.

(** A connection to a system that is down: every call raises. *)
Definition down : PowerFlexConn unit := {|
  sdc_get := fun _ _ => inl "connection refused";
  sdc_get_mapped_volumes := fun _ _ => inl "connection refused";
  sdc_rename := fun _ _ s => (inl "connection refused", s);
  sdc_delete := fun _ s => (inl "connection refused", s);
  host_create := fun _ _ _ _ s => (inl "connection refused", s);
  host_modify_max_num_paths := fun _ _ s => (inl "connection refused", s);
  host_modify_max_num_sys_ports := fun _ _ s => (inl "connection refused", s)
|}.

(** Creating a host that [system] does not have. *)
Definition create_host_by_name : NvmeHost.params :=
  nvme_params None (Some "new_host") None (Some "4") None (Some "nqn.new")
    present.

Definition new_host : sdc_record :=
  {| rec_id := "host-nqn.new"; rec_name := PyStr "new_host";
     rec_sdcIp := PyNone; rec_nqn := PyStr "nqn.new";
     rec_maxNumPaths := PyStr "4"; rec_maxNumSysPorts := PyNone;
     rec_mapped_volumes := None |}.

(** Removing the NVMe host of [system], selected by its id. *)
Definition remove_host_by_id : NvmeHost.params :=
  nvme_params (Some test_id) None None None None None absent.

(** Renaming the NVMe host of [system], selected by its name. *)
Definition rename_host_by_name : NvmeHost.params :=
  nvme_params None (Some "nvme_host_test") (Some "h2") None None None present.

End Mem.

(** * Proofs *)

(** ** White space and [strip] *)

Lemma whitespace_only_app (a b : string) :
  whitespace_only (a ++ b) = whitespace_only a && whitespace_only b.
Proof.
  induction a as [|c a IH]; simpl.
  - reflexivity.
  - rewrite IH. now rewrite andb_assoc.
Qed.

Lemma whitespace_only_rev (s : string) :
  whitespace_only (string_rev s) = whitespace_only s.
Proof.
  induction s as [|c s IH]; simpl.
  - reflexivity.
  - rewrite whitespace_only_app, IH. simpl.
    rewrite andb_true_r. apply andb_comm.
Qed.

Lemma whitespace_only_lstrip (s : string) :
  whitespace_only (lstrip s) = whitespace_only s.
Proof.
  induction s as [|c s IH]; simpl.
  - reflexivity.
  - destruct (is_space c) eqn:Hc; simpl.
    + exact IH.
    + now rewrite Hc.
Qed.

Lemma lstrip_empty (s : string) :
  (String.length (lstrip s) =? 0)%nat = whitespace_only s.
Proof.
  induction s as [|c s IH]; simpl.
  - reflexivity.
  - destruct (is_space c); simpl; [exact IH | reflexivity].
Qed.

Lemma append_length (a b : string) :
  String.length (a ++ b) = (String.length a + String.length b)%nat.
Proof. induction a as [|c a IH]; simpl; [reflexivity | now rewrite IH]. Qed.

Lemma string_rev_length (s : string) :
  String.length (string_rev s) = String.length s.
Proof.
  induction s as [|c s IH]; simpl.
  - reflexivity.
  - rewrite append_length, IH. simpl. lia.
Qed.

(** [len(s.strip()) == 0] holds exactly of the strings made of white space
    only. *)
Lemma blank_whitespace_only (s : string) : blank s = whitespace_only s.
Proof.
  unfold blank, strip, rstrip.
  rewrite string_rev_length, lstrip_empty, whitespace_only_rev.
  apply whitespace_only_lstrip.
Qed.

Lemma blank_not_truthy (s : string) : truthy (Some s) = false -> blank s = true.
Proof.
  simpl. destruct (String.eqb_spec s ""); [subst; reflexivity | discriminate].
Qed.

(** ** The monad *)

Section MonadLemmas.
Context {S F : Type}.

Lemma bind_ok {A B} (m : M S F A) (k : A -> M S F B) s a s1 t1 :
  m s = (Ok a, s1, t1) ->
  bind m k s = match k a s1 with (o, s2, t2) => (o, s2, t1 ++ t2) end.
Proof. intros H. unfold bind. now rewrite H. Qed.

Lemma bind_fail {A B} (m : M S F A) (k : A -> M S F B) s f s1 t1 :
  m s = (FailJson f, s1, t1) -> bind m k s = (FailJson f, s1, t1).
Proof. intros H. unfold bind. now rewrite H. Qed.

Lemma bind_crash {A B} (m : M S F A) (k : A -> M S F B) s e s1 t1 :
  m s = (Crash e, s1, t1) -> bind m k s = (Crash e, s1, t1).
Proof. intros H. unfold bind. now rewrite H. Qed.

Lemma bind_Ok_inv {A B} (m : M S F A) (k : A -> M S F B) s b s' t :
  bind m k s = (Ok b, s', t) ->
  exists a s1 t1 t2,
    m s = (Ok a, s1, t1) /\ k a s1 = (Ok b, s', t2) /\ t = t1 ++ t2.
Proof.
  unfold bind. destruct (m s) as [[o s1] t1]. destruct o as [a|f|e];
    try discriminate.
  destruct (k a s1) as [[o2 s2] t2] eqn:Hk. intros H. inversion H; subst.
  exists a, s1, t1, t2. auto.
Qed.

(** A computation that stops early stops its continuation too. *)
Lemma bind_inv {A B} (m : M S F A) (k : A -> M S F B) s o s' t :
  bind m k s = (o, s', t) ->
  (exists a s1 t1 t2,
      m s = (Ok a, s1, t1) /\ k a s1 = (o, s', t2) /\ t = t1 ++ t2)
  \/ (exists f, m s = (FailJson f, s', t) /\ o = FailJson f)
  \/ (exists e, m s = (Crash e, s', t) /\ o = Crash e).
Proof.
  unfold bind. destruct (m s) as [[o1 s1] t1]. destruct o1 as [a|f|e].
  - destruct (k a s1) as [[o2 s2] t2] eqn:Hk. intros H. inversion H; subst.
    left. exists a, s1, t1, t2. auto.
  - intros H. inversion H; subst. right. left. eauto.
  - intros H. inversion H; subst. right. right. eauto.
Qed.

Lemma bind_ext {A B} (m : M S F A) (k1 k2 : A -> M S F B) s :
  (forall a s1, k1 a s1 = k2 a s1) -> bind m k1 s = bind m k2 s.
Proof.
  intros H. unfold bind. destruct (m s) as [[[a| |] s1] t1]; try reflexivity.
  now rewrite H.
Qed.

Lemma bind_ret_l {A B} (a : A) (k : A -> M S F B) s : bind (ret a) k s = k a s.
Proof. unfold bind, ret. destruct (k a s) as [[o s2] t2]. reflexivity. Qed.

Lemma bind_assoc {A B C} (m : M S F A) (f : A -> M S F B) (g : B -> M S F C) s :
  bind (bind m f) g s = bind m (fun a => bind (f a) g) s.
Proof.
  unfold bind. destruct (m s) as [[[a| |] s1] t1]; try reflexivity.
  destruct (f a s1) as [[[b| |] s2] t2]; try reflexivity.
  destruct (g b s2) as [[o s3] t3]. now rewrite app_assoc.
Qed.

End MonadLemmas.

(** ** The SDC module, step by step *)

Section SdcLemmas.
Context {S : Type} {conn : PowerFlexConn S}.

Lemma sdc_get_mapped_volumes_run (i : string) (s : S) :
  Sdc.get_mapped_volumes i s =
  match sdc_get_mapped_volumes i s with
  | inr vols => (Ok vols, s, [SdcGetMappedVolumes i])
  | inl e => (FailJson (Sdc.MappedVolumesFailed i e), s, [SdcGetMappedVolumes i])
  end.
Proof.
  unfold Sdc.get_mapped_volumes, bind, try_read.
  destruct (sdc_get_mapped_volumes i s); reflexivity.
Qed.

(** The filter [get_sdc] queries with. *)
Lemma sdc_get_sdc_run (n ip i : option string) (s : S) :
  Sdc.get_sdc n ip i s =
  let flt := match first_selector (sdc_order n ip i) with
             | Some f => f
             | None => (KId, i)
             end in
  match sdc_get flt s with
  | inl e => (FailJson (Sdc.GetFailed (Sdc.id_ip_name n ip i) e), s, [SdcGet flt])
  | inr [] => (Ok None, s, [SdcGet flt])
  | inr (d :: _) =>
      match sdc_get_mapped_volumes (rec_id d) s with
      | inr vols => (Ok (Some (set_mapped_volumes d vols)), s,
                     [SdcGet flt; SdcGetMappedVolumes (rec_id d)])
      | inl e => (FailJson (Sdc.MappedVolumesFailed (rec_id d) e), s,
                  [SdcGet flt; SdcGetMappedVolumes (rec_id d)])
      end
  end.
Proof.
  unfold Sdc.get_sdc, sdc_order. cbn [first_selector]. cbv zeta.
  destruct (truthy n), (truthy ip), (truthy i);
    (unfold bind at 1; unfold try_read at 1;
     match goal with
     | |- context [sdc_get ?f s] =>
         destruct (sdc_get f s) as [e|[|d rest]]; try reflexivity
     end;
     unfold bind; rewrite sdc_get_mapped_volumes_run;
     destruct (sdc_get_mapped_volumes (rec_id d) s); reflexivity).
Qed.

(** A lookup leaves the remote state as it is and makes no mutating call. *)
Lemma sdc_get_sdc_reads (n ip i : option string) (s : S) o s' t :
  Sdc.get_sdc n ip i s = (o, s', t) -> s' = s /\ existsb mutating t = false.
Proof.
  rewrite sdc_get_sdc_run. cbv zeta.
  destruct (sdc_get _ s) as [e|[|d rest]];
    [| |destruct (sdc_get_mapped_volumes (rec_id d) s)];
    intros H; inversion H; subst; auto.
Qed.

Lemma sdc_rename_sdc_run (i n : string) (s : S) :
  Sdc.rename_sdc i n s =
  match sdc_rename i n s with
  | (inr _, s') => (Ok true, s', [SdcRename i n])
  | (inl e, s') => (FailJson (Sdc.RenameFailed i e), s', [SdcRename i n])
  end.
Proof.
  unfold Sdc.rename_sdc, bind, try_write.
  destruct (sdc_rename i n s) as [[e|u] s']; reflexivity.
Qed.

(** The identifier loop neither touches the remote system nor depends on
    it. *)
Lemma sdc_check_identifiers_pure (l : list (string * option string)) (s : S) :
  exists o, Sdc.check_identifiers l s = (o, s, [])
            /\ forall s0 : S, Sdc.check_identifiers l s0 = (o, s0, []).
Proof.
  induction l as [|[param v] l IH].
  - exists (Ok tt). split; reflexivity.
  - destruct IH as [o [Ho Hall]]. simpl.
    destruct v as [v|]; [destruct (blank v) eqn:Hb|].
    + exists (FailJson (Sdc.ProvideValid param)). split; reflexivity.
    + exists o. split; [|intros s0]; unfold bind, ret; simpl;
        [rewrite Ho | rewrite Hall]; destruct o; reflexivity.
    + exists o. split; [|intros s0]; unfold bind, ret; simpl;
        [rewrite Ho | rewrite Hall]; destruct o; reflexivity.
Qed.

Lemma sdc_validate_parameters_pure (p : Sdc.params) (n i ip : option string) (s : S) :
  exists o, Sdc.validate_parameters p n i ip s = (o, s, [])
            /\ forall s0 : S, Sdc.validate_parameters p n i ip s0 = (o, s0, []).
Proof.
  unfold Sdc.validate_parameters.
  destruct (sdc_check_identifiers_pure
              [("sdc_name", Sdc.sdc_name p); ("sdc_id", Sdc.sdc_id p);
               ("sdc_ip", Sdc.sdc_ip p)] s) as [o [Ho Hall]].
  destruct (forallb is_none [n; i; ip]).
  - exists (FailJson Sdc.ProvideIdentifier). split; reflexivity.
  - exists o. split; [|intros s0]; unfold bind at 1, ret at 1;
      [rewrite Ho | rewrite Hall]; destruct o; reflexivity.
Qed.

End SdcLemmas.

(** ** Python equality *)

Lemma py_eqb_eq (a b : pyval) : py_eqb a b = true <-> a = b.
Proof.
  destruct a as [|x|x], b as [|y|y]; simpl; split; intros H;
    try discriminate; try reflexivity.
  - apply Z.eqb_eq in H. now subst.
  - inversion H. apply Z.eqb_refl.
  - apply String.eqb_eq in H. now subst.
  - inversion H. apply String.eqb_refl.
Qed.

Lemma py_eqb_neq (a b : pyval) : py_eqb a b = false <-> a <> b.
Proof.
  split.
  - intros H E. apply py_eqb_eq in E. congruence.
  - intros H. destruct (py_eqb a b) eqn:E; [|reflexivity].
    apply py_eqb_eq in E. contradiction.
Qed.

Lemma truthy_Some (s : string) : truthy (Some s) = true <-> s <> "".
Proof.
  simpl. destruct (String.eqb_spec s ""); simpl; split; intros; congruence.
Qed.

(** ** Calls made by a computation *)

Section CallLemmas.
Context {S F : Type}.
Variable P : call -> Prop.

Lemma calls_ret {A} (a : A) (s : S) : calls_satisfy P (ret (F := F) a) s.
Proof. intros o s' t H. inversion H. constructor. Qed.

Lemma calls_fail_json {A} (f : F) (s : S) :
  calls_satisfy P (fail_json (A := A) f) s.
Proof. intros o s' t H. inversion H. constructor. Qed.

Lemma calls_crash {A} (e : pyexc) (s : S) :
  calls_satisfy P (crash (F := F) (A := A) e) s.
Proof. intros o s' t H. inversion H. constructor. Qed.

Lemma calls_try_read {A} (c : call) (op : S -> exn + A) (s : S) :
  P c -> calls_satisfy P (try_read (F := F) c op) s.
Proof. intros Hc o s' t H. inversion H. auto. Qed.

Lemma calls_try_write {A} (c : call) (op : S -> (exn + A) * S) (s : S) :
  P c -> calls_satisfy P (try_write (F := F) c op) s.
Proof.
  intros Hc o s' t. unfold try_write. destruct (op s). intros H.
  inversion H. auto.
Qed.

Lemma calls_bind {A B} (m : M S F A) (k : A -> M S F B) (s : S) :
  calls_satisfy P m s ->
  (forall a s1 t1, m s = (Ok a, s1, t1) -> calls_satisfy P (k a) s1) ->
  calls_satisfy P (bind m k) s.
Proof.
  intros Hm Hk o s' t H.
  destruct (bind_inv _ _ _ _ _ _ H)
    as [(a & s1 & t1 & t2 & H1 & H2 & ->) | [(f & H1 & _) | (e & H1 & _)]].
  - apply Forall_app. split; [eapply Hm | eapply Hk]; eauto.
  - eapply Hm; eauto.
  - eapply Hm; eauto.
Qed.

End CallLemmas.

(** One syntax-directed step in showing that the calls of a computation
    satisfy a predicate. *)
Ltac calls_step :=
  match goal with
  | |- calls_satisfy _ (bind _ _) _ => apply calls_bind; [|intros ? ? ? ?]
  | |- calls_satisfy _ (ret _) _ => apply calls_ret
  | |- calls_satisfy _ (fail_json _) _ => apply calls_fail_json
  | |- calls_satisfy _ (crash _) _ => apply calls_crash
  | |- calls_satisfy _ (try_read _ _) _ => apply calls_try_read
  | |- calls_satisfy _ (try_write _ _) _ => apply calls_try_write
  | |- calls_satisfy _ (match ?x with _ => _ end) _ => destruct x
  end.

(** ** The SDC module as a whole *)

Section SdcModule.
Context {S : Type} {conn : PowerFlexConn S}.

(** What [perform_module_operation] does once validation has passed, in
    terms of the first lookup. *)
Lemma sdc_perform_after_validation (p : Sdc.params) (s : S) :
  Sdc.validate_parameters p (Sdc.sdc_name p) (Sdc.sdc_id p) (Sdc.sdc_ip p) s
  = (Ok tt, s, []) ->
  Sdc.perform_module_operation p s =
  match Sdc.get_sdc (Sdc.sdc_name p) (Sdc.sdc_ip p) (Sdc.sdc_id p) s with
  | (Ok None, _, t0) =>
      match Sdc.state p with
      | present =>
          (FailJson (Sdc.CouldNotFind
                       (Sdc.id_ip_name (Sdc.sdc_name p) (Sdc.sdc_ip p)
                          (Sdc.sdc_id p))), s, t0)
      | absent => (Ok {| Sdc.changed := false; Sdc.sdc_details := None |}, s, t0)
      end
  | (Ok (Some d), _, t0) =>
      match Sdc.state p with
      | absent => (FailJson Sdc.RemovalNotAllowed, s, t0)
      | present =>
          match Sdc.sdc_new_name p with
          | None =>
              match Sdc.get_sdc (Sdc.sdc_name p) (Sdc.sdc_ip p) (Sdc.sdc_id p) s with
              | (Ok details, _, t1) =>
                  (Ok {| Sdc.changed := false; Sdc.sdc_details := details |},
                   s, t0 ++ t1)
              | (FailJson f, _, t1) => (FailJson f, s, t0 ++ t1)
              | (Crash e, _, t1) => (Crash e, s, t0 ++ t1)
              end
          | Some new_name =>
              if blank new_name then (FailJson Sdc.ProvideValidName, s, t0)
              else
                match sdc_rename (rec_id d) new_name s with
                | (inl e, s1) =>
                    (FailJson (Sdc.RenameFailed (rec_id d) e), s1,
                     t0 ++ [SdcRename (rec_id d) new_name])
                | (inr _, s1) =>
                    match Sdc.get_sdc (Some new_name) (Sdc.sdc_ip p)
                            (Sdc.sdc_id p) s1 with
                    | (Ok details, _, t1) =>
                        (Ok {| Sdc.changed := true; Sdc.sdc_details := details |},
                         s1, t0 ++ SdcRename (rec_id d) new_name :: t1)
                    | (FailJson f, _, t1) =>
                        (FailJson f, s1, t0 ++ SdcRename (rec_id d) new_name :: t1)
                    | (Crash e, _, t1) =>
                        (Crash e, s1, t0 ++ SdcRename (rec_id d) new_name :: t1)
                    end
                end
          end
      end
  | (FailJson f, _, t0) => (FailJson f, s, t0)
  | (Crash e, _, t0) => (Crash e, s, t0)
  end.
Proof.
  intros Hv. unfold Sdc.perform_module_operation. cbv zeta.
  rewrite (bind_ok _ _ _ _ _ _ Hv).
  unfold bind at 1.
  destruct (Sdc.get_sdc (Sdc.sdc_name p) (Sdc.sdc_ip p) (Sdc.sdc_id p) s)
    as [[o s0] t0] eqn:Hget.
  destruct (sdc_get_sdc_reads _ _ _ _ _ _ _ Hget) as [-> _].
  destruct o as [[d|]|f|e]; try reflexivity;
    destruct (Sdc.state p) eqn:Hst;
    try (destruct (Sdc.sdc_new_name p) as [new_name|] eqn:Hnn);
    try (destruct (blank new_name) eqn:Hb);
    unfold bind; cbn -[Sdc.get_sdc Sdc.rename_sdc]; rewrite ?Hb;
    cbn -[Sdc.get_sdc Sdc.rename_sdc];
    rewrite ?app_nil_r; try reflexivity.
  - rewrite sdc_rename_sdc_run.
    destruct (sdc_rename (rec_id d) new_name s) as [[e|u] s1];
      cbn -[Sdc.get_sdc]; rewrite ?app_nil_r; try reflexivity.
    destruct (Sdc.get_sdc (Some new_name) (Sdc.sdc_ip p) (Sdc.sdc_id p) s1)
      as [[o1 s2] t1] eqn:Hget1.
    destruct (sdc_get_sdc_reads _ _ _ _ _ _ _ Hget1) as [-> _].
    destruct o1; cbn; rewrite ?app_nil_r; reflexivity.
  - rewrite Hget. cbn. rewrite ?app_nil_r. reflexivity.
Qed.

(** After validation some selector is supplied and not empty. *)
Lemma sdc_validated_selector (p : Sdc.params) (s : S) :
  Sdc.validate_parameters p (Sdc.sdc_name p) (Sdc.sdc_id p) (Sdc.sdc_ip p) s
  = (Ok tt, s, []) ->
  first_selector (sdc_order (Sdc.sdc_name p) (Sdc.sdc_ip p) (Sdc.sdc_id p))
  <> None.
Proof.
  unfold Sdc.validate_parameters, sdc_order. cbn [first_selector forallb].
  cbn [Sdc.check_identifiers]. unfold bind, ret, fail_json.
  destruct (Sdc.sdc_name p) as [n|]; cbn [is_none andb].
  - destruct (blank n) eqn:Hb; [discriminate|]. intros _.
    destruct (truthy (Some n)) eqn:Ht; [discriminate|].
    apply blank_not_truthy in Ht. congruence.
  - cbn [truthy]. destruct (Sdc.sdc_id p) as [i|]; cbn [is_none andb].
    + destruct (blank i) eqn:Hb; [discriminate|]. intros _.
      destruct (truthy (Sdc.sdc_ip p)); [discriminate|].
      destruct (truthy (Some i)) eqn:Ht; [discriminate|].
      apply blank_not_truthy in Ht. congruence.
    + destruct (Sdc.sdc_ip p) as [ip|]; cbn [is_none]; [|discriminate].
      destruct (blank ip) eqn:Hb; [discriminate|]. intros _.
      destruct (truthy (Some ip)) eqn:Ht; [discriminate|].
      apply blank_not_truthy in Ht. congruence.
Qed.

(** A lookup that ends well: one query at the current state, then the
    mapped volumes of the first record. *)
Lemma sdc_get_sdc_Ok (n ip i : option string) (s : S) found s' t flt :
  Sdc.get_sdc n ip i s = (Ok found, s', t) ->
  first_selector (sdc_order n ip i) = Some flt ->
  s' = s
  /\ exists tail,
       t = SdcGet flt :: tail /\ existsb mutating tail = false
       /\ match first_match (sdc_get flt s) with
          | None => found = None
          | Some d0 =>
              exists vols, sdc_get_mapped_volumes (rec_id d0) s = inr vols
                           /\ found = Some (set_mapped_volumes d0 vols)
          end.
Proof.
  intros H Hf. rewrite sdc_get_sdc_run, Hf in H. cbv zeta in H.
  destruct (sdc_get flt s) as [e|[|d0 rest]]; cbn [first_match];
    [discriminate| |destruct (sdc_get_mapped_volumes (rec_id d0) s) as [e|vols];
                    [discriminate|]];
    inversion H; subst; (split; [reflexivity|]); eexists;
    (split; [reflexivity|]); (split; [reflexivity|]); eauto.
Qed.

(** Validation that passes does so on every remote state and calls
    nothing. *)
Lemma sdc_validate_parameters_Ok (p : Sdc.params) (n i ip : option string)
    (s s0 : S) v s' t :
  Sdc.validate_parameters p n i ip s = (Ok v, s', t) ->
  s' = s /\ t = [] /\ Sdc.validate_parameters p n i ip s0 = (Ok tt, s0, []).
Proof.
  destruct (sdc_validate_parameters_pure p n i ip s) as [o [Ho Hall]].
  rewrite Ho. intros H. inversion H; subst. rewrite (Hall s0).
  destruct v. auto.
Qed.

End SdcModule.

(** ** The NVMe-host module, step by step *)

Section NvmeLemmas.
Context {S : Type} {conn : PowerFlexConn S}.

(** The filter [get_nvme_host] queries with, and what it makes of the
    response. *)
Lemma nvme_get_nvme_host_run (i n q : option string) (s : S) :
  NvmeHost.get_nvme_host i n q s =
  match first_selector (nvme_order i n q) with
  | None => (Crash UnboundLocalError, s, [])
  | Some flt =>
      match sdc_get flt s with
      | inl e => (FailJson (NvmeHost.GetFailed (snd flt) e), s, [SdcGet flt])
      | inr [] =>
          if truthy i
          then (FailJson (NvmeHost.UnableToFind (snd flt)), s, [SdcGet flt])
          else (Ok None, s, [SdcGet flt])
      | inr (d :: _) => (Ok (Some d), s, [SdcGet flt])
      end
  end.
Proof.
  unfold NvmeHost.get_nvme_host, nvme_order. cbn [first_selector].
  destruct (truthy n); [|destruct (truthy i) eqn:Hi; [|destruct (truthy q)]];
    try reflexivity;
    (unfold bind, try_read;
     match goal with
     | |- context [sdc_get ?f s] => destruct (sdc_get f s) as [e|[|d rest]]
     end; try reflexivity; try rewrite Hi; destruct (truthy i); reflexivity).
Qed.

(** A lookup leaves the remote state as it is and makes no mutating call. *)
Lemma nvme_get_nvme_host_reads (i n q : option string) (s : S) o s' t :
  NvmeHost.get_nvme_host i n q s = (o, s', t) ->
  s' = s /\ existsb mutating t = false.
Proof.
  rewrite nvme_get_nvme_host_run.
  destruct (first_selector (nvme_order i n q)) as [flt|];
    [destruct (sdc_get flt s) as [e|[|d rest]]; [| destruct (truthy i) |]|];
    intros H; inversion H; subst; auto.
Qed.

(** A lookup that ends well returns the first record of the response to the
    one query it made. *)
Lemma nvme_get_nvme_host_Ok (i n q : option string) (s : S) od s' t :
  NvmeHost.get_nvme_host i n q s = (Ok od, s', t) ->
  exists flt, first_selector (nvme_order i n q) = Some flt
              /\ s' = s /\ t = [SdcGet flt]
              /\ od = first_match (sdc_get flt s).
Proof.
  rewrite nvme_get_nvme_host_run.
  destruct (first_selector (nvme_order i n q)) as [flt|]; [|discriminate].
  destruct (sdc_get flt s) as [e|[|d rest]] eqn:Hget;
    [discriminate | destruct (truthy i); [discriminate|] |];
    intros H; inversion H; subst; exists flt; rewrite ?Hget; auto.
Qed.

Lemma nvme_check_identifiers_pure (l : list (string * option string)) (s : S) :
  exists o, forall s0 : S, NvmeHost.check_identifiers l s0 = (o, s0, []).
Proof.
  induction l as [|[param v] l IH].
  - exists (Ok tt). reflexivity.
  - destruct IH as [o Hall]. simpl.
    destruct v as [v|]; [destruct (blank v) eqn:Hb|].
    + exists (FailJson (NvmeHost.ProvideValid param)). reflexivity.
    + exists o. intros s0. unfold bind, ret. rewrite Hall. destruct o; reflexivity.
    + exists o. intros s0. unfold bind, ret. rewrite Hall. destruct o; reflexivity.
Qed.

(** Validation neither touches the remote system nor depends on it. *)
Lemma nvme_validate_parameters_pure (p : NvmeHost.params) (s : S) :
  exists o, forall s0 : S, NvmeHost.validate_parameters p s0 = (o, s0, []).
Proof.
  unfold NvmeHost.validate_parameters.
  destruct (nvme_check_identifiers_pure
              [("nvme_host_id", NvmeHost.nvme_host_id p);
               ("nvme_host_name", NvmeHost.nvme_host_name p)] s) as [o Hall].
  destruct o as [[]|f|e].
  - destruct (is_none (NvmeHost.nvme_host_id p)
              && is_none (NvmeHost.nvme_host_name p)
              && is_none (NvmeHost.nqn p)) eqn:Hn.
    + exists (FailJson NvmeHost.ProvideAtLeastOne). intros s0.
      unfold bind. rewrite Hall. reflexivity.
    + exists (Ok tt). intros s0. unfold bind. rewrite Hall. reflexivity.
  - exists (FailJson f). intros s0. unfold bind. rewrite Hall. reflexivity.
  - exists (Crash e). intros s0. unfold bind. rewrite Hall. reflexivity.
Qed.

Lemma nvme_validate_parameters_Ok (p : NvmeHost.params) (s s0 : S) v s' t :
  NvmeHost.validate_parameters p s = (Ok v, s', t) ->
  s' = s /\ t = [] /\ NvmeHost.validate_parameters p s0 = (Ok tt, s0, []).
Proof.
  destruct (nvme_validate_parameters_pure p s) as [o Hall].
  rewrite (Hall s). intros H. inversion H; subst. rewrite (Hall s0).
  destruct v. auto.
Qed.

Lemma nvme_remove_run (i : string) (s : S) :
  NvmeHost.remove i s =
  match sdc_delete i s with
  | (inr _, s') => (Ok true, s', [SdcDelete i])
  | (inl e, s') => (FailJson (NvmeHost.RemoveFailed i e), s', [SdcDelete i])
  end.
Proof.
  unfold NvmeHost.remove, bind, try_write.
  destruct (sdc_delete i s) as [[e|u] s']; reflexivity.
Qed.

(** Splitting [perform_modify] on every test and every answer of the remote
    system. *)
Ltac modify_cases d nn mp ms s :=
  unfold NvmeHost.perform_modify, bind, try_write, ret, fail_json;
  destruct nn as [nn|]; cbn [name_settled];
  [destruct (py_eqb (PyStr nn) (rec_name d)) eqn:Hname; cbn [negb];
   [|destruct (sdc_rename (rec_id d) nn s) as [[e1|u1] s1] eqn:Hrename]|];
  (destruct mp as [mp|]; cbn [limit_settled truthy];
   [destruct (String.eqb mp "") eqn:Hmp0;
    destruct (String.eqb mp (py_str (rec_maxNumPaths d))) eqn:Hmp;
    cbn [negb andb orb]|]);
  try match goal with
    | |- context [host_modify_max_num_paths ?i ?v ?s0] =>
        destruct (host_modify_max_num_paths i v s0) as [[e2|u2] s2] eqn:Hpaths
    end;
  (destruct ms as [ms|]; cbn [limit_settled truthy];
   [destruct (String.eqb ms "") eqn:Hms0;
    destruct (String.eqb ms (py_str (rec_maxNumSysPorts d))) eqn:Hms;
    cbn [negb andb orb]|]);
  try match goal with
    | |- context [host_modify_max_num_sys_ports ?i ?v ?s0] =>
        destruct (host_modify_max_num_sys_ports i v s0) as [[e3|u3] s3] eqn:Hports
    end;
  cbn [app existsb mutating orb andb negb].

(** On a host that already carries the requested values, [perform_modify]
    calls nothing. *)
Lemma nvme_perform_modify_settled (d : sdc_record) (nn mp ms : option string) (s : S) :
  name_settled nn (rec_name d) = true ->
  limit_settled mp (rec_maxNumPaths d) = true ->
  limit_settled ms (rec_maxNumSysPorts d) = true ->
  NvmeHost.perform_modify d nn mp ms s = (Ok false, s, []).
Proof.
  modify_cases d nn mp ms s; intros; try discriminate; reflexivity.
Qed.

(** When [perform_modify] ends well, it reports a change exactly when a
    requested value differed, which is exactly when it made a mutating call;
    with no change the remote state is untouched. *)
Lemma nvme_perform_modify_changed (d : sdc_record) (nn mp ms : option string)
    (s : S) c s' t :
  NvmeHost.perform_modify d nn mp ms s = (Ok c, s', t) ->
  c = existsb mutating t
  /\ c = negb (name_settled nn (rec_name d)
               && limit_settled mp (rec_maxNumPaths d)
               && limit_settled ms (rec_maxNumSysPorts d))
  /\ (c = false -> s' = s /\ t = []).
Proof.
  modify_cases d nn mp ms s; intros H; inversion H; subst;
    repeat split; try reflexivity; intros; try discriminate; auto.
Qed.

(** Every call of [perform_modify] is a write of a field that was supplied
    and differs from the current value. *)
Lemma nvme_perform_modify_calls (d : sdc_record) (nn mp ms : option string) (s : S) :
  calls_satisfy (modify_call_justified d nn mp ms)
    (NvmeHost.perform_modify d nn mp ms) s.
Proof.
  intros o s' t.
  modify_cases d nn mp ms s; intros H; inversion H; subst;
    repeat constructor;
    try (apply py_eqb_neq; assumption);
    try (apply String.eqb_neq; assumption).
Qed.

(** [create_host] either stops or has made the create call; with a remote
    system that returns the created host it then reports a change. *)
Lemma nvme_create_host_Ok (p : NvmeHost.params) (n q mp ms : option string)
    (s : S) x s' t :
  NvmeHost.create_host p n q mp ms s = (Ok x, s', t) ->
  create_returns_host s ->
  snd x = true /\ existsb mutating t = true.
Proof.
  intros H HC. unfold NvmeHost.create_host, NvmeHost.create_nvme_host in H.
  unfold bind, try_write, ret, fail_json in H.
  destruct (truthy q); cbn [negb] in H; [|discriminate].
  destruct (truthy (NvmeHost.nvme_host_new_name p)); [discriminate|].
  destruct q as [q|]; [|discriminate].
  destruct (blank q); [discriminate|].
  specialize (HC (Some q) n mp ms).
  destruct (host_create (Some q) n mp ms s) as [[e|[c|]] s1];
    [discriminate| |exfalso; apply HC; reflexivity].
  destruct (NvmeHost.get_nvme_host (Some (rec_id c)) None None s1)
    as [[[od| |] s2] t2]; inversion H; subst. auto.
Qed.

Lemma nvme_mutation_settled (p : NvmeHost.params) (found : option sdc_record) (s : S) :
  nvme_settled p found = true ->
  nvme_mutation p found s = (Ok (found, false), s, []).
Proof.
  unfold nvme_settled, nvme_mutation.
  destruct (NvmeHost.state p), found as [d|]; try discriminate; [|reflexivity].
  intros H. apply andb_prop in H. destruct H as [H H3].
  apply andb_prop in H. destruct H as [H1 H2].
  unfold bind. rewrite nvme_perform_modify_settled by assumption. reflexivity.
Qed.

(** When the mutation step ends well, its [changed] flag tells whether it
    made a mutating call; with no change, the remote state and the details
    are those of the lookup. *)
Lemma nvme_mutation_changed (p : NvmeHost.params) (found : option sdc_record)
    (s : S) x s' t :
  nvme_mutation p found s = (Ok x, s', t) ->
  create_returns_host s ->
  snd x = existsb mutating t
  /\ (snd x = false -> s' = s /\ t = [] /\ fst x = found).
Proof.
  unfold nvme_mutation. intros H HC.
  destruct found as [d|], (NvmeHost.state p).
  - apply bind_Ok_inv in H. destruct H as (c & s1 & t1 & t2 & H1 & H2 & ->).
    inversion H2; subst. rewrite app_nil_r. cbn [fst snd].
    destruct (nvme_perform_modify_changed _ _ _ _ _ _ _ _ H1) as (E1 & _ & E3).
    split; [exact E1|]. intros Hc. destruct (E3 Hc). auto.
  - apply bind_Ok_inv in H. destruct H as (c & s1 & t1 & t2 & H1 & H2 & ->).
    inversion H2; subst. rewrite app_nil_r. cbn [fst snd].
    rewrite nvme_remove_run in H1.
    destruct (sdc_delete (rec_id d) s) as [[e|u] s2]; inversion H1; subst.
    split; [reflexivity | discriminate].
  - destruct (nvme_create_host_Ok _ _ _ _ _ _ _ _ _ H HC) as [E1 E2].
    rewrite E1, E2. split; [reflexivity | discriminate].
  - inversion H; subst. auto.
Qed.

(** [perform_module_operation] that ends well, taken apart: validation, the
    lookup, the mutation step, and the re-fetch when something changed. *)
Lemma nvme_perform_Ok_inv (p : NvmeHost.params) (s : S) r s' t :
  NvmeHost.perform_module_operation p s = (Ok r, s', t) ->
  exists found t0 x tm tf,
    NvmeHost.validate_parameters p s = (Ok tt, s, [])
    /\ NvmeHost.get_nvme_host (NvmeHost.nvme_host_id p)
         (NvmeHost.nvme_host_name p) (NvmeHost.nqn p) s = (Ok found, s, t0)
    /\ nvme_mutation p found s = (Ok x, s', tm)
    /\ (if snd x
        then NvmeHost.get_nvme_host (NvmeHost.nvme_host_id p)
               (py_or (NvmeHost.nvme_host_new_name p) (NvmeHost.nvme_host_name p))
               (NvmeHost.nqn p) s'
             = (Ok (NvmeHost.nvme_host_details r), s', tf)
        else NvmeHost.nvme_host_details r = fst x /\ tf = [])
    /\ NvmeHost.changed r = snd x
    /\ t = t0 ++ tm ++ tf.
Proof.
  unfold NvmeHost.perform_module_operation. cbv zeta. intros H.
  apply bind_Ok_inv in H. destruct H as ([] & s1 & t1 & ta & Hv & H & ->).
  destruct (nvme_validate_parameters_Ok p s s _ _ _ Hv) as (-> & -> & Hv').
  apply bind_Ok_inv in H. destruct H as (found & s2 & t0 & tb & Hl & H & ->).
  destruct (nvme_get_nvme_host_reads _ _ _ _ _ _ _ Hl) as [-> _].
  apply bind_Ok_inv in H. destruct H as (c1 & s3 & t3 & tc & H1 & H & ->).
  apply bind_Ok_inv in H. destruct H as (c2 & s4 & t4 & td & H2 & H & ->).
  apply bind_Ok_inv in H. destruct H as (x & s5 & t5 & te & H3 & H & ->).
  apply bind_Ok_inv in H. destruct H as (dr & s6 & tf & tg & H4 & H & ->).
  inversion H; subst. cbn [NvmeHost.changed NvmeHost.nvme_host_details].
  assert (Hm : nvme_mutation p found s = (Ok x, s5, t3 ++ t4 ++ t5)).
  { unfold nvme_mutation.
    destruct found as [d|], (NvmeHost.state p);
      cbn [is_absent is_present] in H1, H2, H3.
    - inversion H1; subst. inversion H3; subst.
      unfold bind. rewrite H2. reflexivity.
    - inversion H2; subst. inversion H3; subst.
      unfold bind. rewrite H1. reflexivity.
    - inversion H1; subst. inversion H2; subst. rewrite H3. reflexivity.
    - inversion H1; subst. inversion H2; subst. inversion H3; subst.
      reflexivity. }
  exists found, t0, x, (t3 ++ t4 ++ t5).
  destruct (snd x) eqn:Hc; rewrite ?Hc in H4.
  - destruct (nvme_get_nvme_host_reads _ _ _ _ _ _ _ H4) as [-> _].
    exists tf. repeat split; auto.
    simpl. rewrite ?app_nil_r, <- ?app_assoc. reflexivity.
  - inversion H4; subst. exists []. repeat split; auto.
    simpl. rewrite ?app_nil_r, <- ?app_assoc. reflexivity.
Qed.

(** [perform_module_operation] as four steps in sequence. *)
Lemma nvme_perform_steps (p : NvmeHost.params) (s : S) :
  NvmeHost.perform_module_operation p s =
  bind (NvmeHost.validate_parameters p) (fun _ =>
  bind (NvmeHost.get_nvme_host (NvmeHost.nvme_host_id p)
          (NvmeHost.nvme_host_name p) (NvmeHost.nqn p)) (fun found =>
  bind (nvme_mutation p found) (fun x =>
  bind (if snd x
        then NvmeHost.get_nvme_host (NvmeHost.nvme_host_id p)
               (py_or (NvmeHost.nvme_host_new_name p) (NvmeHost.nvme_host_name p))
               (NvmeHost.nqn p)
        else ret (fst x)) (fun details =>
  ret {| NvmeHost.changed := snd x; NvmeHost.nvme_host_details := details |}))))
  s.
Proof.
  unfold NvmeHost.perform_module_operation. cbv zeta.
  apply bind_ext. intros _ s1. apply bind_ext. intros found s2.
  unfold nvme_mutation.
  destruct found as [d|], (NvmeHost.state p); cbn [is_absent is_present].
  - rewrite bind_ret_l, bind_assoc. apply bind_ext. intros c s3.
    now rewrite !bind_ret_l.
  - rewrite bind_assoc. apply bind_ext. intros c s3. now rewrite !bind_ret_l.
  - now rewrite !bind_ret_l.
  - now rewrite !bind_ret_l.
Qed.

(** Running [perform_module_operation] forward from the results of its
    steps. *)
Lemma nvme_perform_run (p : NvmeHost.params) (s : S) found s0 t0 x sm tm :
  NvmeHost.validate_parameters p s = (Ok tt, s, []) ->
  NvmeHost.get_nvme_host (NvmeHost.nvme_host_id p) (NvmeHost.nvme_host_name p)
    (NvmeHost.nqn p) s = (Ok found, s0, t0) ->
  nvme_mutation p found s = (Ok x, sm, tm) ->
  NvmeHost.perform_module_operation p s =
  match (if snd x
         then NvmeHost.get_nvme_host (NvmeHost.nvme_host_id p)
                (py_or (NvmeHost.nvme_host_new_name p) (NvmeHost.nvme_host_name p))
                (NvmeHost.nqn p) sm
         else (Ok (fst x), sm, [])) with
  | (Ok details, _, tf) =>
      (Ok {| NvmeHost.changed := snd x; NvmeHost.nvme_host_details := details |},
       sm, t0 ++ tm ++ tf)
  | (FailJson f, _, tf) => (FailJson f, sm, t0 ++ tm ++ tf)
  | (Crash e, _, tf) => (Crash e, sm, t0 ++ tm ++ tf)
  end.
Proof.
  intros Hv Hl Hm. rewrite nvme_perform_steps.
  destruct (nvme_get_nvme_host_reads _ _ _ _ _ _ _ Hl) as [-> _].
  rewrite (bind_ok _ _ _ _ _ _ Hv), (bind_ok _ _ _ _ _ _ Hl),
    (bind_ok _ _ _ _ _ _ Hm).
  unfold bind at 1. destruct (snd x).
  - destruct (NvmeHost.get_nvme_host _ _ _ sm) as [[o s1] tf] eqn:Hf.
    destruct (nvme_get_nvme_host_reads _ _ _ _ _ _ _ Hf) as [-> _].
    destruct o; cbn; rewrite ?app_nil_r; reflexivity.
  - cbn. rewrite ?app_nil_r. reflexivity.
Qed.

(** A lookup that stops, stops the module. *)
Lemma nvme_perform_lookup_fails (p : NvmeHost.params) (s : S) f s0 t0 :
  NvmeHost.validate_parameters p s = (Ok tt, s, []) ->
  NvmeHost.get_nvme_host (NvmeHost.nvme_host_id p) (NvmeHost.nvme_host_name p)
    (NvmeHost.nqn p) s = (FailJson f, s0, t0) ->
  NvmeHost.perform_module_operation p s = (FailJson f, s, t0).
Proof.
  intros Hv Hl. rewrite nvme_perform_steps.
  destruct (nvme_get_nvme_host_reads _ _ _ _ _ _ _ Hl) as [-> _].
  rewrite (bind_ok _ _ _ _ _ _ Hv), (bind_fail _ _ _ _ _ _ Hl). reflexivity.
Qed.

(** A mutation step that stops, stops the module. *)
Lemma nvme_perform_mutation_fails (p : NvmeHost.params) (s : S) found s0 t0 f sm tm :
  NvmeHost.validate_parameters p s = (Ok tt, s, []) ->
  NvmeHost.get_nvme_host (NvmeHost.nvme_host_id p) (NvmeHost.nvme_host_name p)
    (NvmeHost.nqn p) s = (Ok found, s0, t0) ->
  nvme_mutation p found s = (FailJson f, sm, tm) ->
  NvmeHost.perform_module_operation p s = (FailJson f, sm, t0 ++ tm).
Proof.
  intros Hv Hl Hm. rewrite nvme_perform_steps.
  destruct (nvme_get_nvme_host_reads _ _ _ _ _ _ _ Hl) as [-> _].
  rewrite (bind_ok _ _ _ _ _ _ Hv), (bind_ok _ _ _ _ _ _ Hl),
    (bind_fail _ _ _ _ _ _ Hm). reflexivity.
Qed.

(** With a new name that differs from the current one, the first thing
    [perform_modify] does is the rename call; it never crashes, and when it
    stops it is on a failure of the remote system. *)
Lemma nvme_perform_modify_renames (d : sdc_record) (nn : string)
    (mp ms : option string) (s : S) :
  PyStr nn <> rec_name d ->
  exists tail,
    calls_of (NvmeHost.perform_modify d (Some nn) mp ms s)
    = SdcRename (rec_id d) nn :: tail
    /\ match outcome_of (NvmeHost.perform_modify d (Some nn) mp ms s) with
       | Ok _ => True
       | FailJson f => NvmeHost.kind_of f = RemoteCallFailure
       | Crash _ => False
       end.
Proof.
  intros Hne. apply py_eqb_neq in Hne. unfold calls_of, outcome_of.
  unfold NvmeHost.perform_modify, bind, try_write, ret, fail_json.
  rewrite Hne. cbn [negb].
  destruct (sdc_rename (rec_id d) nn s) as [[e1|u1] s1];
    [eexists; split; reflexivity|].
  destruct mp as [mp|];
    [destruct (truthy (Some mp)
               && negb (String.eqb mp (py_str (rec_maxNumPaths d))));
     [destruct (host_modify_max_num_paths (rec_id d) mp s1) as [[e2|u2] s2];
      [eexists; split; reflexivity|]|]|];
    (destruct ms as [ms|];
     [destruct (truthy (Some ms)
                && negb (String.eqb ms (py_str (rec_maxNumSysPorts d))));
      [match goal with
       | |- context [host_modify_max_num_sys_ports ?i ?v ?s0] =>
           destruct (host_modify_max_num_sys_ports i v s0) as [[e3|u3] s3]
       end|]|]);
    eexists; split; try reflexivity; exact I.
Qed.

(** A lookup stops only on a failure of the remote system or because
    nothing has the id that was given. *)
Lemma nvme_get_nvme_host_kind (i n q : option string) (s : S) f s' t :
  NvmeHost.get_nvme_host i n q s = (FailJson f, s', t) ->
  NvmeHost.kind_of f = RemoteCallFailure \/ NvmeHost.kind_of f = ResourceNotFound.
Proof.
  rewrite nvme_get_nvme_host_run.
  destruct (first_selector (nvme_order i n q)) as [flt|]; [|discriminate].
  destruct (sdc_get flt s) as [e|[|d rest]]; [|destruct (truthy i)|];
    intros H; inversion H; subst; auto.
Qed.

(** Calls that are constrained by a predicate true of every call except,
    possibly, the writes of [perform_modify]. *)
Section OtherCalls.
Variable P : call -> Prop.
Hypothesis P_get : forall f, P (SdcGet f).
Hypothesis P_delete : forall i, P (SdcDelete i).
Hypothesis P_create : forall q n mp ms, P (HostCreate q n mp ms).

Lemma nvme_validate_parameters_calls (p : NvmeHost.params) (s : S) :
  calls_satisfy P (NvmeHost.validate_parameters p) s.
Proof.
  intros o s' t H. destruct (nvme_validate_parameters_pure p s) as [o' Hall].
  rewrite Hall in H. inversion H. constructor.
Qed.

Lemma nvme_get_nvme_host_calls (i n q : option string) (s : S) :
  calls_satisfy P (NvmeHost.get_nvme_host i n q) s.
Proof.
  unfold NvmeHost.get_nvme_host. cbv zeta. repeat calls_step; apply P_get.
Qed.

Lemma nvme_create_host_calls (p : NvmeHost.params) (n q mp ms : option string)
    (s : S) :
  calls_satisfy P (NvmeHost.create_host p n q mp ms) s.
Proof.
  unfold NvmeHost.create_host, NvmeHost.create_nvme_host.
  repeat calls_step; try apply P_create; apply nvme_get_nvme_host_calls.
Qed.

Lemma nvme_remove_calls (i : string) (s : S) :
  calls_satisfy P (NvmeHost.remove i) s.
Proof. unfold NvmeHost.remove. repeat calls_step. apply P_delete. Qed.

End OtherCalls.

(** In the mutation step a limit is written only on the host found, and
    only when the supplied value differs. *)
Lemma nvme_mutation_calls (p : NvmeHost.params) (found : option sdc_record) (s : S) :
  calls_satisfy
    (limit_call_justified found (NvmeHost.nvme_host_new_name p)
       (NvmeHost.max_num_paths p) (NvmeHost.max_num_sys_ports p))
    (nvme_mutation p found) s.
Proof.
  unfold nvme_mutation. destruct found as [d|], (NvmeHost.state p).
  - calls_step; [|calls_step].
    intros o s' t H. eapply Forall_impl; [|eapply nvme_perform_modify_calls; eauto].
    intros c Hc. destruct c; try exact I; exists d; auto.
  - calls_step; [|calls_step]. apply nvme_remove_calls. intros; exact I.
  - apply nvme_create_host_calls; intros; exact I.
  - calls_step.
Qed.

End NvmeLemmas.

(** * The claims *)

(** ** C10: an SDC invocation without a new name only reads *)

(** Claim C10.  For every SDC invocation with [state = present] and no
    [sdc_new_name] that passes validation and whose lookup finds the SDC,
    the module makes no mutating call: the calls are the lookup's
    [sdc.get] and [sdc.get_mapped_volumes], made twice; the remote state is
    unchanged; the result has [changed = false] and carries the SDC as the
    remote system currently has it, with its mapped volumes attached. *)
Theorem C10_sdc_present_without_new_name_only_reads :
  forall (S : Type) (conn : PowerFlexConn S) (s : S) (p : Sdc.params)
         (d : sdc_record) (s0 : S) (t0 : list call),
    Sdc.state p = present ->
    Sdc.sdc_new_name p = None ->
    Sdc.validate_parameters p (Sdc.sdc_name p) (Sdc.sdc_id p) (Sdc.sdc_ip p) s
    = (Ok tt, s, []) ->
    Sdc.get_sdc (Sdc.sdc_name p) (Sdc.sdc_ip p) (Sdc.sdc_id p) s
    = (Ok (Some d), s0, t0) ->
    Sdc.perform_module_operation p s
    = (Ok {| Sdc.changed := false; Sdc.sdc_details := Some d |}, s, t0 ++ t0)
    /\ existsb mutating (t0 ++ t0) = false
    /\ exists flt d0 rest vols,
         t0 = [SdcGet flt; SdcGetMappedVolumes (rec_id d0)]
         /\ sdc_get flt s = inr (d0 :: rest)
         /\ sdc_get_mapped_volumes (rec_id d0) s = inr vols
         /\ d = set_mapped_volumes d0 vols.
Proof.
  intros S conn s p d s0 t0 Hst Hnn Hv Hget.
  destruct (sdc_get_sdc_reads _ _ _ _ _ _ _ Hget) as [-> Hreads].
  split; [|split].
  - rewrite (sdc_perform_after_validation p s Hv), Hget, Hst, Hnn.
    reflexivity.
  - rewrite existsb_app, Hreads. reflexivity.
  - rewrite sdc_get_sdc_run in Hget. cbv zeta in Hget.
    match type of Hget with
    | context [sdc_get ?f s] =>
        exists f; destruct (sdc_get f s) as [e|[|d0 rest]];
        try discriminate; exists d0, rest
    end.
    destruct (sdc_get_mapped_volumes (rec_id d0) s) as [e|vols];
      [discriminate|]. exists vols. inversion Hget; subst. auto.
Qed.

Lemma C10_witness :
  Sdc.perform_module_operation
    (Mem.sdc_params None None (Some "10.0.0.7") None present) Mem.system
  = (Ok {| Sdc.changed := false;
           Sdc.sdc_details := Some Mem.centos_sdc_details |},
     Mem.system,
     [SdcGet (KSdcIp, Some "10.0.0.7"); SdcGetMappedVolumes "abc";
      SdcGet (KSdcIp, Some "10.0.0.7"); SdcGetMappedVolumes "abc"]).
Proof.
  exact (proj1 (C10_sdc_present_without_new_name_only_reads
                  Mem.store Mem.conn Mem.system
                  (Mem.sdc_params None None (Some "10.0.0.7") None present)
                  Mem.centos_sdc_details Mem.system
                  [SdcGet (KSdcIp, Some "10.0.0.7"); SdcGetMappedVolumes "abc"]
                  eq_refl eq_refl eq_refl eq_refl)).
Defined.

(** ** C3: removal of an SDC *)

(** Claim C3, as stated, fails: with no SDC of that name on the remote
    system, [state = absent] ends well with [changed = false] and no
    details; it does not fail with UnsupportedOperation. *)
Lemma C3_counterexample :
  Sdc.perform_module_operation
    (Mem.sdc_params (Some "ghost") None None None absent) Mem.system
  = (Ok {| Sdc.changed := false; Sdc.sdc_details := None |}, Mem.system,
     [SdcGet (KName, Some "ghost")])
  /\ ~ fails_with Sdc.kind_of UnsupportedOperation
         (outcome_of (Sdc.perform_module_operation
                        (Mem.sdc_params (Some "ghost") None None None absent)
                        Mem.system)).
Proof.
  split; [reflexivity|].
  intros (f & Hf & _). discriminate Hf.
Qed.

(** Claim C3, amended.  For the SDC kind, an invocation with
    [state = absent] that passes validation fails with UnsupportedOperation
    exactly when the lookup finds the SDC; when the lookup finds nothing it
    ends well with [changed = false] and no details.  Either way the remote
    state is unchanged and no mutating call is made. *)
Theorem C3_sdc_absent_fails_only_when_found :
  forall (S : Type) (conn : PowerFlexConn S) (s : S) (p : Sdc.params)
         (found : option sdc_record) (s0 : S) (t0 : list call),
    Sdc.state p = absent ->
    Sdc.validate_parameters p (Sdc.sdc_name p) (Sdc.sdc_id p) (Sdc.sdc_ip p) s
    = (Ok tt, s, []) ->
    Sdc.get_sdc (Sdc.sdc_name p) (Sdc.sdc_ip p) (Sdc.sdc_id p) s
    = (Ok found, s0, t0) ->
    Sdc.perform_module_operation p s
    = (match found with
       | Some _ => FailJson Sdc.RemovalNotAllowed
       | None => Ok {| Sdc.changed := false; Sdc.sdc_details := None |}
       end, s, t0)
    /\ (fails_with Sdc.kind_of UnsupportedOperation
          (outcome_of (Sdc.perform_module_operation p s))
        <-> found <> None)
    /\ existsb mutating t0 = false.
Proof.
  intros S conn s p found s0 t0 Hst Hv Hget.
  destruct (sdc_get_sdc_reads _ _ _ _ _ _ _ Hget) as [-> Hreads].
  assert (Hrun : Sdc.perform_module_operation p s
                 = (match found with
                    | Some _ => FailJson Sdc.RemovalNotAllowed
                    | None => Ok {| Sdc.changed := false; Sdc.sdc_details := None |}
                    end, s, t0)).
  { rewrite (sdc_perform_after_validation p s Hv), Hget, Hst.
    destruct found; reflexivity. }
  split; [exact Hrun|]. split; [|exact Hreads].
  rewrite Hrun. unfold outcome_of. cbn [fst]. split.
  - intros (f & Hf & _). destruct found; [discriminate | discriminate Hf].
  - intros Hfound. destruct found; [|contradiction].
    exists Sdc.RemovalNotAllowed. split; reflexivity.
Qed.

Lemma C3_witness :
  Sdc.perform_module_operation
    (Mem.sdc_params (Some "centos_sdc") None None None absent) Mem.system
  = (FailJson Sdc.RemovalNotAllowed, Mem.system,
     [SdcGet (KName, Some "centos_sdc"); SdcGetMappedVolumes "abc"]).
Proof.
  exact (proj1 (C3_sdc_absent_fails_only_when_found
                  Mem.store Mem.conn Mem.system
                  (Mem.sdc_params (Some "centos_sdc") None None None absent)
                  (Some Mem.centos_sdc_details) Mem.system
                  [SdcGet (KName, Some "centos_sdc"); SdcGetMappedVolumes "abc"]
                  eq_refl eq_refl eq_refl)).
Defined.

(** ** C4: no selector at all *)

(** Claim C4.  When every selector is absent ([None]), both modules stop in
    validation with a MissingIdentifier failure: no call has been made on
    the connection and the remote state is untouched, whatever the other
    parameters are. *)
Theorem C4_no_selector_is_missing_identifier :
  forall (S : Type) (conn : PowerFlexConn S) (s : S)
         (sp : Sdc.params) (np : NvmeHost.params),
    Sdc.sdc_name sp = None -> Sdc.sdc_id sp = None -> Sdc.sdc_ip sp = None ->
    NvmeHost.nvme_host_name np = None -> NvmeHost.nvme_host_id np = None ->
    NvmeHost.nqn np = None ->
    (exists f, Sdc.perform_module_operation sp s = (FailJson f, s, [])
               /\ Sdc.kind_of f = MissingIdentifier)
    /\ (exists f, NvmeHost.perform_module_operation np s = (FailJson f, s, [])
                  /\ NvmeHost.kind_of f = MissingIdentifier).
Proof.
  intros S conn s sp np H1 H2 H3 H4 H5 H6. split.
  - exists Sdc.ProvideIdentifier. split; [|reflexivity].
    unfold Sdc.perform_module_operation, Sdc.validate_parameters. cbv zeta.
    rewrite H1, H2, H3. reflexivity.
  - exists NvmeHost.ProvideAtLeastOne. split; [|reflexivity].
    unfold NvmeHost.perform_module_operation, NvmeHost.validate_parameters.
    cbv zeta. rewrite H4, H5, H6. reflexivity.
Qed.

Lemma C4_witness :
  (exists f,
      Sdc.perform_module_operation
        (Mem.sdc_params None None None (Some "renamed") present) Mem.system
      = (FailJson f, Mem.system, [])
      /\ Sdc.kind_of f = MissingIdentifier)
  /\ (exists f,
         NvmeHost.perform_module_operation
           (Mem.nvme_params None None None (Some "4") None None absent)
           Mem.system
         = (FailJson f, Mem.system, [])
         /\ NvmeHost.kind_of f = MissingIdentifier).
Proof.
  exact (C4_no_selector_is_missing_identifier Mem.store Mem.conn Mem.system
           (Mem.sdc_params None None None (Some "renamed") present)
           (Mem.nvme_params None None None (Some "4") None None absent)
           eq_refl eq_refl eq_refl eq_refl eq_refl eq_refl).
Defined.

(** ** C6: a lookup with no match *)

(** Claim C6, as stated, fails for the SDC kind: an id-based lookup with no
    match and [state = absent] ends well with [changed = false]; it does not
    fail with ResourceNotFound. *)
Lemma C6_counterexample :
  Sdc.perform_module_operation
    (Mem.sdc_params None (Some "ghost") None None absent) Mem.system
  = (Ok {| Sdc.changed := false; Sdc.sdc_details := None |}, Mem.system,
     [SdcGet (KId, Some "ghost")])
  /\ ~ fails_with Sdc.kind_of ResourceNotFound
         (outcome_of (Sdc.perform_module_operation
                        (Mem.sdc_params None (Some "ghost") None None absent)
                        Mem.system)).
Proof.
  split; [reflexivity|].
  intros (f & Hf & _). discriminate Hf.
Qed.

(** Claim C6, amended.  When the one query of the lookup returns no record:
    - SDC kind: [get_sdc] returns [None] without raising, whatever the
      selector (id included); the module then fails with ResourceNotFound
      when [state = present] and ends well with [changed = false] and no
      details when [state = absent];
    - NVMe-host kind: when [nvme_host_id] is supplied the module fails with
      ResourceNotFound whatever the requested state; otherwise
      [get_nvme_host] returns [None] without raising.
    In every case the only call made is that query.  The two kinds are
    stated each on its own: neither needs anything of the other. *)
Theorem C6_zero_matches :
  forall (S : Type) (conn : PowerFlexConn S) (s : S),
    (forall (sp : Sdc.params) (sflt : filter),
        Sdc.validate_parameters sp (Sdc.sdc_name sp) (Sdc.sdc_id sp)
          (Sdc.sdc_ip sp) s = (Ok tt, s, []) ->
        first_selector (sdc_order (Sdc.sdc_name sp) (Sdc.sdc_ip sp)
                          (Sdc.sdc_id sp)) = Some sflt ->
        sdc_get sflt s = inr [] ->
        Sdc.get_sdc (Sdc.sdc_name sp) (Sdc.sdc_ip sp) (Sdc.sdc_id sp) s
        = (Ok None, s, [SdcGet sflt])
        /\ (Sdc.state sp = present ->
            exists f, Sdc.perform_module_operation sp s
                      = (FailJson f, s, [SdcGet sflt])
                      /\ Sdc.kind_of f = ResourceNotFound)
        /\ (Sdc.state sp = absent ->
            Sdc.perform_module_operation sp s
            = (Ok {| Sdc.changed := false; Sdc.sdc_details := None |}, s,
               [SdcGet sflt])))
    /\ (forall (np : NvmeHost.params) (nflt : filter),
           NvmeHost.validate_parameters np s = (Ok tt, s, []) ->
           first_selector (nvme_order (NvmeHost.nvme_host_id np)
                             (NvmeHost.nvme_host_name np) (NvmeHost.nqn np))
           = Some nflt ->
           sdc_get nflt s = inr [] ->
           (truthy (NvmeHost.nvme_host_id np) = true ->
            exists f, NvmeHost.perform_module_operation np s
                      = (FailJson f, s, [SdcGet nflt])
                      /\ NvmeHost.kind_of f = ResourceNotFound)
           /\ (truthy (NvmeHost.nvme_host_id np) = false ->
               NvmeHost.get_nvme_host (NvmeHost.nvme_host_id np)
                 (NvmeHost.nvme_host_name np) (NvmeHost.nqn np) s
               = (Ok None, s, [SdcGet nflt]))).
Proof.
  intros S conn s. split.
  - intros sp sflt Hsv Hsf Hsg.
    assert (Hget : Sdc.get_sdc (Sdc.sdc_name sp) (Sdc.sdc_ip sp) (Sdc.sdc_id sp) s
                   = (Ok None, s, [SdcGet sflt])).
    { rewrite sdc_get_sdc_run, Hsf. cbv zeta. rewrite Hsg. reflexivity. }
    split; [exact Hget|]. split.
    + intros Hst. eexists. split.
      * rewrite (sdc_perform_after_validation sp s Hsv), Hget, Hst. reflexivity.
      * reflexivity.
    + intros Hst.
      rewrite (sdc_perform_after_validation sp s Hsv), Hget, Hst. reflexivity.
  - intros np nflt Hnv Hnf Hng.
    assert (Hnget : NvmeHost.get_nvme_host (NvmeHost.nvme_host_id np)
                      (NvmeHost.nvme_host_name np) (NvmeHost.nqn np) s
                    = if truthy (NvmeHost.nvme_host_id np)
                      then (FailJson (NvmeHost.UnableToFind (snd nflt)), s,
                            [SdcGet nflt])
                      else (Ok None, s, [SdcGet nflt])).
    { rewrite nvme_get_nvme_host_run, Hnf, Hng. reflexivity. }
    split.
    + intros Hid. rewrite Hid in Hnget. eexists. split.
      * exact (nvme_perform_lookup_fails np s _ _ _ Hnv Hnget).
      * reflexivity.
    + intros Hid. rewrite Hid in Hnget. exact Hnget.
Qed.

Lemma C6_witness :
  (exists f,
      Sdc.perform_module_operation
        (Mem.sdc_params None (Some "ghost") None None present) Mem.system
      = (FailJson f, Mem.system, [SdcGet (KId, Some "ghost")])
      /\ Sdc.kind_of f = ResourceNotFound)
  /\ (exists f,
         NvmeHost.perform_module_operation
           (Mem.nvme_params (Some "ghost") None None None None None absent)
           Mem.system
         = (FailJson f, Mem.system, [SdcGet (KId, Some "ghost")])
         /\ NvmeHost.kind_of f = ResourceNotFound).
Proof.
  destruct (C6_zero_matches Mem.store Mem.conn Mem.system) as [Hsdc Hnvme].
  split.
  - exact (proj1 (proj2 (Hsdc (Mem.sdc_params None (Some "ghost") None None
                                 present)
                           (KId, Some "ghost") eq_refl eq_refl eq_refl))
             eq_refl).
  - exact (proj1 (Hnvme (Mem.nvme_params (Some "ghost") None None None None
                           None absent)
                    (KId, Some "ghost") eq_refl eq_refl eq_refl)
             eq_refl).
Defined.

(** ** C7: which selector a lookup queries with *)




(** ** C9: the record in the result *)

(** Claim C9, as stated, fails: after an SDC selected by id is renamed, the
    record of the result is fetched by the new name; no query by id follows
    the rename. *)
Lemma C9_counterexample :
  calls_of (Sdc.perform_module_operation
              (Mem.sdc_params None (Some "abc") None (Some "n2") present)
              Mem.system)
  = [SdcGet (KId, Some "abc"); SdcGetMappedVolumes "abc"; SdcRename "abc" "n2";
     SdcGet (KName, Some "n2"); SdcGetMappedVolumes "abc"]
  /\ ~ In (SdcGet (KId, Some "abc"))
         (skipn 3 (calls_of (Sdc.perform_module_operation
                               (Mem.sdc_params None (Some "abc") None
                                  (Some "n2") present)
                               Mem.system))).
Proof.
  split; [reflexivity|].
  intros [H|[H|[]]]; discriminate H.
Qed.

(** Claim C9, amended.  The record of a successful result is read from the
    remote system in its final state, by the last query of the invocation,
    never patched locally.  The selector of that query is the first one
    supplied and not empty in the kind's order, with the name replaced by
    the new name: for an SDC ([state = present]) the new name when a rename
    was made, else the original selectors in the order name, ip, id; for an
    NVMe host (when something changed) the new name if one is supplied and
    not empty, else the original name, then id, then nqn.  An id is thus
    used only when no name is known.  For an SDC the record of the result
    is the first record of that response, field by field, with the key
    [mapped_volumes] set to the volumes the remote system maps to its id in
    that final state, read right after the query.  The two kinds are stated
    each on its own. *)
Theorem C9_result_is_refetched :
  forall (S : Type) (conn : PowerFlexConn S) (s : S),
    (forall (sp : Sdc.params) (sr : Sdc.result) (s1 : S) (t1 : list call),
        Sdc.perform_module_operation sp s = (Ok sr, s1, t1) ->
        Sdc.state sp = present ->
        exists flt pre tail,
          first_selector
            (sdc_order (if Sdc.changed sr then Sdc.sdc_new_name sp
                        else Sdc.sdc_name sp)
               (Sdc.sdc_ip sp) (Sdc.sdc_id sp)) = Some flt
          /\ t1 = pre ++ SdcGet flt :: tail
          /\ match first_match (sdc_get flt s1) with
             | None => tail = [] /\ Sdc.sdc_details sr = None
             | Some d0 =>
                 tail = [SdcGetMappedVolumes (rec_id d0)]
                 /\ exists vols d,
                      sdc_get_mapped_volumes (rec_id d0) s1 = inr vols
                      /\ Sdc.sdc_details sr = Some d
                      /\ rec_mapped_volumes d = Some vols
                      /\ rec_id d = rec_id d0
                      /\ rec_name d = rec_name d0
                      /\ rec_sdcIp d = rec_sdcIp d0
                      /\ rec_nqn d = rec_nqn d0
                      /\ rec_maxNumPaths d = rec_maxNumPaths d0
                      /\ rec_maxNumSysPorts d = rec_maxNumSysPorts d0
             end)
    /\ (forall (np : NvmeHost.params) (nr : NvmeHost.result) (s2 : S)
               (t2 : list call),
           NvmeHost.perform_module_operation np s = (Ok nr, s2, t2) ->
           NvmeHost.changed nr = true ->
           exists flt pre,
             first_selector
               (nvme_order (NvmeHost.nvme_host_id np)
                  (py_or (NvmeHost.nvme_host_new_name np)
                     (NvmeHost.nvme_host_name np))
                  (NvmeHost.nqn np)) = Some flt
             /\ t2 = pre ++ [SdcGet flt]
             /\ NvmeHost.nvme_host_details nr = first_match (sdc_get flt s2)).
Proof.
  intros S conn s. split.
  - intros sp sr s1 t1 Hs Hst.
    assert (Hlast : forall n found sa sb t flt,
               Sdc.get_sdc n (Sdc.sdc_ip sp) (Sdc.sdc_id sp) sa = (Ok found, sb, t) ->
               first_selector (sdc_order n (Sdc.sdc_ip sp) (Sdc.sdc_id sp))
               = Some flt ->
               exists tail,
                 t = SdcGet flt :: tail
                 /\ match first_match (sdc_get flt sa) with
                    | None => tail = [] /\ found = None
                    | Some d0 =>
                        tail = [SdcGetMappedVolumes (rec_id d0)]
                        /\ exists vols d,
                             sdc_get_mapped_volumes (rec_id d0) sa = inr vols
                             /\ found = Some d
                             /\ rec_mapped_volumes d = Some vols
                             /\ rec_id d = rec_id d0
                             /\ rec_name d = rec_name d0
                             /\ rec_sdcIp d = rec_sdcIp d0
                             /\ rec_nqn d = rec_nqn d0
                             /\ rec_maxNumPaths d = rec_maxNumPaths d0
                             /\ rec_maxNumSysPorts d = rec_maxNumSysPorts d0
                    end).
    { intros n found sa sb t flt Hg Hf.
      rewrite sdc_get_sdc_run, Hf in Hg. cbv zeta in Hg.
      destruct (sdc_get flt sa) as [e|[|d0 rest]]; cbn [first_match];
        [discriminate Hg | |
         destruct (sdc_get_mapped_volumes (rec_id d0) sa) as [e|vols];
         [discriminate Hg|]];
        inversion Hg; subst; eexists; (split; [reflexivity|]).
      - split; reflexivity.
      - split; [reflexivity|].
        exists vols, (set_mapped_volumes d0 vols).
        repeat split; reflexivity. }
    assert (Hv : Sdc.validate_parameters sp (Sdc.sdc_name sp) (Sdc.sdc_id sp)
                   (Sdc.sdc_ip sp) s = (Ok tt, s, [])).
    { unfold Sdc.perform_module_operation in Hs. cbv zeta in Hs.
      apply bind_Ok_inv in Hs. destruct Hs as (v & sa & ta & tb & Hv & _).
      now destruct (sdc_validate_parameters_Ok _ _ _ _ s s _ _ _ Hv)
        as (_ & _ & Hv'). }
    pose proof (sdc_validated_selector sp s Hv) as Hsel.
    rewrite (sdc_perform_after_validation sp s Hv), Hst in Hs.
    destruct (Sdc.get_sdc (Sdc.sdc_name sp) (Sdc.sdc_ip sp) (Sdc.sdc_id sp) s)
      as [[o0 s0] t0] eqn:Hget.
    destruct o0 as [[d|]|f|e]; try discriminate.
    destruct (Sdc.sdc_new_name sp) as [new_name|] eqn:Hnn.
    + destruct (blank new_name) eqn:Hb; [discriminate|].
      destruct (sdc_rename (rec_id d) new_name s) as [[e|u] sa];
        [discriminate|].
      destruct (Sdc.get_sdc (Some new_name) (Sdc.sdc_ip sp) (Sdc.sdc_id sp) sa)
        as [[o1 sb] tb] eqn:Hget1.
      destruct o1 as [details|f|e]; try discriminate.
      inversion Hs; subst. cbn [Sdc.changed Sdc.sdc_details].
      assert (Hf : first_selector
                     (sdc_order (Some new_name) (Sdc.sdc_ip sp) (Sdc.sdc_id sp))
                   = Some (KName, Some new_name)).
      { unfold sdc_order. cbn [first_selector].
        destruct (truthy (Some new_name)) eqn:Ht; [reflexivity|].
        apply blank_not_truthy in Ht. congruence. }
      destruct (Hlast _ _ _ _ _ _ Hget1 Hf) as (tail & -> & Hrec).
      exists (KName, Some new_name), (t0 ++ [SdcRename (rec_id d) new_name]), tail.
      rewrite <- app_assoc. auto.
    + destruct (first_selector
                  (sdc_order (Sdc.sdc_name sp) (Sdc.sdc_ip sp) (Sdc.sdc_id sp)))
        as [flt|] eqn:Hf; [|contradiction].
      inversion Hs; subst. cbn [Sdc.changed Sdc.sdc_details].
      destruct (sdc_get_sdc_reads _ _ _ _ _ _ _ Hget) as [-> _].
      destruct (Hlast _ _ _ _ _ _ Hget Hf) as (tail & -> & Hrec).
      exists flt, (SdcGet flt :: tail), tail. rewrite Hf. auto.
  - intros np nr s2 t2 Hn Hch.
    destruct (nvme_perform_Ok_inv _ _ _ _ _ Hn)
      as (found & t0 & x & tm & tf & _ & _ & _ & Hf & Hc & ->).
    rewrite <- Hc, Hch in Hf.
    destruct (nvme_get_nvme_host_Ok _ _ _ _ _ _ _ Hf)
      as (flt & Hsel & _ & -> & Hd).
    exists flt, (t0 ++ tm). rewrite <- app_assoc. auto.
Qed.

Lemma C9_witness :
  (exists pre tail,
      calls_of (Sdc.perform_module_operation Mem.rename_sdc_by_id Mem.system)
      = pre ++ SdcGet (KName, Some "n2") :: tail)
  /\ (exists pre,
         calls_of (NvmeHost.perform_module_operation Mem.rename_host_by_id
                     Mem.system)
         = pre ++ [SdcGet (KName, Some "h2")]).
Proof.
  assert (Hs : Sdc.perform_module_operation Mem.rename_sdc_by_id Mem.system
               = (Ok {| Sdc.changed := true;
                        Sdc.sdc_details :=
                          Some (set_mapped_volumes
                                  (Mem.with_name "n2" Mem.centos_sdc)
                                  [Mem.vol1]) |},
                  state_of (Sdc.perform_module_operation Mem.rename_sdc_by_id
                              Mem.system),
                  calls_of (Sdc.perform_module_operation Mem.rename_sdc_by_id
                              Mem.system)))
    by (vm_compute; reflexivity).
  assert (Hn : NvmeHost.perform_module_operation Mem.rename_host_by_id Mem.system
               = (Ok {| NvmeHost.changed := true;
                        NvmeHost.nvme_host_details :=
                          Some (Mem.with_name "h2" Mem.nvme_host_test) |},
                  state_of (NvmeHost.perform_module_operation
                              Mem.rename_host_by_id Mem.system),
                  calls_of (NvmeHost.perform_module_operation
                              Mem.rename_host_by_id Mem.system)))
    by (vm_compute; reflexivity).
  destruct (C9_result_is_refetched Mem.store Mem.conn Mem.system)
    as [Hsdc Hnvme].
  destruct (Hsdc Mem.rename_sdc_by_id _ _ _ Hs eq_refl)
    as (flt & pre & tail & Hsel & Ht & _).
  destruct (Hnvme Mem.rename_host_by_id _ _ _ Hn eq_refl)
    as (flt' & pre' & Hsel' & Ht' & _).
  split.
  - exists pre, tail. injection Hsel as <-. exact Ht.
  - exists pre'. injection Hsel' as <-. exact Ht'.
Defined.

(** ** C2: tunable limits of an NVMe host *)

(** Claim C2.  However an NVMe-host invocation ends, every call it made to
    modify [max_num_paths] or [max_num_sys_ports] is on the host its lookup
    found, with a supplied value that is not empty and differs from the
    text of the current remote value.  In particular, on a host whose
    [maxNumPaths] is the integer 3, with [max_num_paths] the string "3"
    (and nothing else to change), no mutating call is made and the result
    has [changed = false] and the host as found. *)
Theorem C2_limit_modified_only_when_different :
  forall (S : Type) (conn : PowerFlexConn S) (s : S) (p : NvmeHost.params)
         (o : outcome NvmeHost.failure NvmeHost.result) (s' : S) (t : list call),
    NvmeHost.perform_module_operation p s = (o, s', t) ->
    Forall (limit_call_justified
              (looked_up (outcome_of
                 (NvmeHost.get_nvme_host (NvmeHost.nvme_host_id p)
                    (NvmeHost.nvme_host_name p) (NvmeHost.nqn p) s)))
              (NvmeHost.nvme_host_new_name p) (NvmeHost.max_num_paths p)
              (NvmeHost.max_num_sys_ports p)) t
    /\ forall d,
         looked_up (outcome_of
           (NvmeHost.get_nvme_host (NvmeHost.nvme_host_id p)
              (NvmeHost.nvme_host_name p) (NvmeHost.nqn p) s)) = Some d ->
         NvmeHost.validate_parameters p s = (Ok tt, s, []) ->
         NvmeHost.state p = present ->
         rec_maxNumPaths d = PyInt 3 ->
         NvmeHost.max_num_paths p = Some "3" ->
         name_settled (NvmeHost.nvme_host_new_name p) (rec_name d) = true ->
         limit_settled (NvmeHost.max_num_sys_ports p) (rec_maxNumSysPorts d) = true ->
         o = Ok {| NvmeHost.changed := false;
                   NvmeHost.nvme_host_details := Some d |}
         /\ s' = s /\ existsb mutating t = false.
Proof.
  intros S conn s p o s' t H. split.
  - revert o s' t H. change (calls_satisfy
      (limit_call_justified
         (looked_up (outcome_of
            (NvmeHost.get_nvme_host (NvmeHost.nvme_host_id p)
               (NvmeHost.nvme_host_name p) (NvmeHost.nqn p) s)))
         (NvmeHost.nvme_host_new_name p) (NvmeHost.max_num_paths p)
         (NvmeHost.max_num_sys_ports p))
      (NvmeHost.perform_module_operation p) s).
    intros o s' t H. rewrite nvme_perform_steps in H. revert o s' t H.
    apply calls_bind.
    { apply nvme_validate_parameters_calls. }
    intros [] s1 t1 Hv.
    destruct (nvme_validate_parameters_Ok p s s _ _ _ Hv) as (-> & -> & _).
    apply calls_bind.
    { apply nvme_get_nvme_host_calls. intros; exact I. }
    intros found s2 t2 Hl.
    destruct (nvme_get_nvme_host_reads _ _ _ _ _ _ _ Hl) as [-> _].
    rewrite Hl. cbn [outcome_of fst looked_up].
    apply calls_bind.
    { apply nvme_mutation_calls. }
    intros x s3 t3 Hm. apply calls_bind; [|intros; apply calls_ret].
    destruct (snd x); [|apply calls_ret].
    apply nvme_get_nvme_host_calls. intros; exact I.
  - intros d Hd Hv Hst Hcur Hmp Hname Hports.
    destruct (NvmeHost.get_nvme_host (NvmeHost.nvme_host_id p)
                (NvmeHost.nvme_host_name p) (NvmeHost.nqn p) s)
      as [[ol sl] tl] eqn:Hl.
    destruct ol as [found| |]; cbn [outcome_of fst looked_up] in Hd;
      try discriminate. subst found.
    destruct (nvme_get_nvme_host_reads _ _ _ _ _ _ _ Hl) as [-> Hreads].
    assert (Hset : nvme_settled p (Some d) = true).
    { unfold nvme_settled. rewrite Hst, Hname, Hports, Hmp, Hcur. reflexivity. }
    rewrite (nvme_perform_run p s _ _ _ _ _ _ Hv Hl
               (nvme_mutation_settled p (Some d) s Hset)) in H.
    cbn [fst snd] in H. inversion H; subst.
    rewrite app_nil_r. auto.
Qed.

Lemma C2_witness :
  NvmeHost.perform_module_operation
    (Mem.nvme_params None (Some "nvme_host_test") None (Some "3") None None
       present) Mem.system
  = (Ok {| NvmeHost.changed := false;
           NvmeHost.nvme_host_details := Some Mem.nvme_host_test |},
     Mem.system, [SdcGet (KName, Some "nvme_host_test")]).
Proof.
  pose (p := Mem.nvme_params None (Some "nvme_host_test") None (Some "3") None
               None present).
  destruct (NvmeHost.perform_module_operation p Mem.system) as [[o s'] t] eqn:H.
  destruct (C2_limit_modified_only_when_different Mem.store Mem.conn
              Mem.system p o s' t H) as [_ Hscenario].
  destruct (Hscenario Mem.nvme_host_test eq_refl eq_refl eq_refl eq_refl eq_refl
              eq_refl eq_refl) as (-> & -> & _).
  vm_compute in H. injection H as <-. reflexivity.
Defined.

(** ** C5: a selector made of white space *)

(** Where the claim holds: the SDC module rejects a blank [sdc_name],
    [sdc_id] or [sdc_ip], and the NVMe-host module a blank [nvme_host_id]
    or [nvme_host_name], in validation, before any call. *)
Lemma blank_selector_rejected :
  forall (S : Type) (conn : PowerFlexConn S) (s : S)
         (sp : Sdc.params) (np : NvmeHost.params) (v w : string),
    whitespace_only v = true ->
    Sdc.sdc_name sp = Some v \/ Sdc.sdc_id sp = Some v \/ Sdc.sdc_ip sp = Some v ->
    whitespace_only w = true ->
    NvmeHost.nvme_host_id np = Some w \/ NvmeHost.nvme_host_name np = Some w ->
    (exists f, Sdc.perform_module_operation sp s = (FailJson f, s, [])
               /\ Sdc.kind_of f = InvalidIdentifier)
    /\ (exists f, NvmeHost.perform_module_operation np s = (FailJson f, s, [])
                  /\ NvmeHost.kind_of f = InvalidIdentifier).
Proof.
  intros S conn s sp np v w Hv Hsel Hw Hnsel.
  rewrite <- blank_whitespace_only in Hv, Hw. split.
  - unfold Sdc.perform_module_operation, Sdc.validate_parameters. cbv zeta.
    cbn [Sdc.check_identifiers forallb]. unfold bind, ret, fail_json.
    destruct (Sdc.sdc_name sp) as [a|] eqn:Ha; cbn [is_none andb];
      [destruct (blank a) eqn:Hba; [eexists; split; reflexivity|]|];
      (destruct (Sdc.sdc_id sp) as [b|] eqn:Hb; cbn [is_none andb];
       [destruct (blank b) eqn:Hbb; [eexists; split; reflexivity|]|]);
      (destruct (Sdc.sdc_ip sp) as [c|] eqn:Hc; cbn [is_none andb];
       [destruct (blank c) eqn:Hbc; [eexists; split; reflexivity|]|]);
      exfalso; destruct Hsel as [H|[H|H]]; inversion H; subst; congruence.
  - unfold NvmeHost.perform_module_operation, NvmeHost.validate_parameters.
    cbv zeta. cbn [NvmeHost.check_identifiers]. unfold bind, ret, fail_json.
    destruct (NvmeHost.nvme_host_id np) as [a|] eqn:Ha;
      [destruct (blank a) eqn:Hba; [eexists; split; reflexivity|]|];
      (destruct (NvmeHost.nvme_host_name np) as [b|] eqn:Hb;
       [destruct (blank b) eqn:Hbb; [eexists; split; reflexivity|]|]);
      exfalso; destruct Hnsel as [H|H]; inversion H; subst; congruence.
Qed.

(** Claim C5 fails on the code for the [nqn] selector of the NVMe-host
    module: validation tests [nvme_host_id] and [nvme_host_name] only.  With
    [nqn] the only selector, made of white space, [state = absent] and no
    host answering the query, the module passes validation, queries the
    remote system with that nqn and ends well with [changed = false]; no
    InvalidIdentifier failure is raised. *)
Theorem C5_nvme_blank_nqn_is_not_rejected :
  forall (S : Type) (conn : PowerFlexConn S) (s : S) (p : NvmeHost.params)
         (q : string),
    NvmeHost.nvme_host_id p = None ->
    NvmeHost.nvme_host_name p = None ->
    NvmeHost.nqn p = Some q ->
    whitespace_only q = true -> q <> "" ->
    NvmeHost.state p = absent ->
    sdc_get (KNqn, Some q) s = inr [] ->
    NvmeHost.validate_parameters p s = (Ok tt, s, [])
    /\ NvmeHost.perform_module_operation p s
       = (Ok {| NvmeHost.changed := false; NvmeHost.nvme_host_details := None |},
          s, [SdcGet (KNqn, Some q)]).
Proof.
  intros S conn s p q Hid Hname Hq Hws Hne Hst Hget.
  assert (Hv : NvmeHost.validate_parameters p s = (Ok tt, s, [])).
  { unfold NvmeHost.validate_parameters. cbn [NvmeHost.check_identifiers].
    rewrite Hid, Hname, Hq. reflexivity. }
  split; [exact Hv|].
  assert (Hl : NvmeHost.get_nvme_host (NvmeHost.nvme_host_id p)
                 (NvmeHost.nvme_host_name p) (NvmeHost.nqn p) s
               = (Ok None, s, [SdcGet (KNqn, Some q)])).
  { rewrite nvme_get_nvme_host_run, Hid, Hname, Hq. unfold nvme_order.
    cbn [first_selector]. change (truthy None) with false. cbv iota.
    apply truthy_Some in Hne. rewrite Hne, Hget. reflexivity. }
  assert (Hm : nvme_mutation p None s = (Ok (None, false), s, [])).
  { unfold nvme_mutation. rewrite Hst. reflexivity. }
  rewrite (nvme_perform_run p s _ _ _ _ _ _ Hv Hl Hm). reflexivity.
Qed.

Lemma C5_witness :
  NvmeHost.perform_module_operation
    (Mem.nvme_params None None None None None (Some " ") absent) Mem.system
  = (Ok {| NvmeHost.changed := false; NvmeHost.nvme_host_details := None |},
     Mem.system, [SdcGet (KNqn, Some " ")]).
Proof.
  exact (proj2 (C5_nvme_blank_nqn_is_not_rejected Mem.store Mem.conn Mem.system
                  (Mem.nvme_params None None None None None (Some " ") absent)
                  " " eq_refl eq_refl eq_refl eq_refl ltac:(discriminate)
                  eq_refl eq_refl)).
Defined.

(** ** C8: a blank new name *)

(** Where the claim holds: on the rename path of the SDC module a blank
    [sdc_new_name] stops the invocation with InvalidInput before any
    mutating call. *)
Lemma sdc_blank_new_name_rejected :
  forall (S : Type) (conn : PowerFlexConn S) (s : S) (p : Sdc.params)
         (d : sdc_record) (s0 : S) (t0 : list call) (nn : string),
    Sdc.validate_parameters p (Sdc.sdc_name p) (Sdc.sdc_id p) (Sdc.sdc_ip p) s
    = (Ok tt, s, []) ->
    Sdc.get_sdc (Sdc.sdc_name p) (Sdc.sdc_ip p) (Sdc.sdc_id p) s
    = (Ok (Some d), s0, t0) ->
    Sdc.state p = present ->
    Sdc.sdc_new_name p = Some nn ->
    whitespace_only nn = true ->
    Sdc.perform_module_operation p s = (FailJson Sdc.ProvideValidName, s, t0)
    /\ Sdc.kind_of Sdc.ProvideValidName = InvalidInput
    /\ existsb mutating t0 = false.
Proof.
  intros S conn s p d s0 t0 nn Hv Hget Hst Hnn Hws.
  rewrite <- blank_whitespace_only in Hws.
  destruct (sdc_get_sdc_reads _ _ _ _ _ _ _ Hget) as [-> Hreads].
  rewrite (sdc_perform_after_validation p s Hv), Hget, Hst, Hnn, Hws. auto.
Qed.

(** Claim C8 fails on the code for the NVMe-host module: it has no test of
    the new name.  On an existing host, a new name made of white space (or
    empty) that differs from the current name is sent to the remote system
    in a rename call like any other name, right after the lookup, and the
    invocation never ends with an InvalidInput failure. *)
Theorem C8_nvme_blank_new_name_is_sent :
  forall (S : Type) (conn : PowerFlexConn S) (s : S) (p : NvmeHost.params)
         (d : sdc_record) (s0 : S) (t0 : list call) (nn : string),
    NvmeHost.validate_parameters p s = (Ok tt, s, []) ->
    NvmeHost.get_nvme_host (NvmeHost.nvme_host_id p) (NvmeHost.nvme_host_name p)
      (NvmeHost.nqn p) s = (Ok (Some d), s0, t0) ->
    NvmeHost.state p = present ->
    NvmeHost.nvme_host_new_name p = Some nn ->
    whitespace_only nn = true ->
    PyStr nn <> rec_name d ->
    (exists tail,
        calls_of (NvmeHost.perform_module_operation p s)
        = t0 ++ SdcRename (rec_id d) nn :: tail)
    /\ ~ fails_with NvmeHost.kind_of InvalidInput
           (outcome_of (NvmeHost.perform_module_operation p s)).
Proof.
  intros S conn s p d s0 t0 nn Hv Hl Hst Hnn _ Hne.
  destruct (nvme_perform_modify_renames d nn (NvmeHost.max_num_paths p)
              (NvmeHost.max_num_sys_ports p) s Hne) as (tail & Hcalls & Hout).
  destruct (NvmeHost.perform_modify d (Some nn) (NvmeHost.max_num_paths p)
              (NvmeHost.max_num_sys_ports p) s) as [[om sm] tm] eqn:Hpm.
  unfold calls_of, outcome_of in Hcalls, Hout. cbn [fst snd] in Hcalls, Hout.
  subst tm.
  destruct om as [c|f|e]; [| |contradiction].
  - assert (Hm : nvme_mutation p (Some d) s
                 = (Ok (Some d, c), sm, (SdcRename (rec_id d) nn :: tail) ++ [])).
    { unfold nvme_mutation. rewrite Hst, Hnn.
      rewrite (bind_ok _ _ _ _ _ _ Hpm). reflexivity. }
    rewrite (nvme_perform_run p s _ _ _ _ _ _ Hv Hl Hm). cbn [fst snd].
    destruct c.
    + destruct (NvmeHost.get_nvme_host _ _ _ sm) as [[o1 s1] tf] eqn:Hf.
      destruct o1 as [details|f|e]; unfold calls_of, outcome_of; cbn [fst snd].
      * split; [eexists; rewrite app_nil_r; cbn [app]; reflexivity|].
        intros (f & Hf' & _). discriminate.
      * split; [eexists; rewrite app_nil_r; cbn [app]; reflexivity|].
        intros (f' & Hf' & Hk). inversion Hf'; subst.
        destruct (nvme_get_nvme_host_kind _ _ _ _ _ _ _ Hf); congruence.
      * split; [eexists; rewrite app_nil_r; cbn [app]; reflexivity|].
        intros (f & Hf' & _). discriminate.
    + unfold calls_of, outcome_of; cbn [fst snd].
      split; [eexists; rewrite !app_nil_r; reflexivity|].
      intros (f & Hf' & _). discriminate.
  - assert (Hm : nvme_mutation p (Some d) s
                 = (FailJson f, sm, SdcRename (rec_id d) nn :: tail)).
    { unfold nvme_mutation. rewrite Hst, Hnn.
      rewrite (bind_fail _ _ _ _ _ _ Hpm). reflexivity. }
    rewrite (nvme_perform_mutation_fails p s _ _ _ _ _ _ Hv Hl Hm).
    unfold calls_of, outcome_of; cbn [fst snd].
    split; [eexists; reflexivity|].
    intros (f' & Hf' & Hk). inversion Hf'; subst. congruence.
Qed.

Lemma C8_witness :
  (exists tail,
      calls_of (NvmeHost.perform_module_operation
                  (Mem.nvme_params None (Some "nvme_host_test") (Some " ") None
                     None None present) Mem.system)
      = [SdcGet (KName, Some "nvme_host_test")]
        ++ SdcRename Mem.test_id " " :: tail)
  /\ ~ fails_with NvmeHost.kind_of InvalidInput
         (outcome_of (NvmeHost.perform_module_operation
                        (Mem.nvme_params None (Some "nvme_host_test") (Some " ")
                           None None None present) Mem.system)).
Proof.
  exact (C8_nvme_blank_new_name_is_sent Mem.store Mem.conn Mem.system
           (Mem.nvme_params None (Some "nvme_host_test") (Some " ") None None
              None present)
           Mem.nvme_host_test Mem.system [SdcGet (KName, Some "nvme_host_test")]
           " " eq_refl eq_refl eq_refl eq_refl eq_refl ltac:(discriminate)).
Defined.

(** ** C1: running an invocation twice *)

(** The SDC module does not compare the new name with the current one: on
    the rename path with a name that is not blank, the rename call is made
    whatever the current name is, and a rename the remote system accepts is
    reported as a change. *)
Lemma sdc_rename_is_unconditional :
  forall (S : Type) (conn : PowerFlexConn S) (s : S) (p : Sdc.params)
         (d : sdc_record) (s0 : S) (t0 : list call) (nn : string),
    Sdc.validate_parameters p (Sdc.sdc_name p) (Sdc.sdc_id p) (Sdc.sdc_ip p) s
    = (Ok tt, s, []) ->
    Sdc.get_sdc (Sdc.sdc_name p) (Sdc.sdc_ip p) (Sdc.sdc_id p) s
    = (Ok (Some d), s0, t0) ->
    Sdc.state p = present ->
    Sdc.sdc_new_name p = Some nn ->
    blank nn = false ->
    (exists tail,
        calls_of (Sdc.perform_module_operation p s)
        = t0 ++ SdcRename (rec_id d) nn :: tail)
    /\ forall r, outcome_of (Sdc.perform_module_operation p s) = Ok r ->
                 Sdc.changed r = true.
Proof.
  intros S conn s p d s0 t0 nn Hv Hget Hst Hnn Hb.
  rewrite (sdc_perform_after_validation p s Hv), Hget, Hst, Hnn, Hb.
  destruct (sdc_rename (rec_id d) nn s) as [[e|u] s1].
  - unfold calls_of, outcome_of; cbn [fst snd]. split; [eauto|].
    intros r Hr. discriminate.
  - destruct (Sdc.get_sdc (Some nn) (Sdc.sdc_ip p) (Sdc.sdc_id p) s1)
      as [[[details|f|e] s2] t1]; unfold calls_of, outcome_of; cbn [fst snd];
      (split; [eauto|]); intros r Hr; inversion Hr; reflexivity.
Qed.

(** Claim C1, as stated, fails: renaming an NVMe host selected by its name
    succeeds with [changed = true]; the same invocation run again no longer
    finds the host under the old name, takes the creation path and fails
    there. *)
Lemma C1_counterexample :
  exists r1 s1 t1,
    NvmeHost.perform_module_operation Mem.rename_host_by_name Mem.system
    = (Ok r1, s1, t1)
    /\ NvmeHost.changed r1 = true
    /\ outcome_of (NvmeHost.perform_module_operation Mem.rename_host_by_name s1)
       = FailJson NvmeHost.NqnRequired.
Proof.
  do 3 eexists. split; [reflexivity|]. split; reflexivity.
Qed.

(** Claim C1, amended.  For the NVMe-host kind: let an invocation end well
    on a remote system whose [host.create] returns the created host, and
    let the remote system afterwards show what was asked for, that is, the
    same selectors still find the host, with the requested name and limits
    on it (or find nothing, for [absent]), and the query of the re-fetch
    agrees with them.  Then the first result has [changed = true] exactly
    when a mutating call was made, and the same invocation run again makes
    no mutating call, leaves the remote state as it is and returns
    [changed = false] with the same record.  In particular a rename whose
    new name is already the remote name makes no rename call. *)
Theorem C1_nvme_second_run_changes_nothing :
  forall (S : Type) (conn : PowerFlexConn S) (s : S) (p : NvmeHost.params)
         (r1 : NvmeHost.result) (s1 : S) (t1 : list call)
         (found1 : option sdc_record),
    NvmeHost.perform_module_operation p s = (Ok r1, s1, t1) ->
    create_returns_host s ->
    outcome_of (NvmeHost.get_nvme_host (NvmeHost.nvme_host_id p)
                  (NvmeHost.nvme_host_name p) (NvmeHost.nqn p) s1) = Ok found1 ->
    nvme_settled p found1 = true ->
    (NvmeHost.changed r1 = true ->
     outcome_of (NvmeHost.get_nvme_host (NvmeHost.nvme_host_id p)
                   (py_or (NvmeHost.nvme_host_new_name p)
                      (NvmeHost.nvme_host_name p))
                   (NvmeHost.nqn p) s1) = Ok found1) ->
    NvmeHost.changed r1 = existsb mutating t1
    /\ exists t2,
         NvmeHost.perform_module_operation p s1
         = (Ok {| NvmeHost.changed := false;
                  NvmeHost.nvme_host_details := NvmeHost.nvme_host_details r1 |},
            s1, t2)
         /\ existsb mutating t2 = false.
Proof.
  intros S conn s p r1 s1 t1 found1 H1 HC Hl1 Hset Hre.
  destruct (nvme_perform_Ok_inv _ _ _ _ _ H1)
    as (found & t0 & x & tm & tf & Hv & Hl & Hm & Hf & Hc & ->).
  destruct (nvme_mutation_changed _ _ _ _ _ _ Hm HC) as [Hx Hsame].
  destruct (nvme_get_nvme_host_reads _ _ _ _ _ _ _ Hl) as [_ Ht0].
  destruct (nvme_validate_parameters_Ok p s s1 _ _ _ Hv) as (_ & _ & Hv1).
  destruct (NvmeHost.get_nvme_host (NvmeHost.nvme_host_id p)
              (NvmeHost.nvme_host_name p) (NvmeHost.nqn p) s1)
    as [[o2 s2] t2] eqn:Hl2.
  unfold outcome_of in Hl1. cbn [fst] in Hl1. subst o2.
  destruct (nvme_get_nvme_host_reads _ _ _ _ _ _ _ Hl2) as [-> Ht2].
  pose proof (nvme_perform_run p s1 _ _ _ _ _ _ Hv1 Hl2
                (nvme_mutation_settled p found1 s1 Hset)) as Hrun.
  cbn [fst snd] in Hrun. rewrite !app_nil_r in Hrun.
  assert (Hd : NvmeHost.nvme_host_details r1 = found1).
  { destruct (snd x) eqn:Hsx.
    - rewrite Hc in Hre. specialize (Hre eq_refl).
      rewrite Hf in Hre. unfold outcome_of in Hre. cbn [fst] in Hre.
      congruence.
    - destruct Hf as [-> _]. destruct (Hsame eq_refl) as (-> & _ & ->).
      rewrite Hl in Hl2. congruence. }
  split.
  - rewrite Hc, Hx, !existsb_app, Ht0. cbn [orb].
    destruct (snd x) eqn:Hsx.
    + destruct (nvme_get_nvme_host_reads _ _ _ _ _ _ _ Hf) as [_ ->].
      now rewrite orb_false_r.
    + destruct Hf as [_ ->]. now rewrite orb_false_r.
  - exists t2. rewrite Hd. auto.
Qed.

Lemma C1_witness :
  exists r1 s1 t1 t2,
    NvmeHost.perform_module_operation Mem.rename_host_by_id Mem.system
    = (Ok r1, s1, t1)
    /\ NvmeHost.changed r1 = true
    /\ NvmeHost.perform_module_operation Mem.rename_host_by_id s1
       = (Ok {| NvmeHost.changed := false;
                NvmeHost.nvme_host_details := NvmeHost.nvme_host_details r1 |},
          s1, t2)
    /\ existsb mutating t2 = false.
Proof.
  assert (H1 : NvmeHost.perform_module_operation Mem.rename_host_by_id Mem.system
               = (Ok {| NvmeHost.changed := true;
                        NvmeHost.nvme_host_details :=
                          Some (Mem.with_name "h2" Mem.nvme_host_test) |},
                  state_of (NvmeHost.perform_module_operation
                              Mem.rename_host_by_id Mem.system),
                  calls_of (NvmeHost.perform_module_operation
                              Mem.rename_host_by_id Mem.system)))
    by (vm_compute; reflexivity).
  assert (HC : create_returns_host Mem.system)
    by (intros q n mp ms; discriminate).
  destruct (C1_nvme_second_run_changes_nothing Mem.store Mem.conn Mem.system
              Mem.rename_host_by_id _ _ _
              (Some (Mem.with_name "h2" Mem.nvme_host_test))
              H1 HC eq_refl eq_refl (fun _ => eq_refl))
    as (_ & t2 & H2 & Hreads).
  do 4 eexists. split; [exact H1|]. split; [reflexivity|].
  split; [exact H2 | exact Hreads].
Defined.

(** * Further properties of the two modules *)

(** Taking apart what is known of a membership in a short list. *)
Ltac in_cases :=
  repeat match goal with
    | H : In _ _ |- _ => simpl in H
    | H : _ \/ _ |- _ => destruct H
    | H : Some _ = Some _ |- _ => inversion H; clear H; subst
    | H : None = Some _ |- _ => discriminate H
    | H : False |- _ => contradiction
    | H : exists _, _ |- _ => destruct H
    | H : _ /\ _ |- _ => destruct H
    | H : FailJson _ = FailJson _ |- _ => inversion H; clear H; subst
    end.

(** Closing a goal about which selectors are supplied and which are made of
    white space. *)
Ltac selector_facts :=
  try discriminate; try congruence; try contradiction;
  try solve [eexists; split; reflexivity];
  try solve [exfalso;
             match goal with
             | H0 : forall v, ~ _ |- _ => eapply H0; simpl; eauto
             end];
  try solve [exfalso;
             match goal with
             | H0 : forall v, _ -> whitespace_only v = false,
               Hw : whitespace_only ?x = true |- _ =>
                 rewrite (H0 x) in Hw by (simpl; tauto); discriminate Hw
             end];
  try solve [intros v Hin; in_cases; discriminate];
  try solve [split; [eexists; simpl; eauto
                    | intros v Hin; in_cases; congruence]];
  try solve [match goal with
             | Hw : whitespace_only ?x = true |- _ =>
                 exists x; split; [simpl; tauto | exact Hw]
             end].

(** ** Validation *)

(** [validate_parameters] of the SDC module decides on the three selectors
    alone: it passes exactly when one is supplied and every supplied one has
    a character that is not white space, fails with MissingIdentifier
    exactly when none is supplied and with InvalidIdentifier exactly when a
    supplied one is made of white space; it calls nothing, and when it
    fails the module stops with that failure before any call. *)
Theorem sdc_validation_decides :
  forall (S : Type) (conn : PowerFlexConn S) (s : S) (p : Sdc.params),
    let selectors := [Sdc.sdc_name p; Sdc.sdc_id p; Sdc.sdc_ip p] in
    let run := Sdc.validate_parameters p (Sdc.sdc_name p) (Sdc.sdc_id p)
                 (Sdc.sdc_ip p) s in
    state_of run = s /\ calls_of run = []
    /\ (outcome_of run = Ok tt <->
        (exists v, In (Some v) selectors)
        /\ forall v, In (Some v) selectors -> whitespace_only v = false)
    /\ (fails_with Sdc.kind_of MissingIdentifier (outcome_of run) <->
        forall v, ~ In (Some v) selectors)
    /\ (fails_with Sdc.kind_of InvalidIdentifier (outcome_of run) <->
        exists v, In (Some v) selectors /\ whitespace_only v = true)
    /\ forall f, outcome_of run = FailJson f ->
                 Sdc.perform_module_operation p s = (FailJson f, s, []).
Proof.
  intros S conn s p selectors run.
  assert (Hstop : forall f, outcome_of run = FailJson f ->
                            Sdc.perform_module_operation p s = (FailJson f, s, [])).
  { intros f Hf. subst run.
    destruct (sdc_validate_parameters_pure p (Sdc.sdc_name p) (Sdc.sdc_id p)
                (Sdc.sdc_ip p) s) as [o [Ho _]].
    rewrite Ho in Hf. unfold outcome_of in Hf. cbn [fst] in Hf. subst o.
    unfold Sdc.perform_module_operation. cbv zeta.
    now rewrite (bind_fail _ _ _ _ _ _ Ho). }
  revert Hstop. subst run selectors.
  unfold Sdc.validate_parameters. cbn [Sdc.check_identifiers forallb].
  unfold bind, ret, fail_json, fails_with, outcome_of, state_of, calls_of.
  destruct (Sdc.sdc_name p) as [a|]; cbn [is_none andb];
    [rewrite (blank_whitespace_only a); destruct (whitespace_only a) eqn:Ha|];
    (destruct (Sdc.sdc_id p) as [b|]; cbn [is_none andb];
     [rewrite ?(blank_whitespace_only b); destruct (whitespace_only b) eqn:Hb|]);
    (destruct (Sdc.sdc_ip p) as [c|]; cbn [is_none andb];
     [rewrite ?(blank_whitespace_only c); destruct (whitespace_only c) eqn:Hc|]);
    cbn [fst snd app In]; intros Hstop;
    (split; [reflexivity|]); (split; [reflexivity|]);
    (split; [|split; [|split; [|exact Hstop]]]).
  all: split; intros H; in_cases; subst; selector_facts.
Qed.

(** [validate_parameters] of the NVMe-host module tests [nvme_host_id] and
    [nvme_host_name] only: it passes exactly when one of the three selectors
    is supplied and neither the id nor the name, when supplied, is made of
    white space (whatever [nqn] is); it fails with MissingIdentifier exactly
    when none is supplied and with InvalidIdentifier exactly when a supplied
    id or name is made of white space; it calls nothing, and when it fails
    the module stops with that failure before any call. *)
Theorem nvme_validation_decides :
  forall (S : Type) (conn : PowerFlexConn S) (s : S) (p : NvmeHost.params),
    let checked := [NvmeHost.nvme_host_id p; NvmeHost.nvme_host_name p] in
    let selectors := checked ++ [NvmeHost.nqn p] in
    let run := NvmeHost.validate_parameters p s in
    state_of run = s /\ calls_of run = []
    /\ (outcome_of run = Ok tt <->
        (exists v, In (Some v) selectors)
        /\ forall v, In (Some v) checked -> whitespace_only v = false)
    /\ (fails_with NvmeHost.kind_of MissingIdentifier (outcome_of run) <->
        forall v, ~ In (Some v) selectors)
    /\ (fails_with NvmeHost.kind_of InvalidIdentifier (outcome_of run) <->
        exists v, In (Some v) checked /\ whitespace_only v = true)
    /\ forall f, outcome_of run = FailJson f ->
                 NvmeHost.perform_module_operation p s = (FailJson f, s, []).
Proof.
  intros S conn s p checked selectors run.
  assert (Hstop : forall f, outcome_of run = FailJson f ->
                            NvmeHost.perform_module_operation p s
                            = (FailJson f, s, [])).
  { intros f Hf. subst run.
    destruct (nvme_validate_parameters_pure p s) as [o Ho].
    rewrite (Ho s) in Hf. unfold outcome_of in Hf. cbn [fst] in Hf. subst o.
    unfold NvmeHost.perform_module_operation. cbv zeta.
    now rewrite (bind_fail _ _ _ _ _ _ (Ho s)). }
  revert Hstop. subst run selectors checked.
  unfold NvmeHost.validate_parameters. cbn [NvmeHost.check_identifiers].
  unfold bind, ret, fail_json, fails_with, outcome_of, state_of, calls_of.
  destruct (NvmeHost.nvme_host_id p) as [a|]; cbn [is_none andb];
    [rewrite (blank_whitespace_only a); destruct (whitespace_only a) eqn:Ha|];
    (destruct (NvmeHost.nvme_host_name p) as [b|]; cbn [is_none andb];
     [rewrite ?(blank_whitespace_only b); destruct (whitespace_only b) eqn:Hb|]);
    (destruct (NvmeHost.nqn p) as [c|]; cbn [is_none andb]);
    cbn [fst snd app In]; intros Hstop;
    (split; [reflexivity|]); (split; [reflexivity|]);
    (split; [|split; [|split; [|exact Hstop]]]).
  all: split; intros H; in_cases; subst; selector_facts.
Qed.

(** ** What the SDC module does to the remote system *)

Lemma existsb_false_filter {A} (f : A -> bool) (l : list A) :
  existsb f l = false -> List.filter f l = [].
Proof.
  induction l as [|a l IH]; simpl; [reflexivity|].
  destruct (f a); simpl; [discriminate | exact IH].
Qed.

(** The calls of an SDC lookup. *)
Lemma sdc_get_sdc_trace {S : Type} {conn : PowerFlexConn S}
    (n ip i : option string) (s : S) :
  state_of (Sdc.get_sdc n ip i s) = s
  /\ existsb mutating (calls_of (Sdc.get_sdc n ip i s)) = false
  /\ forallb sdc_call_allowed (calls_of (Sdc.get_sdc n ip i s)) = true.
Proof.
  rewrite sdc_get_sdc_run. cbv zeta.
  destruct (sdc_get _ s) as [e|[|d rest]];
    [| |destruct (sdc_get_mapped_volumes (rec_id d) s)]; auto.
Qed.

(** Splitting a run of the SDC module on validation, the first lookup, the
    parameters and the answers of the remote system. *)
Ltac sdc_run_cases S conn p s :=
  let o := fresh "o" in
  let Ho := fresh "Ho" in
  destruct (sdc_validate_parameters_pure p (Sdc.sdc_name p) (Sdc.sdc_id p)
              (Sdc.sdc_ip p) s) as [o [Ho _]];
  destruct o as [[]|?f|?e];
  [ rewrite (sdc_perform_after_validation p s Ho);
    let H0 := fresh "Hlookup" in
    pose proof (sdc_get_sdc_trace (Sdc.sdc_name p) (Sdc.sdc_ip p)
                  (Sdc.sdc_id p) s) as H0;
    destruct (Sdc.get_sdc (Sdc.sdc_name p) (Sdc.sdc_ip p) (Sdc.sdc_id p) s)
      as [[[[?d|]|?f|?e] ?s0] ?t0];
    unfold state_of, calls_of in H0; cbn [fst snd] in H0;
    destruct H0 as (? & ? & ?); subst;
    destruct (Sdc.state p);
    try (destruct (Sdc.sdc_new_name p) as [?nn|];
         [destruct (blank nn);
          [|match goal with
            | |- context [sdc_rename ?i ?n ?sa] =>
                destruct (sdc_rename i n sa) as [[?e|?u] ?s1]
            end;
            try match goal with
              | |- context [Sdc.get_sdc (Some ?n) ?ip ?i ?sb] =>
                  let H1 := fresh "Hrefetch" in
                  pose proof (sdc_get_sdc_trace (Some n) ip i sb) as H1;
                  destruct (Sdc.get_sdc (Some n) ip i sb)
                    as [[[?details|?f|?e] ?s2] ?t1];
                  unfold state_of, calls_of in H1; cbn [fst snd] in H1;
                  destruct H1 as (? & ? & ?); subst
              end]|])
  | unfold Sdc.perform_module_operation; cbv zeta;
    rewrite (bind_fail _ _ _ _ _ _ Ho)
  | unfold Sdc.perform_module_operation; cbv zeta;
    rewrite (bind_crash _ _ _ _ _ _ Ho) ];
  unfold state_of, calls_of, outcome_of; cbn [fst snd].

(** Whatever it is given and however it ends, the SDC module only ever
    calls [sdc.get], [sdc.get_mapped_volumes] and [sdc.rename] (it never
    deletes, creates or modifies a limit) and makes at most one mutating
    call; with [state = absent] or without [sdc_new_name] it makes none and
    leaves the remote state as it is. *)
Theorem sdc_only_reads_and_renames :
  forall (S : Type) (conn : PowerFlexConn S) (s : S) (p : Sdc.params),
    forallb sdc_call_allowed (calls_of (Sdc.perform_module_operation p s)) = true
    /\ length (List.filter mutating (calls_of (Sdc.perform_module_operation p s))) <= 1
    /\ (Sdc.state p = absent \/ Sdc.sdc_new_name p = None ->
        state_of (Sdc.perform_module_operation p s) = s
        /\ existsb mutating (calls_of (Sdc.perform_module_operation p s)) = false).
Proof.
  intros S conn s p.
  sdc_run_cases S conn p s;
    rewrite ?forallb_app, ?filter_app, ?length_app, ?existsb_app;
    cbn [forallb List.filter mutating sdc_call_allowed existsb length app];
    repeat match goal with
      | H : existsb mutating ?t = false |- _ =>
          rewrite ?(existsb_false_filter _ _ H), ?H; clear H
      | H : forallb sdc_call_allowed ?t = true |- _ => rewrite ?H; clear H
      end;
    cbn [length andb orb Nat.add];
    (split; [reflexivity|]); (split; [lia|]);
    intros [Hc|Hc]; try discriminate Hc; auto.
Qed.

(** When the SDC module ends well, [changed] tells exactly whether a
    mutating call was made, and with [changed = false] the remote state is
    as it was. *)
Theorem sdc_changed_is_sound :
  forall (S : Type) (conn : PowerFlexConn S) (s : S) (p : Sdc.params)
         (r : Sdc.result),
    outcome_of (Sdc.perform_module_operation p s) = Ok r ->
    Sdc.changed r
    = existsb mutating (calls_of (Sdc.perform_module_operation p s))
    /\ (Sdc.changed r = false ->
        state_of (Sdc.perform_module_operation p s) = s)
    /\ (Sdc.state p = absent -> Sdc.sdc_details r = None).
Proof.
  intros S conn s p r.
  sdc_run_cases S conn p s; intros Hr; inversion Hr; subst;
    cbn [Sdc.changed Sdc.sdc_details];
    rewrite ?existsb_app; cbn [existsb mutating];
    repeat match goal with
      | H : existsb mutating ?t = false |- _ => rewrite ?H; clear H
      end;
    cbn [orb];
    (split; [reflexivity|]); (split; [intros Hc; try discriminate Hc; reflexivity|]);
    intros Hst; try discriminate Hst; reflexivity.
Qed.

(** ** Modifying an NVMe host *)

(** Splitting [perform_modify] and its plan on every test and every answer
    of the remote system. *)
Ltac modify_split d nn mp ms s :=
  unfold NvmeHost.perform_modify, modify_plan, bind, try_write, ret, fail_json,
    outcome_of, calls_of;
  destruct nn as [nn|]; cbn [name_settled];
  [destruct (py_eqb (PyStr nn) (rec_name d)); cbn [negb];
   [|destruct (sdc_rename (rec_id d) nn s) as [[?e|?u] ?s1]]|];
  (destruct mp as [mp|]; cbn [limit_settled truthy];
   [destruct (String.eqb mp ""); destruct (String.eqb mp (py_str (rec_maxNumPaths d)));
    cbn [negb andb orb]|]);
  try match goal with
    | |- context [host_modify_max_num_paths ?i ?v ?s0] =>
        destruct (host_modify_max_num_paths i v s0) as [[?e|?u] ?s2]
    end;
  (destruct ms as [ms|]; cbn [limit_settled truthy];
   [destruct (String.eqb ms "");
    destruct (String.eqb ms (py_str (rec_maxNumSysPorts d)));
    cbn [negb andb orb]|]);
  try match goal with
    | |- context [host_modify_max_num_sys_ports ?i ?v ?s0] =>
        destruct (host_modify_max_num_sys_ports i v s0) as [[?e|?u] ?s3]
    end;
  cbn [app fst snd is_nil negb NvmeHost.kind_of].

(** [perform_modify] follows the plan of the differences: when it ends well
    it has made exactly the planned writes, in the order rename, paths,
    ports, and reports a change exactly when the plan is not empty; when a
    write raises it stops there with a RemoteCallFailure, the writes before
    it stay made (nothing is rolled back) and the ones after it are not
    tried; it never crashes. *)
Theorem nvme_perform_modify_follows_plan :
  forall (S : Type) (conn : PowerFlexConn S) (s : S) (d : sdc_record)
         (nn mp ms : option string),
    match outcome_of (NvmeHost.perform_modify d nn mp ms s) with
    | Ok c =>
        calls_of (NvmeHost.perform_modify d nn mp ms s) = modify_plan d nn mp ms
        /\ c = negb (is_nil (modify_plan d nn mp ms))
    | FailJson f =>
        (exists pre c post,
            modify_plan d nn mp ms = pre ++ c :: post
            /\ calls_of (NvmeHost.perform_modify d nn mp ms s) = pre ++ [c])
        /\ NvmeHost.kind_of f = RemoteCallFailure
    | Crash _ => False
    end.
Proof.
  intros S conn s d nn mp ms.
  modify_split d nn mp ms s; try (split; reflexivity);
    (split; [|reflexivity]);
    first [ exists [], (SdcRename (rec_id d) nn); eexists; split; reflexivity
          | exists [SdcRename (rec_id d) nn]; do 2 eexists; split; reflexivity
          | exists []; do 2 eexists; split; reflexivity
          | eexists [_]; do 2 eexists; split; reflexivity
          | eexists [_; _]; do 2 eexists; split; reflexivity ].
Qed.

(** On an existing host with [state = present], a run that ends well has
    made the lookup, then exactly the planned writes, then (only when
    something was written) the read of the re-fetch; [changed] is true
    exactly when the plan is not empty, and with an empty plan the result is
    the host as found and the remote state is untouched.  A field that is
    not supplied is never written. *)
Theorem nvme_present_run_makes_planned_writes :
  forall (S : Type) (conn : PowerFlexConn S) (s : S) (p : NvmeHost.params)
         (d : sdc_record) (s0 : S) (t0 : list call)
         (r : NvmeHost.result) (s' : S) (t : list call),
    NvmeHost.get_nvme_host (NvmeHost.nvme_host_id p) (NvmeHost.nvme_host_name p)
      (NvmeHost.nqn p) s = (Ok (Some d), s0, t0) ->
    NvmeHost.state p = present ->
    NvmeHost.perform_module_operation p s = (Ok r, s', t) ->
    let plan := modify_plan d (NvmeHost.nvme_host_new_name p)
                  (NvmeHost.max_num_paths p) (NvmeHost.max_num_sys_ports p) in
    NvmeHost.changed r = negb (is_nil plan)
    /\ (exists tf, t = t0 ++ plan ++ tf /\ existsb mutating tf = false
                   /\ (NvmeHost.changed r = false -> tf = []))
    /\ (NvmeHost.changed r = false ->
        NvmeHost.nvme_host_details r = Some d /\ s' = s).
Proof.
  intros S conn s p d s0 t0 r s' t Hl Hst Hrun plan.
  destruct (nvme_perform_Ok_inv _ _ _ _ _ Hrun)
    as (found & t0' & x & tm & tf & Hv & Hl' & Hm & Hf & Hc & ->).
  rewrite Hl in Hl'. inversion Hl'; subst found t0' s0. clear Hl'.
  unfold nvme_mutation in Hm. rewrite Hst in Hm.
  apply bind_Ok_inv in Hm. destruct Hm as (c & s1 & t1 & t2 & Hpm & Hret & ->).
  inversion Hret; subst. rewrite app_nil_r. cbn [fst snd] in *.
  pose proof (nvme_perform_modify_follows_plan S conn s d
                (NvmeHost.nvme_host_new_name p) (NvmeHost.max_num_paths p)
                (NvmeHost.max_num_sys_ports p)) as Hplan.
  rewrite Hpm in Hplan. unfold outcome_of, calls_of in Hplan.
  cbn [fst snd] in Hplan. destruct Hplan as [-> Hchanged].
  destruct (nvme_perform_modify_changed _ _ _ _ _ _ _ _ Hpm) as (_ & _ & Hsame).
  fold plan in Hchanged. fold plan.
  split; [congruence|]. split.
  - exists tf. split; [reflexivity|]. destruct c.
    + destruct (nvme_get_nvme_host_reads _ _ _ _ _ _ _ Hf) as [_ Htf].
      split; [exact Htf|]. intros Hfalse. congruence.
    + destruct Hf as [_ ->]. auto.
  - intros Hfalse. rewrite Hc in Hfalse. destruct c; [discriminate Hfalse|].
    destruct Hf as [-> _]. destruct (Hsame eq_refl) as [-> _]. auto.
Qed.

(** ** What the NVMe-host module never does *)

(** With [state = present] the NVMe-host module never deletes; with
    [state = absent] it never renames, modifies a limit or creates: its
    only mutating call is a delete. *)
Theorem nvme_state_limits_the_calls :
  forall (S : Type) (conn : PowerFlexConn S) (s : S) (p : NvmeHost.params),
    Forall (fun c => match NvmeHost.state p with
                     | present => is_delete c = false
                     | absent => mutating c = true -> is_delete c = true
                     end)
      (calls_of (NvmeHost.perform_module_operation p s)).
Proof.
  intros S conn s p.
  set (P := fun c => match NvmeHost.state p with
                     | present => is_delete c = false
                     | absent => mutating c = true -> is_delete c = true
                     end).
  assert (Hget : forall f, P (SdcGet f)).
  { intros f. unfold P. destruct (NvmeHost.state p); [reflexivity|].
    intros H; discriminate H. }
  enough (H : calls_satisfy P (NvmeHost.perform_module_operation p) s).
  { destruct (NvmeHost.perform_module_operation p s) as [[o s'] t] eqn:Hrun.
    exact (H _ _ _ Hrun). }
  intros o s' t Hrun. rewrite nvme_perform_steps in Hrun. revert o s' t Hrun.
  apply calls_bind.
  { intros o s' t H. destruct (nvme_validate_parameters_pure p s) as [o' Hall].
    rewrite Hall in H. inversion H. constructor. }
  intros [] s1 t1 _. apply calls_bind.
  { intros o s' t H. rewrite nvme_get_nvme_host_run in H.
    destruct (first_selector _) as [flt|];
      [destruct (sdc_get flt s1) as [e|[|d rest]];
       [|destruct (truthy (NvmeHost.nvme_host_id p))|]|];
      inversion H; subst; repeat constructor; apply Hget. }
  intros found s2 t2 _. apply calls_bind.
  { unfold nvme_mutation. unfold P.
    destruct found as [d|], (NvmeHost.state p).
    - calls_step; [|calls_step].
      intros o s' t H.
      eapply Forall_impl; [|eapply nvme_perform_modify_calls; eauto].
      intros c Hc. destruct c; try reflexivity; contradiction.
    - calls_step; [|calls_step].
      apply nvme_remove_calls. intros i _. reflexivity.
    - apply nvme_create_host_calls; intros; reflexivity.
    - calls_step. }
  intros x s3 t3 _. apply calls_bind; [|intros; apply calls_ret].
  destruct (snd x); [|apply calls_ret].
  intros o s' t H. rewrite nvme_get_nvme_host_run in H.
  destruct (first_selector _) as [flt|];
    [destruct (sdc_get flt s3) as [e|[|d rest]];
     [|destruct (truthy (NvmeHost.nvme_host_id p))|]|];
    inversion H; subst; repeat constructor; apply Hget.
Qed.

(** ** Deleting and creating an NVMe host *)

(** [create_host] once its tests have passed. *)
Lemma nvme_create_host_run {S : Type} {conn : PowerFlexConn S}
    (p : NvmeHost.params) (n mp ms : option string) (q : string) (s : S) :
  truthy (Some q) = true ->
  truthy (NvmeHost.nvme_host_new_name p) = false ->
  blank q = false ->
  NvmeHost.create_host p n (Some q) mp ms s =
  match host_create (Some q) n mp ms s with
  | (inl e, s1) =>
      (FailJson (NvmeHost.CreateFailed e), s1, [HostCreate (Some q) n mp ms])
  | (inr None, s1) => (Ok (None, false), s1, [HostCreate (Some q) n mp ms])
  | (inr (Some c), s1) =>
      match NvmeHost.get_nvme_host (Some (rec_id c)) None None s1 with
      | (Ok details, s2, t2) =>
          (Ok (details, true), s2, HostCreate (Some q) n mp ms :: t2)
      | (FailJson f, s2, t2) =>
          (FailJson f, s2, HostCreate (Some q) n mp ms :: t2)
      | (Crash e, s2, t2) => (Crash e, s2, HostCreate (Some q) n mp ms :: t2)
      end
  end.
Proof.
  intros Hq Hnn Hb.
  unfold NvmeHost.create_host, NvmeHost.create_nvme_host.
  rewrite Hq, Hnn, Hb. unfold bind, try_write, ret, fail_json. cbn [negb].
  destruct (host_create (Some q) n mp ms s) as [[e|[c|]] s1]; try reflexivity.
  destruct (NvmeHost.get_nvme_host (Some (rec_id c)) None None s1)
    as [[[details|f|e] s2] t2]; cbn [app]; rewrite ?app_nil_r; reflexivity.
Qed.

(** The calls of a run start with those of the lookup and of the mutation
    step. *)
Lemma nvme_perform_calls_prefix {S : Type} {conn : PowerFlexConn S}
    (p : NvmeHost.params) (s : S) found s0 t0 om sm tm :
  NvmeHost.validate_parameters p s = (Ok tt, s, []) ->
  NvmeHost.get_nvme_host (NvmeHost.nvme_host_id p) (NvmeHost.nvme_host_name p)
    (NvmeHost.nqn p) s = (Ok found, s0, t0) ->
  nvme_mutation p found s = (om, sm, tm) ->
  exists tf, calls_of (NvmeHost.perform_module_operation p s) = t0 ++ tm ++ tf.
Proof.
  intros Hv Hl Hm. destruct om as [x|f|e].
  - rewrite (nvme_perform_run p s _ _ _ _ _ _ Hv Hl Hm).
    destruct (if snd x then _ else _) as [[[details|f|e] s2] tf];
      exists tf; reflexivity.
  - rewrite (nvme_perform_mutation_fails p s _ _ _ _ _ _ Hv Hl Hm).
    exists []. now rewrite app_nil_r.
  - rewrite nvme_perform_steps.
    destruct (nvme_get_nvme_host_reads _ _ _ _ _ _ _ Hl) as [-> _].
    rewrite (bind_ok _ _ _ _ _ _ Hv), (bind_ok _ _ _ _ _ _ Hl),
      (bind_crash _ _ _ _ _ _ Hm).
    exists []. now rewrite app_nil_r.
Qed.

(** Deleting a host that exists, on a remote system that then no longer
    returns it: selected by [nvme_host_id] (as in the module's own "Remove"
    example) the module deletes the host and then fails with
    ResourceNotFound, because the read that follows every change treats an
    id without a match as an error; selected by name or nqn the same run
    ends well with [changed = true] and no details. *)
Theorem nvme_delete_then_refetch :
  forall (S : Type) (conn : PowerFlexConn S) (s : S) (p : NvmeHost.params)
         (flt flt' : filter) (d : sdc_record) (rest : list sdc_record)
         (u : unit) (s1 : S),
    NvmeHost.validate_parameters p s = (Ok tt, s, []) ->
    NvmeHost.state p = absent ->
    first_selector (nvme_order (NvmeHost.nvme_host_id p)
                      (NvmeHost.nvme_host_name p) (NvmeHost.nqn p)) = Some flt ->
    sdc_get flt s = inr (d :: rest) ->
    sdc_delete (rec_id d) s = (inr u, s1) ->
    first_selector (nvme_order (NvmeHost.nvme_host_id p)
                      (py_or (NvmeHost.nvme_host_new_name p)
                         (NvmeHost.nvme_host_name p))
                      (NvmeHost.nqn p)) = Some flt' ->
    sdc_get flt' s1 = inr [] ->
    NvmeHost.perform_module_operation p s
    = (if truthy (NvmeHost.nvme_host_id p)
       then FailJson (NvmeHost.UnableToFind (snd flt'))
       else Ok {| NvmeHost.changed := true; NvmeHost.nvme_host_details := None |},
       s1, [SdcGet flt; SdcDelete (rec_id d); SdcGet flt']).
Proof.
  intros S conn s p flt flt' d rest u s1 Hv Hst Hf Hget Hdel Hf' Hget'.
  assert (Hl : NvmeHost.get_nvme_host (NvmeHost.nvme_host_id p)
                 (NvmeHost.nvme_host_name p) (NvmeHost.nqn p) s
               = (Ok (Some d), s, [SdcGet flt])).
  { rewrite nvme_get_nvme_host_run, Hf, Hget. reflexivity. }
  assert (Hm : nvme_mutation p (Some d) s
               = (Ok (Some d, true), s1, [SdcDelete (rec_id d)])).
  { unfold nvme_mutation. rewrite Hst. unfold bind.
    rewrite nvme_remove_run, Hdel. reflexivity. }
  rewrite (nvme_perform_run p s _ _ _ _ _ _ Hv Hl Hm). cbn [fst snd].
  rewrite nvme_get_nvme_host_run, Hf', Hget'.
  destruct (truthy (NvmeHost.nvme_host_id p)); reflexivity.
Qed.

(** When no host is found and [state = present], creation is gated: without
    an [nqn] that is not empty the module fails with ResourceNotFound, with
    a new name it fails with InvalidInput, with an [nqn] made of white space
    it fails with InvalidIdentifier, each time without any mutating call;
    otherwise the call after the lookup is [host.create] with the [nqn],
    name and limits exactly as supplied. *)
Theorem nvme_create_is_gated :
  forall (S : Type) (conn : PowerFlexConn S) (s : S) (p : NvmeHost.params)
         (s0 : S) (t0 : list call),
    NvmeHost.validate_parameters p s = (Ok tt, s, []) ->
    NvmeHost.get_nvme_host (NvmeHost.nvme_host_id p) (NvmeHost.nvme_host_name p)
      (NvmeHost.nqn p) s = (Ok None, s0, t0) ->
    NvmeHost.state p = present ->
    (truthy (NvmeHost.nqn p) = false ->
     NvmeHost.perform_module_operation p s = (FailJson NvmeHost.NqnRequired, s, t0))
    /\ (truthy (NvmeHost.nqn p) = true ->
        truthy (NvmeHost.nvme_host_new_name p) = true ->
        NvmeHost.perform_module_operation p s
        = (FailJson NvmeHost.NewNameOnCreate, s, t0))
    /\ (forall q, NvmeHost.nqn p = Some q -> q <> "" ->
                  truthy (NvmeHost.nvme_host_new_name p) = false ->
                  whitespace_only q = true ->
                  NvmeHost.perform_module_operation p s
                  = (FailJson NvmeHost.ProvideValidNqn, s, t0))
    /\ (forall q, NvmeHost.nqn p = Some q ->
                  truthy (NvmeHost.nvme_host_new_name p) = false ->
                  whitespace_only q = false ->
                  exists tail,
                    calls_of (NvmeHost.perform_module_operation p s)
                    = t0 ++ HostCreate (Some q) (NvmeHost.nvme_host_name p)
                              (NvmeHost.max_num_paths p)
                              (NvmeHost.max_num_sys_ports p) :: tail).
Proof.
  intros S conn s p s0 t0 Hv Hl Hst.
  assert (Hstop : forall f t1,
             nvme_mutation p None s = (FailJson f, s, t1) ->
             NvmeHost.perform_module_operation p s = (FailJson f, s, t0 ++ t1)).
  { intros f t1 Hm. exact (nvme_perform_mutation_fails p s _ _ _ _ _ _ Hv Hl Hm). }
  unfold nvme_mutation in Hstop. rewrite Hst in Hstop.
  repeat split.
  - intros Hq. rewrite <- (app_nil_r t0). apply Hstop.
    unfold NvmeHost.create_host, bind. rewrite Hq. reflexivity.
  - intros Hq Hnn. rewrite <- (app_nil_r t0). apply Hstop.
    unfold NvmeHost.create_host, bind, ret. rewrite Hq, Hnn. reflexivity.
  - intros q Hq Hne Hnn Hws. rewrite <- (app_nil_r t0). apply Hstop.
    apply truthy_Some in Hne. rewrite <- blank_whitespace_only in Hws.
    unfold NvmeHost.create_host, NvmeHost.create_nvme_host, bind, ret.
    rewrite Hq, Hne, Hnn, Hws. reflexivity.
  - intros q Hq Hnn Hws. rewrite <- blank_whitespace_only in Hws.
    assert (Hne : truthy (Some q) = true).
    { destruct (truthy (Some q)) eqn:Ht; [reflexivity|].
      apply blank_not_truthy in Ht. congruence. }
    destruct (nvme_mutation p None s) as [[om sm] tm] eqn:Hm.
    destruct (nvme_perform_calls_prefix p s _ _ _ _ _ _ Hv Hl Hm) as [tf ->].
    unfold nvme_mutation in Hm. rewrite Hst, Hq in Hm.
    rewrite (nvme_create_host_run p _ _ _ q s Hne Hnn Hws) in Hm.
    destruct (host_create (Some q) (NvmeHost.nvme_host_name p)
                (NvmeHost.max_num_paths p) (NvmeHost.max_num_sys_ports p) s)
      as [[e|[c|]] s1];
      [| destruct (NvmeHost.get_nvme_host (Some (rec_id c)) None None s1)
           as [[[details|f|e] s2] t2] |];
      inversion Hm; subst; eexists; cbn [app]; reflexivity.
Qed.

(** Creating a host ([state = present], nothing found, an [nqn] that is not
    blank and no new name), by what [host.create] answers:
    - it raises: the module fails with RemoteCallFailure right after the
      call;
    - it returns the host, and the remote system then finds it by its id
      and by the selectors of the invocation: the module reads it by id,
      reads it again by the original selectors and ends well with
      [changed = true] and the record of that last read;
    - it returns nothing (a value that is false): the module ends well with
      [changed = false] and no details, although the create call was made
      and the remote state may have changed. *)
Theorem nvme_create_outcomes :
  forall (S : Type) (conn : PowerFlexConn S) (s : S) (p : NvmeHost.params)
         (s0 : S) (t0 : list call) (q : string),
    NvmeHost.validate_parameters p s = (Ok tt, s, []) ->
    NvmeHost.get_nvme_host (NvmeHost.nvme_host_id p) (NvmeHost.nvme_host_name p)
      (NvmeHost.nqn p) s = (Ok None, s0, t0) ->
    NvmeHost.state p = present ->
    NvmeHost.nqn p = Some q -> whitespace_only q = false ->
    truthy (NvmeHost.nvme_host_new_name p) = false ->
    let create := HostCreate (Some q) (NvmeHost.nvme_host_name p)
                    (NvmeHost.max_num_paths p) (NvmeHost.max_num_sys_ports p) in
    let answer := host_create (Some q) (NvmeHost.nvme_host_name p)
                    (NvmeHost.max_num_paths p) (NvmeHost.max_num_sys_ports p) s in
    (forall e, fst answer = inl e ->
        NvmeHost.perform_module_operation p s
        = (FailJson (NvmeHost.CreateFailed e), snd answer, t0 ++ [create]))
    /\ (forall c flt d1 rest1 d2 rest2,
           fst answer = inr (Some c) -> rec_id c <> "" ->
           sdc_get (KId, Some (rec_id c)) (snd answer) = inr (d1 :: rest1) ->
           first_selector (nvme_order (NvmeHost.nvme_host_id p)
                             (NvmeHost.nvme_host_name p) (NvmeHost.nqn p))
           = Some flt ->
           sdc_get flt (snd answer) = inr (d2 :: rest2) ->
           NvmeHost.perform_module_operation p s
           = (Ok {| NvmeHost.changed := true;
                    NvmeHost.nvme_host_details := Some d2 |},
              snd answer,
              t0 ++ [create; SdcGet (KId, Some (rec_id c)); SdcGet flt]))
    /\ (fst answer = inr None ->
        NvmeHost.perform_module_operation p s
        = (Ok {| NvmeHost.changed := false; NvmeHost.nvme_host_details := None |},
           snd answer, t0 ++ [create])).
Proof.
  intros S conn s p s0 t0 q Hv Hl Hst Hq Hws Hnn create answer.
  rewrite <- blank_whitespace_only in Hws.
  assert (Hne : truthy (Some q) = true).
  { destruct (truthy (Some q)) eqn:Ht; [reflexivity|].
    apply blank_not_truthy in Ht. congruence. }
  assert (Hm : nvme_mutation p None s
               = NvmeHost.create_host p (NvmeHost.nvme_host_name p) (Some q)
                   (NvmeHost.max_num_paths p) (NvmeHost.max_num_sys_ports p) s).
  { unfold nvme_mutation. now rewrite Hst, Hq. }
  rewrite (nvme_create_host_run p _ _ _ q s Hne Hnn Hws) in Hm.
  fold answer in Hm. fold create in Hm.
  destruct answer as [ans s1]. cbn [fst snd]. split; [|split].
  - intros e ->. exact (nvme_perform_mutation_fails p s _ _ _ _ _ _ Hv Hl Hm).
  - intros c flt d1 rest1 d2 rest2 -> Hid Hget1 Hf Hget2.
    assert (Hbyid : NvmeHost.get_nvme_host (Some (rec_id c)) None None s1
                    = (Ok (Some d1), s1, [SdcGet (KId, Some (rec_id c))])).
    { rewrite nvme_get_nvme_host_run. unfold nvme_order. cbn [first_selector].
      change (truthy None) with false. cbv iota.
      apply truthy_Some in Hid. rewrite Hid, Hget1. reflexivity. }
    rewrite Hbyid in Hm.
    rewrite (nvme_perform_run p s _ _ _ _ _ _ Hv Hl Hm). cbn [fst snd].
    assert (Hor : py_or (NvmeHost.nvme_host_new_name p) (NvmeHost.nvme_host_name p)
                  = NvmeHost.nvme_host_name p).
    { unfold py_or. now rewrite Hnn. }
    rewrite Hor, nvme_get_nvme_host_run, Hf, Hget2. reflexivity.
  - intros ->. rewrite (nvme_perform_run p s _ _ _ _ _ _ Hv Hl Hm).
    cbn [fst snd]. rewrite app_nil_r. reflexivity.
Qed.

(** ** When the NVMe-host module crashes *)

Lemma nvme_validate_never_crashes {S : Type} {conn : PowerFlexConn S}
    (p : NvmeHost.params) (s : S) e :
  outcome_of (NvmeHost.validate_parameters p s) <> Crash e.
Proof.
  unfold NvmeHost.validate_parameters. cbn [NvmeHost.check_identifiers].
  unfold bind, ret, fail_json, outcome_of.
  destruct (NvmeHost.nvme_host_id p) as [a|]; [destruct (blank a)|];
    (destruct (NvmeHost.nvme_host_name p) as [b|]; [destruct (blank b)|]);
    destruct (NvmeHost.nqn p); cbn; discriminate.
Qed.

(** An [nqn] that is the empty string, with no id and no name, passes
    validation and then crashes the lookup: no selector is true, so
    [get_nvme_host] reads a local variable that was never bound
    (UnboundLocalError), before any call.  This is the only way validated
    parameters can have no usable selector. *)
Theorem nvme_empty_nqn_crashes :
  forall (S : Type) (conn : PowerFlexConn S) (s : S) (p : NvmeHost.params),
    NvmeHost.validate_parameters p s = (Ok tt, s, []) ->
    first_selector (nvme_order (NvmeHost.nvme_host_id p)
                      (NvmeHost.nvme_host_name p) (NvmeHost.nqn p)) = None ->
    NvmeHost.perform_module_operation p s = (Crash UnboundLocalError, s, [])
    /\ NvmeHost.nvme_host_id p = None /\ NvmeHost.nvme_host_name p = None
    /\ NvmeHost.nqn p = Some "".
Proof.
  intros S conn s p Hv Hf. split.
  - rewrite nvme_perform_steps, (bind_ok _ _ _ _ _ _ Hv).
    assert (Hl : NvmeHost.get_nvme_host (NvmeHost.nvme_host_id p)
                   (NvmeHost.nvme_host_name p) (NvmeHost.nqn p) s
                 = (Crash UnboundLocalError, s, [])).
    { now rewrite nvme_get_nvme_host_run, Hf. }
    now rewrite (bind_crash _ _ _ _ _ _ Hl).
  - revert Hv Hf. unfold NvmeHost.validate_parameters, nvme_order.
    cbn [NvmeHost.check_identifiers first_selector].
    unfold bind, ret, fail_json.
    destruct (NvmeHost.nvme_host_id p) as [a|];
      [destruct (blank a) eqn:Ha; [discriminate|];
       destruct (truthy (Some a)) eqn:Hta;
       [|apply blank_not_truthy in Hta; congruence]|];
      (destruct (NvmeHost.nvme_host_name p) as [b|];
       [destruct (blank b) eqn:Hb; [discriminate|];
        destruct (truthy (Some b)) eqn:Htb;
        [|apply blank_not_truthy in Htb; congruence]|]);
      cbn [truthy is_none andb]; try discriminate.
    destruct (NvmeHost.nqn p) as [q|]; cbn [is_none]; [|discriminate].
    intros _. destruct (String.eqb_spec q ""); [subst; auto|].
    apply truthy_Some in n. rewrite n. discriminate.
Qed.

(** [UnboundLocalError] has two causes only.  With remote records that carry
    the keys the module reads (a record lacking one would raise [KeyError]
    where it is read, which is not modelled and not spoken of here), a run
    ends in [UnboundLocalError] only when no selector is true (the empty
    [nqn] above) or when [host.create] returned a host whose id is empty,
    which leaves the read that follows it without a selector.  The re-fetch
    after a change never raises it: a selector that is true for the lookup
    is still true there. *)
Theorem nvme_unbound_local_error_causes :
  forall (S : Type) (conn : PowerFlexConn S) (s : S) (p : NvmeHost.params)
         (s' : S) (t : list call),
    NvmeHost.perform_module_operation p s = (Crash UnboundLocalError, s', t) ->
    first_selector (nvme_order (NvmeHost.nvme_host_id p)
                      (NvmeHost.nvme_host_name p) (NvmeHost.nqn p)) = None
    \/ exists c, fst (host_create (NvmeHost.nqn p) (NvmeHost.nvme_host_name p)
                        (NvmeHost.max_num_paths p)
                        (NvmeHost.max_num_sys_ports p) s) = inr (Some c)
                 /\ rec_id c = "".
Proof.
  intros S conn s p s' t H. rewrite nvme_perform_steps in H.
  apply bind_inv in H.
  destruct H as [([] & s1 & t1 & ta & Hv & H & ->) | [(f & _ & Hf) | (e' & Hv & _)]];
    [|discriminate Hf|].
  2:{ exfalso. apply (nvme_validate_never_crashes p s e').
      now rewrite Hv. }
  destruct (nvme_validate_parameters_Ok p s s _ _ _ Hv) as (-> & -> & _).
  apply bind_inv in H.
  destruct H as [(found & s2 & t2 & tb & Hl & H & ->) | [(f & _ & Hf) | (e' & Hl & _)]];
    [|discriminate Hf|].
  2:{ left. rewrite nvme_get_nvme_host_run in Hl.
      destruct (first_selector _) as [flt|]; [|reflexivity].
      destruct (sdc_get flt s) as [x|[|d rest]];
        [|destruct (truthy (NvmeHost.nvme_host_id p))|]; discriminate Hl. }
  destruct (nvme_get_nvme_host_Ok _ _ _ _ _ _ _ Hl) as (flt & Hsel & -> & _ & _).
  apply bind_inv in H.
  destruct H as [(x & s3 & t3 & tc & Hm & H & ->) | [(f & _ & Hf) | (e' & Hm & _)]];
    [|discriminate Hf|].
  - exfalso. apply bind_inv in H.
    destruct H as [(dr & s4 & t4 & td & _ & H & _) | [(f & _ & Hf) | (e' & Hr & _)]];
      [discriminate H | discriminate Hf |].
    destruct (snd x); [|discriminate Hr].
    rewrite nvme_get_nvme_host_run in Hr.
    destruct (first_selector
                (nvme_order (NvmeHost.nvme_host_id p)
                   (py_or (NvmeHost.nvme_host_new_name p)
                      (NvmeHost.nvme_host_name p))
                   (NvmeHost.nqn p))) as [flt'|] eqn:Hsel'.
    + destruct (sdc_get flt' s3) as [y|[|d rest]];
        [|destruct (truthy (NvmeHost.nvme_host_id p))|]; discriminate Hr.
    + revert Hsel Hsel'. unfold nvme_order, py_or. cbn [first_selector].
      destruct (truthy (NvmeHost.nvme_host_new_name p)) eqn:Hnn;
        [rewrite Hnn; discriminate|].
      destruct (truthy (NvmeHost.nvme_host_name p)); [discriminate|].
      destruct (truthy (NvmeHost.nvme_host_id p)); [discriminate|].
      destruct (truthy (NvmeHost.nqn p)); [discriminate|]. discriminate.
  - right. unfold nvme_mutation in Hm.
    destruct found as [d|], (NvmeHost.state p).
    + exfalso. apply bind_inv in Hm.
      destruct Hm as [(c & ? & ? & ? & _ & Hret & _) | [(f & _ & Hf) | (e'' & Hpm & _)]];
        [discriminate Hret | discriminate Hf |].
      pose proof (nvme_perform_modify_follows_plan S conn s d
                    (NvmeHost.nvme_host_new_name p) (NvmeHost.max_num_paths p)
                    (NvmeHost.max_num_sys_ports p)) as Hplan.
      rewrite Hpm in Hplan. exact Hplan.
    + exfalso. unfold bind in Hm. rewrite nvme_remove_run in Hm.
      destruct (sdc_delete (rec_id d) s) as [[x|u] sa]; discriminate Hm.
    + unfold NvmeHost.create_host, NvmeHost.create_nvme_host in Hm.
      unfold bind, try_write, ret, fail_json in Hm.
      destruct (truthy (NvmeHost.nqn p)); cbn [negb] in Hm; [|discriminate Hm].
      destruct (truthy (NvmeHost.nvme_host_new_name p)); [discriminate Hm|].
      destruct (NvmeHost.nqn p) as [q|] eqn:Hq; [|discriminate Hm].
      destruct (blank q); [discriminate Hm|].
      destruct (host_create (Some q) (NvmeHost.nvme_host_name p)
                  (NvmeHost.max_num_paths p) (NvmeHost.max_num_sys_ports p) s)
        as [[x|[c|]] sa]; try discriminate Hm.
      exists c. split; [reflexivity|].
      rewrite nvme_get_nvme_host_run in Hm. unfold nvme_order in Hm.
      cbn [first_selector] in Hm. change (truthy None) with false in Hm.
      cbv iota in Hm.
      destruct (truthy (Some (rec_id c))) eqn:Hid.
      * destruct (sdc_get (KId, Some (rec_id c)) sa) as [y|[|d rest]];
          discriminate Hm.
      * simpl in Hid. destruct (String.eqb_spec (rec_id c) "");
          [assumption | discriminate Hid].
    + discriminate Hm.
Qed.

(** ** Failures of the remote system *)

(** An exception of the SDK ends the SDC module at once with a
    RemoteCallFailure that carries its message, whatever the requested
    state: from [sdc.get] with the identifier [sdc_ip], else [sdc_name],
    else [sdc_id]; from [sdc.get_mapped_volumes] and from [sdc.rename] with
    the id of the SDC.  After a rename that raised nothing is read again. *)
Theorem sdc_remote_failures :
  forall (S : Type) (conn : PowerFlexConn S) (s : S) (p : Sdc.params)
         (flt : filter),
    Sdc.validate_parameters p (Sdc.sdc_name p) (Sdc.sdc_id p) (Sdc.sdc_ip p) s
    = (Ok tt, s, []) ->
    first_selector (sdc_order (Sdc.sdc_name p) (Sdc.sdc_ip p) (Sdc.sdc_id p))
    = Some flt ->
    (forall e, sdc_get flt s = inl e ->
        Sdc.perform_module_operation p s
        = (FailJson (Sdc.GetFailed
                       (Sdc.id_ip_name (Sdc.sdc_name p) (Sdc.sdc_ip p)
                          (Sdc.sdc_id p)) e), s, [SdcGet flt]))
    /\ (forall d rest e,
           sdc_get flt s = inr (d :: rest) ->
           sdc_get_mapped_volumes (rec_id d) s = inl e ->
           Sdc.perform_module_operation p s
           = (FailJson (Sdc.MappedVolumesFailed (rec_id d) e), s,
              [SdcGet flt; SdcGetMappedVolumes (rec_id d)]))
    /\ (forall d rest vols nn e s1,
           sdc_get flt s = inr (d :: rest) ->
           sdc_get_mapped_volumes (rec_id d) s = inr vols ->
           Sdc.state p = present ->
           Sdc.sdc_new_name p = Some nn -> whitespace_only nn = false ->
           sdc_rename (rec_id d) nn s = (inl e, s1) ->
           Sdc.perform_module_operation p s
           = (FailJson (Sdc.RenameFailed (rec_id d) e), s1,
              [SdcGet flt; SdcGetMappedVolumes (rec_id d);
               SdcRename (rec_id d) nn])).
Proof.
  intros S conn s p flt Hv Hf.
  rewrite (sdc_perform_after_validation p s Hv), sdc_get_sdc_run, Hf.
  cbv zeta. repeat split.
  - intros e ->. reflexivity.
  - intros d rest e -> ->. reflexivity.
  - intros d rest vols nn e s1 -> -> -> -> Hws Hren.
    rewrite <- blank_whitespace_only in Hws.
    cbn [rec_id set_mapped_volumes]. rewrite Hws, Hren. reflexivity.
Qed.

(** An exception of the SDK ends the NVMe-host module with a
    RemoteCallFailure that carries its message: from the query of the
    lookup, with the selector that was used; from [sdc.delete], with the id
    of the host, and nothing is read after it; and a failure of
    [perform_modify] is the failure of the module, the calls ending with
    the write that raised. *)
Theorem nvme_remote_failures :
  forall (S : Type) (conn : PowerFlexConn S) (s : S) (p : NvmeHost.params)
         (flt : filter),
    NvmeHost.validate_parameters p s = (Ok tt, s, []) ->
    first_selector (nvme_order (NvmeHost.nvme_host_id p)
                      (NvmeHost.nvme_host_name p) (NvmeHost.nqn p)) = Some flt ->
    (forall e, sdc_get flt s = inl e ->
        NvmeHost.perform_module_operation p s
        = (FailJson (NvmeHost.GetFailed (snd flt) e), s, [SdcGet flt]))
    /\ (forall d rest e s1,
           sdc_get flt s = inr (d :: rest) ->
           NvmeHost.state p = absent ->
           sdc_delete (rec_id d) s = (inl e, s1) ->
           NvmeHost.perform_module_operation p s
           = (FailJson (NvmeHost.RemoveFailed (rec_id d) e), s1,
              [SdcGet flt; SdcDelete (rec_id d)]))
    /\ (forall d rest f s1 tm,
           sdc_get flt s = inr (d :: rest) ->
           NvmeHost.state p = present ->
           NvmeHost.perform_modify d (NvmeHost.nvme_host_new_name p)
             (NvmeHost.max_num_paths p) (NvmeHost.max_num_sys_ports p) s
           = (FailJson f, s1, tm) ->
           NvmeHost.perform_module_operation p s = (FailJson f, s1, SdcGet flt :: tm)
           /\ NvmeHost.kind_of f = RemoteCallFailure).
Proof.
  intros S conn s p flt Hv Hf. split; [|split].
  - intros e Hget.
    apply (nvme_perform_lookup_fails p s _ s _ Hv).
    now rewrite nvme_get_nvme_host_run, Hf, Hget.
  - intros d rest e s1 Hget Hst Hdel.
    assert (Hl : NvmeHost.get_nvme_host (NvmeHost.nvme_host_id p)
                   (NvmeHost.nvme_host_name p) (NvmeHost.nqn p) s
                 = (Ok (Some d), s, [SdcGet flt])).
    { now rewrite nvme_get_nvme_host_run, Hf, Hget. }
    apply (nvme_perform_mutation_fails p s _ _ _ _ _ _ Hv Hl).
    unfold nvme_mutation. rewrite Hst. unfold bind.
    now rewrite nvme_remove_run, Hdel.
  - intros d rest f s1 tm Hget Hst Hpm.
    assert (Hl : NvmeHost.get_nvme_host (NvmeHost.nvme_host_id p)
                   (NvmeHost.nvme_host_name p) (NvmeHost.nqn p) s
                 = (Ok (Some d), s, [SdcGet flt])).
    { now rewrite nvme_get_nvme_host_run, Hf, Hget. }
    split.
    + apply (nvme_perform_mutation_fails p s _ _ _ _ _ _ Hv Hl).
      unfold nvme_mutation. rewrite Hst.
      now rewrite (bind_fail _ _ _ _ _ _ Hpm).
    + pose proof (nvme_perform_modify_follows_plan S conn s d
                    (NvmeHost.nvme_host_new_name p) (NvmeHost.max_num_paths p)
                    (NvmeHost.max_num_sys_ports p)) as Hplan.
      rewrite Hpm in Hplan. exact (proj2 Hplan).
Qed.

(** ** What [changed] depends on *)

(** In the SDC module [changed] is decided by the parameters alone: a run
    that ends well has [changed = true] exactly when [state = present] and
    a new name is supplied, whatever the remote system holds (the current
    name is not looked at). *)
Theorem sdc_changed_depends_on_parameters_only :
  forall (S : Type) (conn : PowerFlexConn S) (s : S) (p : Sdc.params)
         (r : Sdc.result),
    outcome_of (Sdc.perform_module_operation p s) = Ok r ->
    Sdc.changed r
    = is_present (Sdc.state p) && negb (is_none (Sdc.sdc_new_name p)).
Proof.
  intros S conn s p r.
  destruct (sdc_validate_parameters_pure p (Sdc.sdc_name p) (Sdc.sdc_id p)
              (Sdc.sdc_ip p) s) as [o [Ho _]].
  destruct o as [[]|f|e].
  - rewrite (sdc_perform_after_validation p s Ho).
    destruct (Sdc.get_sdc (Sdc.sdc_name p) (Sdc.sdc_ip p) (Sdc.sdc_id p) s)
      as [[[[d|]|f|e] s0] t0]; destruct (Sdc.state p);
      try (destruct (Sdc.sdc_new_name p) as [nn|];
           [destruct (blank nn);
            [|destruct (sdc_rename (rec_id d) nn s) as [[e|u] s1];
              [|destruct (Sdc.get_sdc (Some nn) (Sdc.sdc_ip p) (Sdc.sdc_id p) s1)
                  as [[[details|f|e] s2] t1]]]|]);
      unfold outcome_of; cbn [fst]; intros Hr; inversion Hr; reflexivity.
  - unfold Sdc.perform_module_operation. cbv zeta.
    rewrite (bind_fail _ _ _ _ _ _ Ho). discriminate.
  - unfold Sdc.perform_module_operation. cbv zeta.
    rewrite (bind_crash _ _ _ _ _ _ Ho). discriminate.
Qed.

(** In the NVMe-host module [changed] is decided by the difference between
    what is asked and what the lookup found: when the remote system already
    shows what is asked, the module makes the lookup and nothing else and
    ends with [changed = false] and the record found; and (with a
    [host.create] that returns the created host) every run that ends well
    has [changed = true] exactly when the remote system did not show it. *)
Theorem nvme_changed_iff_not_settled :
  forall (S : Type) (conn : PowerFlexConn S) (s : S) (p : NvmeHost.params)
         (found : option sdc_record) (s0 : S) (t0 : list call),
    NvmeHost.validate_parameters p s = (Ok tt, s, []) ->
    NvmeHost.get_nvme_host (NvmeHost.nvme_host_id p) (NvmeHost.nvme_host_name p)
      (NvmeHost.nqn p) s = (Ok found, s0, t0) ->
    (nvme_settled p found = true ->
     NvmeHost.perform_module_operation p s
     = (Ok {| NvmeHost.changed := false; NvmeHost.nvme_host_details := found |},
        s, t0))
    /\ (forall r, create_returns_host s ->
                  outcome_of (NvmeHost.perform_module_operation p s) = Ok r ->
                  NvmeHost.changed r = negb (nvme_settled p found)).
Proof.
  intros S conn s p found s0 t0 Hv Hl. split.
  - intros Hset.
    rewrite (nvme_perform_run p s _ _ _ _ _ _ Hv Hl
               (nvme_mutation_settled p found s Hset)).
    cbn [fst snd]. now rewrite !app_nil_r.
  - intros r HC Hr.
    destruct (NvmeHost.perform_module_operation p s) as [[o s'] t] eqn:Hrun.
    unfold outcome_of in Hr. cbn [fst] in Hr. subst o.
    destruct (nvme_perform_Ok_inv _ _ _ _ _ Hrun)
      as (found' & t0' & x & tm & tf & _ & Hl' & Hm & _ & Hc & _).
    destruct (nvme_get_nvme_host_reads _ _ _ _ _ _ _ Hl) as [-> _].
    rewrite Hl in Hl'. inversion Hl'; subst found' t0'. clear Hl'.
    rewrite Hc. unfold nvme_mutation in Hm. unfold nvme_settled.
    destruct found as [d|], (NvmeHost.state p).
    + apply bind_Ok_inv in Hm.
      destruct Hm as (c & s1 & t1 & t2 & Hpm & Hret & _).
      inversion Hret; subst. cbn [snd].
      exact (proj1 (proj2 (nvme_perform_modify_changed _ _ _ _ _ _ _ _ Hpm))).
    + apply bind_Ok_inv in Hm.
      destruct Hm as (c & s1 & t1 & t2 & Hrm & Hret & _).
      inversion Hret; subst. cbn [snd]. rewrite nvme_remove_run in Hrm.
      destruct (sdc_delete (rec_id d) s) as [[e|u] sa]; inversion Hrm.
      reflexivity.
    + exact (proj1 (nvme_create_host_Ok _ _ _ _ _ _ _ _ _ Hm HC)).
    + inversion Hm. reflexivity.
Qed.

(** The identifier that [get_sdc] puts in its failure message is the first
    of [sdc_ip], [sdc_name], [sdc_id] that is supplied, while its query is
    keyed by the first of [sdc_name], [sdc_ip], [sdc_id]: when the query
    raises, the message names the value that was queried whenever the name
    and the ip are not both supplied; with both, the query is by name and
    the message names the ip. *)
Theorem sdc_failure_identifier :
  forall (S : Type) (conn : PowerFlexConn S) (s : S)
         (sdc_name sdc_ip sdc_id : option string) (flt : filter) (e : exn),
    first_selector (sdc_order sdc_name sdc_ip sdc_id) = Some flt ->
    sdc_get flt s = inl e ->
    exists ident,
      Sdc.get_sdc sdc_name sdc_ip sdc_id s
      = (FailJson (Sdc.GetFailed ident e), s, [SdcGet flt])
      /\ (truthy sdc_name = false \/ truthy sdc_ip = false -> ident = snd flt)
      /\ (truthy sdc_name = true -> truthy sdc_ip = true ->
          flt = (KName, sdc_name) /\ ident = sdc_ip).
Proof.
  intros S conn s n ip i flt e Hf Hget.
  exists (Sdc.id_ip_name n ip i). split.
  - rewrite sdc_get_sdc_run, Hf. cbv zeta. now rewrite Hget.
  - clear Hget. revert Hf. unfold sdc_order, Sdc.id_ip_name.
    cbn [first_selector].
    destruct (truthy n), (truthy ip), (truthy i); intros H; inversion H; subst;
      (split; [intros [Hn|Hip]; try discriminate; reflexivity
              | intros Hn Hip; try discriminate; auto]).
Qed.

(** ** The properties above on examples *)

Lemma sdc_changed_is_sound_witness :
  true = existsb mutating
           (calls_of (Sdc.perform_module_operation Mem.rename_sdc_by_id
                        Mem.system)).
Proof.
  assert (H : outcome_of (Sdc.perform_module_operation Mem.rename_sdc_by_id
                            Mem.system)
              = Ok {| Sdc.changed := true;
                      Sdc.sdc_details :=
                        Some (set_mapped_volumes
                                (Mem.with_name "n2" Mem.centos_sdc) [Mem.vol1]) |})
    by (vm_compute; reflexivity).
  exact (proj1 (sdc_changed_is_sound Mem.store Mem.conn Mem.system
                  Mem.rename_sdc_by_id _ H)).
Defined.

Lemma sdc_blank_new_name_rejected_witness :
  Sdc.perform_module_operation
    (Mem.sdc_params (Some "centos_sdc") None None (Some "  ") present) Mem.system
  = (FailJson Sdc.ProvideValidName, Mem.system,
     [SdcGet (KName, Some "centos_sdc"); SdcGetMappedVolumes "abc"]).
Proof.
  exact (proj1 (sdc_blank_new_name_rejected Mem.store Mem.conn Mem.system
                  (Mem.sdc_params (Some "centos_sdc") None None (Some "  ")
                     present)
                  Mem.centos_sdc_details Mem.system
                  [SdcGet (KName, Some "centos_sdc"); SdcGetMappedVolumes "abc"]
                  "  " eq_refl eq_refl eq_refl eq_refl eq_refl)).
Defined.

Lemma sdc_rename_is_unconditional_witness :
  exists tail,
    calls_of (Sdc.perform_module_operation
                (Mem.sdc_params None (Some "abc") None (Some "centos_sdc")
                   present) Mem.system)
    = [SdcGet (KId, Some "abc"); SdcGetMappedVolumes "abc"]
      ++ SdcRename "abc" "centos_sdc" :: tail.
Proof.
  exact (proj1 (sdc_rename_is_unconditional Mem.store Mem.conn Mem.system
                  (Mem.sdc_params None (Some "abc") None (Some "centos_sdc")
                     present)
                  Mem.centos_sdc_details Mem.system
                  [SdcGet (KId, Some "abc"); SdcGetMappedVolumes "abc"]
                  "centos_sdc" eq_refl eq_refl eq_refl eq_refl eq_refl)).
Defined.

Lemma nvme_present_run_makes_planned_writes_witness :
  exists tf,
    calls_of (NvmeHost.perform_module_operation Mem.rename_host_by_id Mem.system)
    = [SdcGet (KId, Some Mem.test_id)] ++ [SdcRename Mem.test_id "h2"] ++ tf.
Proof.
  assert (H : NvmeHost.perform_module_operation Mem.rename_host_by_id Mem.system
              = (Ok {| NvmeHost.changed := true;
                       NvmeHost.nvme_host_details :=
                         Some (Mem.with_name "h2" Mem.nvme_host_test) |},
                 state_of (NvmeHost.perform_module_operation
                             Mem.rename_host_by_id Mem.system),
                 calls_of (NvmeHost.perform_module_operation
                             Mem.rename_host_by_id Mem.system)))
    by (vm_compute; reflexivity).
  destruct (nvme_present_run_makes_planned_writes Mem.store Mem.conn Mem.system
              Mem.rename_host_by_id Mem.nvme_host_test Mem.system
              [SdcGet (KId, Some Mem.test_id)] _ _ _ eq_refl eq_refl H)
    as (_ & (tf & Ht & _) & _).
  exists tf. exact Ht.
Defined.

Lemma nvme_delete_then_refetch_witness :
  NvmeHost.perform_module_operation Mem.remove_host_by_id Mem.system
  = (FailJson (NvmeHost.UnableToFind (Some Mem.test_id)),
     snd (Mem.delete Mem.test_id Mem.system),
     [SdcGet (KId, Some Mem.test_id); SdcDelete Mem.test_id;
      SdcGet (KId, Some Mem.test_id)]).
Proof.
  exact (nvme_delete_then_refetch Mem.store Mem.conn Mem.system
           Mem.remove_host_by_id (KId, Some Mem.test_id) (KId, Some Mem.test_id)
           Mem.nvme_host_test [] tt (snd (Mem.delete Mem.test_id Mem.system))
           eq_refl eq_refl eq_refl eq_refl eq_refl eq_refl eq_refl).
Defined.

Lemma nvme_create_is_gated_witness :
  NvmeHost.perform_module_operation
    (Mem.nvme_params None (Some "new_host") None None None None present)
    Mem.system
  = (FailJson NvmeHost.NqnRequired, Mem.system,
     [SdcGet (KName, Some "new_host")]).
Proof.
  exact (proj1 (nvme_create_is_gated Mem.store Mem.conn Mem.system
                  (Mem.nvme_params None (Some "new_host") None None None None
                     present)
                  Mem.system [SdcGet (KName, Some "new_host")]
                  eq_refl eq_refl eq_refl) eq_refl).
Defined.

Lemma nvme_create_outcomes_witness :
  NvmeHost.perform_module_operation Mem.create_host_by_name Mem.system
  = (Ok {| NvmeHost.changed := true;
           NvmeHost.nvme_host_details := Some Mem.new_host |},
     snd (Mem.create (Some "nqn.new") (Some "new_host") (Some "4") None
            Mem.system),
     [SdcGet (KName, Some "new_host")]
     ++ [HostCreate (Some "nqn.new") (Some "new_host") (Some "4") None;
         SdcGet (KId, Some "host-nqn.new"); SdcGet (KName, Some "new_host")]).
Proof.
  exact (proj1 (proj2 (nvme_create_outcomes Mem.store Mem.conn Mem.system
                         Mem.create_host_by_name Mem.system
                         [SdcGet (KName, Some "new_host")] "nqn.new"
                         eq_refl eq_refl eq_refl eq_refl eq_refl eq_refl))
           Mem.new_host (KName, Some "new_host") Mem.new_host []
           Mem.new_host [] eq_refl ltac:(discriminate) eq_refl eq_refl eq_refl).
Defined.

Lemma nvme_empty_nqn_crashes_witness :
  NvmeHost.perform_module_operation
    (Mem.nvme_params None None None None None (Some "") absent) Mem.system
  = (Crash UnboundLocalError, Mem.system, []).
Proof.
  exact (proj1 (nvme_empty_nqn_crashes Mem.store Mem.conn Mem.system
                  (Mem.nvme_params None None None None None (Some "") absent)
                  eq_refl eq_refl)).
Defined.

Lemma nvme_unbound_local_error_causes_witness :
  first_selector (nvme_order None None (Some "")) = None
  \/ exists c, fst (Mem.create (Some "") None None None Mem.system)
               = inr (Some c) /\ rec_id c = "".
Proof.
  exact (nvme_unbound_local_error_causes Mem.store Mem.conn Mem.system
           (Mem.nvme_params None None None None None (Some "") absent)
           Mem.system [] eq_refl).
Defined.

Lemma sdc_remote_failures_witness :
  @Sdc.perform_module_operation unit Mem.down
    (Mem.sdc_params (Some "centos_sdc") None None None absent) tt
  = (FailJson (Sdc.GetFailed (Some "centos_sdc") "connection refused"), tt,
     [SdcGet (KName, Some "centos_sdc")]).
Proof.
  exact (proj1 (sdc_remote_failures unit Mem.down tt
                  (Mem.sdc_params (Some "centos_sdc") None None None absent)
                  (KName, Some "centos_sdc") eq_refl eq_refl)
           "connection refused" eq_refl).
Defined.

Lemma nvme_remote_failures_witness :
  @NvmeHost.perform_module_operation unit Mem.down
    (Mem.nvme_params None None None None None (Some Mem.test_nqn) present) tt
  = (FailJson (NvmeHost.GetFailed (Some Mem.test_nqn) "connection refused"), tt,
     [SdcGet (KNqn, Some Mem.test_nqn)]).
Proof.
  exact (proj1 (nvme_remote_failures unit Mem.down tt
                  (Mem.nvme_params None None None None None (Some Mem.test_nqn)
                     present)
                  (KNqn, Some Mem.test_nqn) eq_refl eq_refl)
           "connection refused" eq_refl).
Defined.

Lemma sdc_changed_depends_on_parameters_only_witness :
  true = is_present present && negb (is_none (Some "centos_sdc")).
Proof.
  assert (H : outcome_of (Sdc.perform_module_operation
                            (Mem.sdc_params None (Some "abc") None
                               (Some "centos_sdc") present) Mem.system)
              = Ok {| Sdc.changed := true;
                      Sdc.sdc_details := Some Mem.centos_sdc_details |})
    by (vm_compute; reflexivity).
  exact (sdc_changed_depends_on_parameters_only Mem.store Mem.conn Mem.system
           (Mem.sdc_params None (Some "abc") None (Some "centos_sdc") present)
           _ H).
Defined.

Lemma nvme_changed_iff_not_settled_witness :
  NvmeHost.perform_module_operation
    (Mem.nvme_params (Some Mem.test_id) None (Some "nvme_host_test") (Some "3")
       (Some "") None present) Mem.system
  = (Ok {| NvmeHost.changed := false;
           NvmeHost.nvme_host_details := Some Mem.nvme_host_test |},
     Mem.system, [SdcGet (KId, Some Mem.test_id)]).
Proof.
  exact (proj1 (nvme_changed_iff_not_settled Mem.store Mem.conn Mem.system
                  (Mem.nvme_params (Some Mem.test_id) None
                     (Some "nvme_host_test") (Some "3") (Some "") None present)
                  (Some Mem.nvme_host_test) Mem.system
                  [SdcGet (KId, Some Mem.test_id)] eq_refl eq_refl) eq_refl).
Defined.

Lemma sdc_failure_identifier_witness :
  exists ident,
    @Sdc.get_sdc unit Mem.down (Some "centos_sdc") (Some "10.0.0.7") None tt
    = (FailJson (Sdc.GetFailed ident "connection refused"), tt,
       [SdcGet (KName, Some "centos_sdc")])
    /\ ident = Some "10.0.0.7".
Proof.
  destruct (sdc_failure_identifier unit Mem.down tt (Some "centos_sdc")
              (Some "10.0.0.7") None (KName, Some "centos_sdc")
              "connection refused" eq_refl eq_refl)
    as (ident & Hrun & _ & Hboth).
  exists ident. split; [exact Hrun|]. exact (proj2 (Hboth eq_refl eq_refl)).
Defined.
